(** * ProductProAI image-recognition pipeline: a shallow embedding

    The development follows the four analysers of
    [backend/services/image_recognition] and their orchestrator:

    - [ColorExtractor]   (color_extractor.py)
    - [TextureAnalyzer]  (texture_analyzer.py)
    - [ShapeDetector]    (shape_detector.py)
    - [ModelGenerator]   (model_generator.py)
    - [ImageAnalyzer]    (image_analyzer.py)

    Modelling conventions.

    - Python floats are exact rationals ([Q]); a comparison such as
      [compactness > 0.8] is the comparison of rationals, and [np.pi] is the
      rational value of the double that numpy stores.
    - A Python dictionary is a record whose fields are the keys; a field is
      an [option], [None] when the key is absent, so that [d.get(key, default)]
      reads [get (key d) default].  Dictionaries whose iteration order matters
      ([shape_counts], [color_names]) are association lists in insertion
      order.
    - A numpy array of integers is its shape and its elements in row-major
      order.
    - What PIL, OpenCV, scikit-image, scikit-learn, TensorFlow and the file
      system compute is not defined here: each class takes these calls as a
      record of functions ([Ext]), and a call that can raise returns a
      [result].
    - [try: ... except Exception as e: ...] is [catch] in the error monad
      [result].
    - Strings are sequences of code points below 256. *)

From Stdlib Require Import List String Ascii ZArith QArith Qminmax Qabs Qround Bool Lia.
From Stdlib Require Import Permutation Sorted Lqa.
Import ListNotations.

Set Implicit Arguments.

(* ------------------------------------------------------------------ *)
(** * Exceptions and the error monad *)

(** A raised Python exception (a subclass of [Exception]); [str(e)] is its
    message. *)
Inductive exn : Type :=
| FileNotFoundError (msg : string)
| ValueError (msg : string)
| IndexError (msg : string)
| KeyError (msg : string)
| OSError (msg : string)
| ZeroDivisionError (msg : string).

Definition str (e : exn) : string :=
  match e with
  | FileNotFoundError m | ValueError m | IndexError m | KeyError m
  | OSError m | ZeroDivisionError m => m
  end.

Inductive result (A : Type) : Type :=
| OK (a : A)
| Raise (e : exn).

Arguments OK {A} a.
Arguments Raise {A} e.

Definition bind {A B : Type} (m : result A) (k : A -> result B) : result B :=
  match m with
  | OK a => k a
  | Raise e => Raise e
  end.

(** [try: body  except Exception as e: handler e] *)
Definition catch {A : Type} (body : result A) (handler : exn -> A) : A :=
  match body with
  | OK a => a
  | Raise e => handler e
  end.

Declare Scope result_scope.
Delimit Scope result_scope with result.
Notation "x <- m ;; k" := (bind m (fun x => k))
  (at level 61, m at next level, right associativity) : result_scope.
Notation "m ;;; k" := (bind m (fun _ => k))
  (at level 61, right associativity) : result_scope.

Fixpoint mapM {A B : Type} (f : A -> result B) (l : list A) : result (list B) :=
  match l with
  | [] => OK []
  | a :: l' => (b <- f a ;; bs <- mapM f l' ;; OK (b :: bs))%result
  end.

(** [d.get(key, default)] *)
Definition get {A : Type} (field : option A) (default : A) : A :=
  match field with
  | Some v => v
  | None => default
  end.

(** [d[key]] *)
Definition item {A : Type} (field : option A) (key : string) : result A :=
  match field with
  | Some v => OK v
  | None => Raise (KeyError key)
  end.

(** [l[i]] on a Python list *)
Definition index {A : Type} (l : list A) (i : nat) : result A :=
  match nth_error l i with
  | Some v => OK v
  | None => Raise (IndexError "list index out of range")
  end.

(** [not l] on a Python list *)
Definition is_empty {A : Type} (l : list A) : bool :=
  match l with
  | [] => true
  | _ :: _ => false
  end.

(** [x in l] on a list of strings *)
Definition str_in (x : string) (l : list string) : bool :=
  existsb (String.eqb x) l.

(* ------------------------------------------------------------------ *)
(** * String operations *)

(** [s.lstrip('#')] *)
Fixpoint lstrip_hash (s : string) : string :=
  match s with
  | String "#" s' => lstrip_hash s'
  | _ => s
  end.

(** [s[i:i+2]] *)
Definition slice2 (s : string) (i : nat) : string := substring i 2 s.

(* ------------------------------------------------------------------ *)
(** * Floats as rationals *)

Definition Qltb (x y : Q) : bool := (Qnum x * QDen y <? Qnum y * QDen x)%Z.

Declare Scope pyfloat_scope.
Delimit Scope pyfloat_scope with py.
Notation "x <? y" := (Qltb x y) (at level 70, no associativity) : pyfloat_scope.
Notation "x >? y" := (Qltb y x) (at level 70, no associativity) : pyfloat_scope.

(** Python's [min(a, b)]: [b] when [b < a], else [a]. *)
Definition py_min (a b : Q) : Q := if (b <? a)%py then b else a.

Definition Qsum (l : list Q) : Q := fold_right Qplus 0%Q l.

(** [np.pi]: the double nearest to pi. *)
Definition np_pi : Q := 884279719003555 # 281474976710656.

(** [x.astype(int)] on a float: truncation towards zero. *)
Definition astype_int (x : Q) : Z := Z.quot (Qnum x) (QDen x).

(** Python's [max(l, key=key)] on the non-empty [best :: l]: the first element
    whose key no other element exceeds.  [gt a b] is [a > b] on keys. *)
Fixpoint max_from {A K : Type} (gt : K -> K -> bool) (key : A -> K)
    (best : A) (l : list A) : A :=
  match l with
  | [] => best
  | x :: l' => max_from gt key (if gt (key x) (key best) then x else best) l'
  end.

(** A numpy array of integers: [shape] and the elements in row-major order. *)
Record ndarray : Type := { shape : list nat; data : list Z }.

(** [a.shape[i]] *)
Definition shape_at (a : ndarray) (i : nat) : result nat :=
  match nth_error (shape a) i with
  | Some n => OK n
  | None => Raise (IndexError "tuple index out of range")
  end.

(* ------------------------------------------------------------------ *)
(** * color_extractor.py *)

Module ColorExtractor.

Local Open Scope string_scope.

Definition rgb : Type := (Z * Z * Z)%type.

(** What a fitted [KMeans] exposes. *)
Record kmeans : Type := {
  cluster_centers_ : list (Q * Q * Q);
  labels_ : list nat
}.

(** The library calls of [extract_colors] and [get_color_palette].
    [Image_open path] is [np.array(Image.open(path).resize((150, 150)))];
    [KMeans_fit k pixels] is [KMeans(n_clusters=k, n_init=10).fit(pixels)];
    [visualize_colors] stands for the matplotlib drawing, which catches its
    own exceptions and returns a boolean. *)
Record Ext : Type := {
  Image_open : string -> result ndarray;
  KMeans_fit : nat -> list rgb -> result kmeans;
  makedirs : string -> result unit;
  visualize_colors : list string -> list Q -> string -> bool;
  palette_path : string -> string -> string
}.

(** The dictionary [color_info]; [{}] is [empty_info]. *)
Record color_info : Type := {
  hex : option (list string);
  rgb_ : option (list rgb);
  percentages_ : option (list Q)
}.

Definition empty_info : color_info :=
  {| hex := None; rgb_ := None; percentages_ := None |}.

(** The dictionary that [get_color_palette] returns. *)
Record palette : Type := {
  hex_colors : option (list string);
  rgb_values : option (list rgb);
  percentages : option (list Q)
}.

(** [a.reshape(-1, 3)] on the flat data. *)
Fixpoint reshape3 (flat : list Z) : result (list rgb) :=
  match flat with
  | [] => OK []
  | r :: g :: b :: rest =>
      (rows <- reshape3 rest ;; OK ((r, g, b) :: rows))%result
  | _ => Raise (ValueError "cannot reshape array into shape (3)")
  end.

(** [img_array[mask][:, :3]] with [mask = img_array[:, :, 3] > 0], on the
    flat data of an array with four channels. *)
Fixpoint masked_rgb (flat : list Z) : list rgb :=
  match flat with
  | r :: g :: b :: a :: rest =>
      if (a >? 0)%Z then (r, g, b) :: masked_rgb rest else masked_rgb rest
  | _ => []
  end.

(** [np.bincount(labels)]: one count per value from 0 to the largest label. *)
Definition bincount (labels : list nat) : list nat :=
  match labels with
  | [] => []
  | _ => map (fun v => count_occ Nat.eq_dec labels v)
             (seq 0 (S (fold_right Nat.max 0%nat labels)))
  end.

(** [np.argsort(a)]: the indices in ascending order of value.  numpy does
    not fix the order of the indices of equal values; this definition keeps
    them in index order, which is one of the orders numpy can return, and
    nothing below depends on that choice. *)
Fixpoint insert_asc (a : list Q) (i : nat) (sorted : list nat) : list nat :=
  match sorted with
  | [] => [i]
  | j :: rest =>
      if (nth j a 0%Q <? nth i a 0%Q)%py
      then j :: insert_asc a i rest
      else i :: j :: rest
  end.

Definition argsort (a : list Q) : list nat :=
  fold_right (insert_asc a) [] (seq 0 (List.length a)).

Definition hex_digit_lower (d : Z) : ascii :=
  if (d <? 10)%Z then ascii_of_nat (48 + Z.to_nat d)
  else ascii_of_nat (87 + Z.to_nat d).

(** The hexadecimal digits of [n >= 0], most significant first. *)
Fixpoint hex_digits (fuel : nat) (n : Z) (acc : string) : string :=
  match fuel with
  | O => acc
  | S fuel' =>
      let acc' := String (hex_digit_lower (n mod 16)) acc in
      if (n / 16 =? 0)%Z then acc' else hex_digits fuel' (n / 16) acc'
  end.

(** ['%02x' % n]: lower-case hexadecimal, a minus sign for a negative
    number, zero-padded to two characters. *)
Definition format_02x (n : Z) : string :=
  if (n <? 0)%Z then
    String "-" (hex_digits (S (Z.to_nat (Z.log2 (- n)))) (- n) "")
  else
    let digits := hex_digits (S (Z.to_nat (Z.log2 n))) n "" in
    if (String.length digits <? 2)%nat then String "0" digits else digits.

(** ['#%02x%02x%02x' % (r, g, b)] *)
Definition hex_of_rgb (c : rgb) : string :=
  let '(r, g, b) := c in
  String "#" (format_02x r ++ format_02x g ++ format_02x b).

(** The pixels handed to the clustering: the rows of
    [img_array.reshape(-1, 3)], replaced by the non-transparent pixels when
    the array has an alpha channel. *)
Definition sampled_pixels (img_array : ndarray) : result (list rgb) :=
  (pixels <- reshape3 (data img_array) ;;
   channels <- shape_at img_array 2 ;;
   OK (if (channels =? 4)%nat then masked_rgb (data img_array) else pixels))%result.

Section Methods.

Variable X : Ext.
(** [self.n_colors] *)
Variable n_colors : nat.

Definition extract_colors (image_path : string) : list string * color_info :=
  catch
    (img_array <- Image_open X image_path ;;
     pixels <- sampled_pixels img_array ;;
     fitted <- KMeans_fit X n_colors pixels ;;
     let colors :=
       map (fun c : Q * Q * Q =>
              let '(r, g, b) := c in (astype_int r, astype_int g, astype_int b))
           (cluster_centers_ fitted) in
     let labels := labels_ fitted in
     let color_counts := bincount labels in
     let color_percentages :=
       map (fun n => inject_Z (Z.of_nat n)
                     / inject_Z (Z.of_nat (List.length labels)) * 100)%Q
           color_counts in
     let hex_colors := map hex_of_rgb colors in
     let color_info :=
       {| hex := Some hex_colors;
          rgb_ := Some colors;
          percentages_ := Some color_percentages |} in
     let sorted_indices := rev (argsort color_percentages) in
     sorted_hex_colors <- mapM (index hex_colors) sorted_indices ;;
     OK (sorted_hex_colors, color_info))%result
    (fun _ => ([], empty_info)).

(** [save_visualization and hex_colors and output_dir] *)
Definition wants_visualization (save_visualization : bool)
    (hex_colors : list string) (output_dir : option string) : option string :=
  match save_visualization, hex_colors, output_dir with
  | true, _ :: _, Some (String c d) => Some (String c d)
  | _, _, _ => None
  end.

Definition get_color_palette (image_path : string) (save_visualization : bool)
    (output_dir : option string) : result palette :=
  let '(hex_colors, color_info) := extract_colors image_path in
  (match wants_visualization save_visualization hex_colors output_dir with
   | Some dir =>
       makedirs X dir ;;;
       let output_path := palette_path X dir image_path in
       shares <- item (percentages_ color_info) "'percentages'" ;;
       let _ := visualize_colors X hex_colors shares output_path in
       OK tt
   | None => OK tt
   end ;;;
   OK {| hex_colors := Some hex_colors;
         rgb_values := Some (get (rgb_ color_info) []);
         percentages := Some (get (percentages_ color_info) []) |})%result.

End Methods.

End ColorExtractor.

(* ------------------------------------------------------------------ *)
(** * Python's [repr] and [int] on strings *)

Local Open Scope string_scope.

(** [repr(s)] of a string: the quote is ['] unless the string holds a ['] and
    no double quote; the quote and the backslash are escaped, tab, newline and
    carriage return are written [\t], [\n], [\r], and the other characters that
    are not printable are written [\xhh]. *)
Definition double_quote : ascii := ascii_of_nat 34.

Definition has_char (c : ascii) (s : string) : bool :=
  existsb (Ascii.eqb c) (list_ascii_of_string s).

Definition repr_quote (s : string) : ascii :=
  if has_char "'" s && negb (has_char double_quote s) then double_quote else "'"%char.

Definition repr_char (quote c : ascii) : string :=
  let n := nat_of_ascii c in
  if Ascii.eqb c quote || Ascii.eqb c "\" then String "\" (String c "")
  else if (n =? 9)%nat then "\t"
  else if (n =? 10)%nat then "\n"
  else if (n =? 13)%nat then "\r"
  else if ((n <? 32) || (n =? 127))%nat
  then "\x" ++ ColorExtractor.format_02x (Z.of_nat n)
  else if (n <? 127)%nat then String c ""
  else if ((161 <=? n) && negb (n =? 173))%nat then String c ""
  else "\x" ++ ColorExtractor.format_02x (Z.of_nat n).

Definition repr (s : string) : string :=
  let quote := repr_quote s in
  String quote
    (String.concat "" (map (repr_char quote) (list_ascii_of_string s))
     ++ String quote "").

(** The characters that [int] skips around a literal: tab to carriage
    return and the space, and of the characters that are not ASCII the two
    white-space characters below 256, which [int] turns into spaces first.
    The separators 28 to 31 are not skipped. *)
Definition is_space (c : ascii) : bool :=
  let n := nat_of_ascii c in
  ((9 <=? n) && (n <=? 13) || (n =? 32) || (n =? 133) || (n =? 160))%nat.

Definition hex_value (c : ascii) : option Z :=
  let n := nat_of_ascii c in
  if ((48 <=? n) && (n <=? 57))%nat then Some (Z.of_nat (n - 48))
  else if ((97 <=? n) && (n <=? 102))%nat then Some (Z.of_nat (n - 87))
  else if ((65 <=? n) && (n <=? 70))%nat then Some (Z.of_nat (n - 55))
  else None.

Fixpoint lstrip_space (s : list ascii) : list ascii :=
  match s with
  | c :: s' => if is_space c then lstrip_space s' else s
  | [] => []
  end.

Definition strip_space (s : list ascii) : list ascii :=
  rev (lstrip_space (rev (lstrip_space s))).

(** Hexadecimal digits, single underscores allowed between two digits. *)
Fixpoint hex_digits_value (acc : Z) (after_underscore : bool) (s : list ascii)
  : option Z :=
  match s with
  | [] => if after_underscore then None else Some acc
  | c :: s' =>
      if Ascii.eqb c "_" then
        if after_underscore then None else hex_digits_value acc true s'
      else
        match hex_value c with
        | Some d => hex_digits_value (16 * acc + d) false s'
        | None => None
        end
  end.

(** [int(text, 16)]: surrounding white space, an optional sign, an optional
    [0x] prefix, then hexadecimal digits; the message of the [ValueError]
    quotes the text with [repr]. *)
Definition py_int16 (text : string) : result Z :=
  let invalid :=
    ValueError ("invalid literal for int() with base 16: " ++ repr text) in
  let s := strip_space (list_ascii_of_string text) in
  let signed :=
    match s with
    | "+"%char :: s' => (1%Z, s')
    | "-"%char :: s' => ((-1)%Z, s')
    | _ => (1%Z, s)
    end in
  let digits :=
    match snd signed with
    | "0"%char :: "x"%char :: s' | "0"%char :: "X"%char :: s' =>
        match s' with
        | "_"%char :: s'' => s''
        | _ => s'
        end
    | s' => s'
    end in
  match digits with
  | [] => Raise invalid
  | "_"%char :: _ => Raise invalid
  | _ =>
      match hex_digits_value 0 false digits with
      | Some v => OK (fst signed * v)%Z
      | None => Raise invalid
      end
  end.

Local Close Scope string_scope.

(* ------------------------------------------------------------------ *)
(** * texture_analyzer.py *)

Module TextureAnalyzer.

Local Open Scope string_scope.
Local Open Scope Q_scope.

(** The library calls of [analyze_texture].  [imread] is [None] when OpenCV
    cannot load the file.  [lbp_histogram] is the normalised histogram of the
    uniform local binary pattern, [hog] the HOG feature vector,
    [gradient_mean] the mean Sobel gradient magnitude, [np_std_image] and
    [np_std] numpy's standard deviation of an image and of a vector, and
    [entropy h] is [-np.sum(h * np.log2(h + 1e-10))]. *)
Record Ext : Type := {
  imread : string -> option ndarray;
  cvtColor : ndarray -> ndarray;
  resize : nat -> nat -> ndarray -> ndarray;
  lbp_histogram : ndarray -> list Q;
  hog : ndarray -> list Q;
  gradient_mean : ndarray -> Q;
  np_std_image : ndarray -> Q;
  np_std : list Q -> Q;
  entropy : list Q -> Q
}.

Record features : Type := {
  lbp_histogram_ : option (list Q);
  hog_features : option (list Q)
}.

(** The dictionary that [analyze_texture] returns. *)
Record texture_analysis : Type := {
  texture_type : option string;
  roughness : option Q;
  uniformity : option Q;
  contrast : option Q;
  directionality : option Q;
  pattern_type : option string;
  features_ : option features
}.

(** [np.mean] of a vector *)
Definition np_mean (v : list Q) : Q :=
  Qsum v / inject_Z (Z.of_nat (List.length v)).

Definition _determine_texture_type
    (roughness uniformity contrast directionality : Q) : string :=
  if (roughness <? 10)%py then
    if (uniformity >? 0.5)%py then "Smooth" else "Matte"
  else if (roughness <? 30)%py then
    if (directionality >? 0.5)%py then "Striated" else "Textured"
  else
    if (contrast >? 0.3)%py then "Rough" else "Coarse".

Section Methods.

Variable X : Ext.

Definition _determine_pattern_type (lbp_hist hog_features : list Q) : string :=
  let lbp_entropy := entropy X lbp_hist in
  let hog_mean := np_mean hog_features in
  let hog_std := np_std X hog_features in
  if (lbp_entropy <? 3.0)%py then "Solid"
  else if (lbp_entropy <? 4.0)%py then
    if (hog_std <? 0.1)%py then "Uniform" else "Gradient"
  else if (lbp_entropy <? 5.0)%py then
    if (hog_mean >? 0.2)%py then "Geometric" else "Organic"
  else
    if (hog_std >? 0.2)%py then "Complex" else "Random".

Definition analyze_texture (image_path : string) : texture_analysis :=
  catch
    (img <- match imread X image_path with
            | Some img => OK img
            | None => Raise (ValueError ("Could not load image from " ++ image_path))
            end ;;
     let gray := cvtColor X img in
     let resized := resize X 256 256 gray in
     let lbp_hist := lbp_histogram X resized in
     let hog_features := hog X resized in
     let roughness := gradient_mean X resized in
     let uniformity := 1.0 / (1.0 + np_std_image X resized) in
     let contrast := np_std_image X resized / 255.0 in
     let directionality := np_std X hog_features in
     let texture_type :=
       _determine_texture_type roughness uniformity contrast directionality in
     let pattern_type := _determine_pattern_type lbp_hist hog_features in
     OK {| texture_type := Some texture_type;
           roughness := Some roughness;
           uniformity := Some uniformity;
           contrast := Some contrast;
           directionality := Some directionality;
           pattern_type := Some pattern_type;
           features_ := Some {| lbp_histogram_ := Some lbp_hist;
                                hog_features := Some (firstn 10 hog_features) |}
        |})%result
    (fun _ =>
       {| texture_type := Some "unknown";
          roughness := Some 0.0;
          uniformity := Some 0.0;
          contrast := Some 0.0;
          directionality := Some 0.0;
          pattern_type := Some "unknown";
          features_ := Some {| lbp_histogram_ := None; hog_features := None |}
       |}).

End Methods.

(** The classification of section 4.3, one rule per texture type with the
    conditions under which it applies. *)
Inductive texture_type_rule (roughness uniformity contrast directionality : Q)
  : string -> Prop :=
| rule_Smooth :
    roughness < 10 -> uniformity > 0.5 ->
    texture_type_rule roughness uniformity contrast directionality "Smooth"
| rule_Matte :
    roughness < 10 -> ~ uniformity > 0.5 ->
    texture_type_rule roughness uniformity contrast directionality "Matte"
| rule_Striated :
    ~ roughness < 10 -> roughness < 30 -> directionality > 0.5 ->
    texture_type_rule roughness uniformity contrast directionality "Striated"
| rule_Textured :
    ~ roughness < 10 -> roughness < 30 -> ~ directionality > 0.5 ->
    texture_type_rule roughness uniformity contrast directionality "Textured"
| rule_Rough :
    ~ roughness < 10 -> ~ roughness < 30 -> contrast > 0.3 ->
    texture_type_rule roughness uniformity contrast directionality "Rough"
| rule_Coarse :
    ~ roughness < 10 -> ~ roughness < 30 -> ~ contrast > 0.3 ->
    texture_type_rule roughness uniformity contrast directionality "Coarse".

End TextureAnalyzer.

(* ------------------------------------------------------------------ *)
(** * shape_detector.py *)

Module ShapeDetector.

Local Open Scope string_scope.
Local Open Scope Q_scope.

Definition point : Type := (Q * Q)%type.

(** The library calls of [detect_shapes].  [find_contours], [canny] and the
    Hough transforms are those of scikit-image and OpenCV with the arguments
    the source passes; [hough_line_peaks] yields the (angle, distance) pairs
    of at most ten peaks; [HoughCircles] is [None] when no circle is found. *)
Record Ext : Type := {
  imread : string -> option ndarray;
  cvtColor : ndarray -> ndarray;
  resize : nat -> nat -> ndarray -> ndarray;
  GaussianBlur : ndarray -> ndarray;
  canny : ndarray -> ndarray;
  find_contours : ndarray -> list (list point);
  approximate_polygon : list point -> list point;
  contourArea : list point -> Q;
  arcLength : list point -> Q;
  hough_line_peaks : ndarray -> list (Q * Q);
  HoughCircles : ndarray -> option (list (Q * Q * Q))
}.

(** One entry of [shape_info['shapes']]. *)
Record shape : Type := {
  type : option string;
  vertices : option nat;
  area : option Q;
  perimeter : option Q;
  compactness : option Q;
  aspect_ratio : option Q;
  position : option (Q * Q)
}.

Record shape_info : Type := {
  shapes : list shape;
  complexity : string;
  distribution : string
}.

Record line : Type := {
  angle : Q;
  distance : Q;
  orientation : string
}.

Record line_info : Type := {
  lines : list line;
  has_straight_lines_ : bool;
  line_count : nat;
  dominant_orientation : string
}.

Record circle : Type := {
  center : Z * Z;
  radius : Z
}.

Record circle_info : Type := {
  circles : list circle;
  has_circles : bool;
  circle_count : nat
}.

(** The dictionary that [detect_shapes] returns. *)
Record shape_analysis : Type := {
  dominant_shapes : option (list string);
  shape_count : option nat;
  has_straight_lines : option bool;
  has_curves : option bool;
  shape_complexity : option string;
  shape_distribution : option string;
  shape_details : option (list shape)
}.

(** [np.min(pts, axis=0)] and [np.max(pts, axis=0)] *)
Definition np_min_axis0 (pts : list point) : result point :=
  match pts with
  | [] => Raise (ValueError "zero-size array to reduction operation minimum which has no identity")
  | p :: rest =>
      OK (fold_left (fun m q => (Qmin (fst m) (fst q), Qmin (snd m) (snd q))) rest p)
  end.

Definition np_max_axis0 (pts : list point) : result point :=
  match pts with
  | [] => Raise (ValueError "zero-size array to reduction operation maximum which has no identity")
  | p :: rest =>
      OK (fold_left (fun m q => (Qmax (fst m) (fst q), Qmax (snd m) (snd q))) rest p)
  end.

Definition np_mean (v : list Q) : Q :=
  Qsum v / inject_Z (Z.of_nat (List.length v)).

(** [width / height if height > 0 else 0] on the bounding box of [pts] *)
Definition bounding_box_ratio (pts : list point) : result Q :=
  (lo <- np_min_axis0 pts ;;
   hi <- np_max_axis0 pts ;;
   let width := fst hi - fst lo in
   let height := snd hi - snd lo in
   OK (if (height >? 0)%py then width / height else 0))%result.

Definition _identify_shape (contour : list point) (compactness : Q)
  : result string :=
  let vertices := List.length contour in
  if (compactness >? 0.8)%py then OK "Circle"
  else if (vertices =? 3)%nat then OK "Triangle"
  else if (vertices =? 4)%nat then
    (aspect_ratio <- bounding_box_ratio contour ;;
     if (0.9 <? aspect_ratio)%py && (aspect_ratio <? 1.1)%py
     then OK "Square" else OK "Rectangle")%result
  else if (vertices =? 5)%nat then OK "Pentagon"
  else if (vertices =? 6)%nat then OK "Hexagon"
  else if (6 <? vertices)%nat && (vertices <? 15)%nat then OK "Polygon"
  else OK "Organic".

(** [np.round(x)] followed by [astype(int)]: the nearest integer, the even
    one at a tie. *)
Definition np_round (x : Q) : Z :=
  let f := Qfloor x in
  let r := x - inject_Z f in
  if (r <? 1 # 2)%py then f
  else if (r >? 1 # 2)%py then (f + 1)%Z
  else if Z.even f then f else (f + 1)%Z.

(** [shape_counts]: the loop that counts the shape types, keys in order of
    first occurrence. *)
Fixpoint count_type (shape_type : string) (shape_counts : list (string * nat))
  : list (string * nat) :=
  match shape_counts with
  | [] => [(shape_type, 1%nat)]
  | (k, n) :: rest =>
      if String.eqb shape_type k then (k, S n) :: rest
      else (k, n) :: count_type shape_type rest
  end.

(** [sorted(items, key=lambda x: x[1], reverse=True)]: descending by count,
    items of equal count in their original order. *)
Fixpoint insert_desc (x : string * nat) (sorted : list (string * nat))
  : list (string * nat) :=
  match sorted with
  | [] => [x]
  | y :: rest =>
      if (snd x <? snd y)%nat then y :: insert_desc x rest else x :: y :: rest
  end.

Definition sorted_desc (items : list (string * nat)) : list (string * nat) :=
  fold_right insert_desc [] items.

Definition _get_dominant_orientation (lines : list line) : string :=
  match lines with
  | [] => "None"
  | _ =>
      let orientations := map orientation lines in
      let horizontal := ("Horizontal", count_occ string_dec orientations "Horizontal") in
      let vertical := ("Vertical", count_occ string_dec orientations "Vertical") in
      let diagonal := ("Diagonal", count_occ string_dec orientations "Diagonal") in
      fst (max_from (fun a b => (b <? a)%nat) snd horizontal [vertical; diagonal])
  end.

Definition _determine_dominant_shapes (shape_info : shape_info)
    (line_info : line_info) (circle_info : circle_info) : result (list string) :=
  (shape_types <- mapM (fun s => item (type s) "'type'") (shapes shape_info) ;;
   let shape_counts :=
     fold_left (fun counts t => count_type t counts) shape_types [] in
   let dominant_shapes :=
     match shape_counts with
     | [] => []
     | _ =>
         let sorted_shapes := sorted_desc shape_counts in
         map fst (filter (fun p => (1 <? snd p)%nat) (firstn 3 sorted_shapes))
     end in
   let dominant_shapes :=
     if has_straight_lines_ line_info && is_empty dominant_shapes
     then (dominant_shapes ++ ["Geometric"])%list else dominant_shapes in
   let dominant_shapes :=
     if has_circles circle_info && negb (str_in "Circle" dominant_shapes)
     then (dominant_shapes ++ ["Circular"])%list else dominant_shapes in
   let dominant_shapes :=
     match dominant_shapes with
     | [] => if String.eqb (complexity shape_info) "High"
             then ["Complex"] else ["Organic"]
     | _ => dominant_shapes
     end in
   OK dominant_shapes)%result.

Section Methods.

Variable X : Ext.

(** The body of the loop of [_analyze_contours], from the first contour on;
    [shapes] and [covered_area] are the two accumulators. *)
Fixpoint analyze_loop (contours : list (list point)) (shapes : list shape)
    (covered_area : Q) : result (list shape * Q) :=
  match contours with
  | [] => OK (shapes, covered_area)
  | contour :: rest =>
      if (List.length contour <? 5)%nat then analyze_loop rest shapes covered_area
      else
        let approx := approximate_polygon X contour in
        let area := contourArea X approx in
        let perimeter := arcLength X approx in
        if (area <? 100)%py then analyze_loop rest shapes covered_area
        else
          let compactness :=
            if (perimeter >? 0)%py
            then (4 * np_pi * area) / (perimeter * perimeter) else 0 in
          (shape_type <- _identify_shape approx compactness ;;
           lo <- np_min_axis0 approx ;;
           hi <- np_max_axis0 approx ;;
           let width := fst hi - fst lo in
           let height := snd hi - snd lo in
           let aspect_ratio := if (height >? 0)%py then width / height else 0 in
           let entry :=
             {| type := Some shape_type;
                vertices := Some (List.length approx);
                area := Some area;
                perimeter := Some perimeter;
                compactness := Some compactness;
                aspect_ratio := Some aspect_ratio;
                position := Some (np_mean (map fst approx), np_mean (map snd approx))
             |} in
           analyze_loop rest (shapes ++ [entry])%list (covered_area + area))%result
  end.

Definition _analyze_contours (contours : list (list point)) (image_shape : ndarray)
  : result shape_info :=
  (rows <- shape_at image_shape 0 ;;
   cols <- shape_at image_shape 1 ;;
   let total_area := (rows * cols)%nat in
   acc <- analyze_loop contours [] 0 ;;
   let shapes := fst acc in
   let covered_area := snd acc in
   let complexity :=
     if (List.length shapes <? 3)%nat then "Low"
     else if (List.length shapes <? 10)%nat then "Medium"
     else "High" in
   coverage_ratio <-
     (if (total_area =? 0)%nat
      then Raise (ZeroDivisionError "division by zero")
      else OK (covered_area / inject_Z (Z.of_nat total_area))) ;;
   let distribution :=
     if (coverage_ratio <? 0.2)%py then "Sparse"
     else if (coverage_ratio <? 0.5)%py then "Moderate"
     else "Dense" in
   OK {| shapes := shapes; complexity := complexity; distribution := distribution |}
  )%result.

Definition _detect_lines (edges : ndarray) : line_info :=
  let peaks := hough_line_peaks X edges in
  let lines :=
    map (fun peak : Q * Q =>
           let '(angle, dist) := peak in
           let orientation :=
             if (Qabs angle <? 0.1)%py || (Qabs (angle - np_pi / 2) <? 0.1)%py
             then "Vertical"
             else if (Qabs (angle - np_pi / 4) <? 0.1)%py
                     || (Qabs (angle + np_pi / 4) <? 0.1)%py
             then "Diagonal"
             else "Horizontal" in
           {| angle := angle; distance := dist; orientation := orientation |})
        peaks in
  {| lines := lines;
     has_straight_lines_ := (0 <? List.length lines)%nat;
     line_count := List.length lines;
     dominant_orientation := _get_dominant_orientation lines |}.

Definition _detect_circles (image : ndarray) : circle_info :=
  match HoughCircles X image with
  | Some found =>
      let circle_info :=
        map (fun c : Q * Q * Q =>
               let '(x, y, r) := c in
               {| center := (np_round x, np_round y); radius := np_round r |})
            found in
      {| circles := circle_info;
         has_circles := true;
         circle_count := List.length circle_info |}
  | None => {| circles := []; has_circles := false; circle_count := 0 |}
  end.

(** The body of the [try] block of [detect_shapes]. *)
Definition detect_shapes_body (image_path : string) : result shape_analysis :=
  (img <- match imread X image_path with
          | Some img => OK img
          | None => Raise (ValueError ("Could not load image from " ++ image_path))
          end ;;
   let gray := cvtColor X img in
   let resized := resize X 512 512 gray in
   let blurred := GaussianBlur X resized in
   let edges := canny X blurred in
   let contours := find_contours X edges in
   shape_info <- _analyze_contours contours resized ;;
   let line_info := _detect_lines edges in
   let circle_info := _detect_circles blurred in
   dominant_shapes <- _determine_dominant_shapes shape_info line_info circle_info ;;
   OK {| dominant_shapes := Some dominant_shapes;
         shape_count := Some (List.length (shapes shape_info));
         has_straight_lines := Some (has_straight_lines_ line_info);
         has_curves := Some (has_circles circle_info);
         shape_complexity := Some (complexity shape_info);
         shape_distribution := Some (distribution shape_info);
         shape_details := Some (firstn 5 (shapes shape_info)) |})%result.

Definition detect_shapes (image_path : string) : shape_analysis :=
  catch (detect_shapes_body image_path)
    (fun _ =>
       {| dominant_shapes := Some ["Unknown"];
          shape_count := Some 0%nat;
          has_straight_lines := Some false;
          has_curves := Some false;
          shape_complexity := Some "Low";
          shape_distribution := Some "Unknown";
          shape_details := Some [] |}).

End Methods.

(** The classification of section 4.2: one rule per shape type, on the
    compactness, the number of vertices and the aspect ratio of the bounding
    box. *)
Inductive shape_rule (compactness : Q) (vertices : nat) (aspect_ratio : Q)
  : string -> Prop :=
| rule_Circle :
    compactness > 0.8 ->
    shape_rule compactness vertices aspect_ratio "Circle"
| rule_Triangle :
    ~ compactness > 0.8 -> vertices = 3%nat ->
    shape_rule compactness vertices aspect_ratio "Triangle"
| rule_Square :
    ~ compactness > 0.8 -> vertices = 4%nat ->
    0.9 < aspect_ratio /\ aspect_ratio < 1.1 ->
    shape_rule compactness vertices aspect_ratio "Square"
| rule_Rectangle :
    ~ compactness > 0.8 -> vertices = 4%nat ->
    ~ (0.9 < aspect_ratio /\ aspect_ratio < 1.1) ->
    shape_rule compactness vertices aspect_ratio "Rectangle"
| rule_Pentagon :
    ~ compactness > 0.8 -> vertices = 5%nat ->
    shape_rule compactness vertices aspect_ratio "Pentagon"
| rule_Hexagon :
    ~ compactness > 0.8 -> vertices = 6%nat ->
    shape_rule compactness vertices aspect_ratio "Hexagon"
| rule_Polygon :
    ~ compactness > 0.8 -> (7 <= vertices <= 14)%nat ->
    shape_rule compactness vertices aspect_ratio "Polygon"
| rule_Organic :
    ~ compactness > 0.8 -> (vertices < 3 \/ 14 < vertices)%nat ->
    shape_rule compactness vertices aspect_ratio "Organic".

(** The aspect ratio of the bounding box of a polygon: the extent of the
    first coordinate over the extent of the second, and 0 when the second
    extent is not positive (or there is no point). *)
Definition extent (coords : list Q) : Q :=
  match coords with
  | [] => 0
  | c :: rest => fold_left Qmax rest c - fold_left Qmin rest c
  end.

Definition bbox_aspect_ratio (pts : list point) : Q :=
  let width := extent (map fst pts) in
  let height := extent (map snd pts) in
  if (height >? 0)%py then width / height else 0.

End ShapeDetector.

(* ------------------------------------------------------------------ *)
(** * model_generator.py *)

Module ModelGenerator.

Local Open Scope string_scope.
Local Open Scope Q_scope.

(** [extract_features] runs the MobileNetV2 backbone; it catches its own
    exceptions and returns an empty vector then. *)
Record Ext : Type := {
  extract_features : string -> list Q
}.

Record dimensions : Type := {
  width : Q;
  height : Q;
  depth : Q
}.

Record color : Type := {
  hex : string;
  name : string
}.

(** One entry of [details]; [detail_type] is its key ['type']. *)
Record detail : Type := {
  detail_type : string;
  description : string;
  intensity : Q
}.

(** The dictionary that [generate_model_parameters] returns. *)
Record model_params : Type := {
  type : string;
  dimensions_ : dimensions;
  colors : list color;
  materials : list string;
  details : list detail
}.

Definition _determine_model_type (shape_analysis : ShapeDetector.shape_analysis)
  : string :=
  let dominant_shapes :=
    get (ShapeDetector.dominant_shapes shape_analysis) ["Unknown"] in
  if str_in "Circle" dominant_shapes || str_in "Circular" dominant_shapes
  then "cylindrical"
  else if str_in "Rectangle" dominant_shapes || str_in "Square" dominant_shapes
  then "box"
  else if str_in "Triangle" dominant_shapes then "pyramid"
  else if str_in "Polygon" dominant_shapes then "polyhedron"
  else if str_in "Organic" dominant_shapes then "organic"
  else "generic".

Definition _generate_dimensions (shape_analysis : ShapeDetector.shape_analysis)
  : dimensions :=
  let dimensions := {| width := 1.0; height := 1.0; depth := 1.0 |} in
  let shapes := get (ShapeDetector.shape_details shape_analysis) [] in
  match shapes with
  | [] => dimensions
  | first :: others =>
      let largest_shape :=
        max_from (fun a b => (a >? b)%py)
                 (fun x => get (ShapeDetector.area x) 0) first others in
      let aspect_ratio := get (ShapeDetector.aspect_ratio largest_shape) 1.0 in
      let dimensions :=
        if (aspect_ratio >? 1.0)%py then
          {| width := py_min 2.0 aspect_ratio;
             height := 1.0;
             depth := depth dimensions |}
        else
          {| width := 1.0;
             height := py_min 2.0 (if (aspect_ratio >? 0)%py
                                   then 1.0 / aspect_ratio else 1.0);
             depth := depth dimensions |} in
      let shape_type := get (ShapeDetector.type largest_shape) "" in
      if str_in shape_type ["Circle"; "Square"] then
        {| width := width dimensions;
           height := height dimensions;
           depth := width dimensions |}
      else
        {| width := width dimensions;
           height := height dimensions;
           depth := width dimensions * 0.5 |}
  end.

(** [color_names] of [_process_colors], in the order the dictionary lists
    them. *)
Definition color_names : list (string * string) :=
  [("#FF0000", "Red"); ("#00FF00", "Green"); ("#0000FF", "Blue");
   ("#FFFF00", "Yellow"); ("#FF00FF", "Magenta"); ("#00FFFF", "Cyan");
   ("#000000", "Black"); ("#FFFFFF", "White"); ("#808080", "Gray")].

Fixpoint lookup (key : string) (map : list (string * string)) : option string :=
  match map with
  | [] => None
  | (k, v) :: rest => if String.eqb key k then Some v else lookup key rest
  end.

(** [tuple(int(h[i:i+2], 16) for i in (0, 2, 4))] *)
Definition parse_rgb (h : string) : result (Z * Z * Z) :=
  (r <- py_int16 (slice2 h 0) ;;
   g <- py_int16 (slice2 h 2) ;;
   b <- py_int16 (slice2 h 4) ;;
   OK (r, g, b))%result.

(** The loop of [_find_closest_color_name].  [min_distance] is [None] for
    [float('inf')]; distances are compared by their squares, [x ** 0.5] being
    increasing. *)
Fixpoint closest_loop (rgb : Z * Z * Z) (items : list (string * string))
    (min_distance : option Z) (closest_name : string) : result string :=
  match items with
  | [] => OK closest_name
  | (hex_code, name) :: rest =>
      (rgb2 <- parse_rgb (lstrip_hash hex_code) ;;
       let '(r, g, b) := rgb in
       let '(r2, g2, b2) := rgb2 in
       let distance :=
         ((r - r2) * (r - r2) + (g - g2) * (g - g2) + (b - b2) * (b - b2))%Z in
       match min_distance with
       | Some m =>
           if (distance <? m)%Z
           then closest_loop rgb rest (Some distance) name
           else closest_loop rgb rest min_distance closest_name
       | None => closest_loop rgb rest (Some distance) name
       end)%result
  end.

Definition _find_closest_color_name (hex_color : string)
    (color_map : list (string * string)) : result string :=
  match lookup hex_color color_map with
  | Some name => OK name
  | None =>
      (rgb <- parse_rgb (lstrip_hash hex_color) ;;
       closest_loop rgb color_map None "Custom")%result
  end.

Definition _process_colors (color_analysis : ColorExtractor.palette)
  : result (list color) :=
  let hex_colors := get (ColorExtractor.hex_colors color_analysis) [] in
  mapM (fun hex_color =>
          (color_name <- _find_closest_color_name hex_color color_names ;;
           OK {| hex := hex_color; name := color_name |})%result)
       (firstn 3 hex_colors).

Definition _suggest_materials (texture_analysis : TextureAnalyzer.texture_analysis)
  : list string :=
  let texture_type := get (TextureAnalyzer.texture_type texture_analysis) "Unknown" in
  let pattern_type := get (TextureAnalyzer.pattern_type texture_analysis) "Unknown" in
  let suggested_materials :=
    if String.eqb texture_type "Smooth" then ["Glass"; "Polished Metal"; "Plastic"]
    else if String.eqb texture_type "Matte" then ["Matte Plastic"; "Rubber"; "Fabric"]
    else if String.eqb texture_type "Rough" then ["Stone"; "Concrete"; "Wood"]
    else if String.eqb texture_type "Textured"
    then ["Textured Plastic"; "Leather"; "Canvas"]
    else ["Plastic"] in
  let suggested_materials :=
    if String.eqb pattern_type "Geometric"
    then (suggested_materials ++ ["3D Printed Polymer"])%list
    else if String.eqb pattern_type "Organic"
    then (suggested_materials ++ ["Natural Wood"])%list
    else suggested_materials in
  firstn 3 suggested_materials.

Definition _generate_details (shape_analysis : ShapeDetector.shape_analysis)
    (texture_analysis : TextureAnalyzer.texture_analysis) : list detail :=
  let complexity := get (ShapeDetector.shape_complexity shape_analysis) "Low" in
  let details :=
    if String.eqb complexity "High" then
      [{| detail_type := "surface_detail";
          description := "Complex surface patterns";
          intensity := 0.8 |}]
    else if String.eqb complexity "Medium" then
      [{| detail_type := "surface_detail";
          description := "Moderate surface patterns";
          intensity := 0.5 |}]
    else [] in
  let texture_type := get (TextureAnalyzer.texture_type texture_analysis) "Unknown" in
  let details :=
    if String.eqb texture_type "Rough" then
      (details ++ [{| detail_type := "roughness";
                      description := "Rough surface texture";
                      intensity := 0.7 |}])%list
    else if String.eqb texture_type "Textured" then
      (details ++ [{| detail_type := "bump_map";
                      description := "Textured surface";
                      intensity := 0.6 |}])%list
    else details in
  let pattern_type := get (TextureAnalyzer.pattern_type texture_analysis) "Unknown" in
  if String.eqb pattern_type "Geometric" then
    (details ++ [{| detail_type := "geometric_pattern";
                    description := "Geometric surface pattern";
                    intensity := 0.5 |}])%list
  else if String.eqb pattern_type "Organic" then
    (details ++ [{| detail_type := "organic_pattern";
                    description := "Organic surface pattern";
                    intensity := 0.6 |}])%list
  else details.

(** The body of the [try] block of [generate_model_parameters]. *)
Definition model_params_body (X : Ext) (image_path : string)
    (shape_analysis : ShapeDetector.shape_analysis)
    (color_analysis : ColorExtractor.palette)
    (texture_analysis : TextureAnalyzer.texture_analysis) : result model_params :=
  let features := extract_features X image_path in
  (colors <- _process_colors color_analysis ;;
   OK {| type := _determine_model_type shape_analysis;
         dimensions_ := _generate_dimensions shape_analysis;
         colors := colors;
         materials := _suggest_materials texture_analysis;
         details := _generate_details shape_analysis texture_analysis |})%result.

Definition generate_model_parameters (X : Ext) (image_path : string)
    (shape_analysis : ShapeDetector.shape_analysis)
    (color_analysis : ColorExtractor.palette)
    (texture_analysis : TextureAnalyzer.texture_analysis) : model_params :=
  catch
    (model_params_body X image_path shape_analysis color_analysis texture_analysis)
    (fun _ =>
       {| type := "basic_cube";
          dimensions_ := {| width := 1.0; height := 1.0; depth := 1.0 |};
          colors := [{| hex := "#CCCCCC"; name := "Gray" |}];
          materials := ["Plastic"];
          details := [] |}).

End ModelGenerator.

(* ------------------------------------------------------------------ *)
(** * image_analyzer.py *)

Module ImageAnalyzer.

Local Open Scope string_scope.

(** The components and the [os] calls of [analyze_image].  The calls whose
    exceptions are caught where they are made and whose value is not used
    ([save_texture_visualization], [save_shape_visualization],
    [generate_model_file], [_save_analysis_results]) leave no trace in the
    returned dictionary and are not listed. *)
Record Ext : Type := {
  color_extractor : ColorExtractor.Ext;
  texture_analyzer : TextureAnalyzer.Ext;
  shape_detector : ShapeDetector.Ext;
  model_generator : ModelGenerator.Ext;
  exists_ : string -> bool;
  makedirs : string -> result unit;
  listdir : string -> result (list string);
  basename : string -> string;
  splitext : string -> string * string;
  join : string -> string -> string
}.

(** The dictionary that [analyze_image] returns. *)
Record analysis_results : Type := {
  error : option string;
  image_path_ : option string;
  status : option string;
  color_analysis : option ColorExtractor.palette;
  texture_analysis : option TextureAnalyzer.texture_analysis;
  shape_analysis : option ShapeDetector.shape_analysis;
  model_parameters : option ModelGenerator.model_params;
  output_directory : option string;
  visualization_files : option (list string)
}.

(** [s.endswith(suffix)] *)
Definition endswith (s suffix : string) : bool :=
  let n := String.length s in
  let m := String.length suffix in
  (m <=? n)%nat && String.eqb (substring (n - m) m s) suffix.

Section Methods.

Variable X : Ext.
(** [self.output_dir] *)
Variable output_dir : string.

Definition _get_visualization_files (directory : string) : result (list string) :=
  (files <- listdir X directory ;;
   OK (map (join X directory)
           (filter (fun file => endswith file ".png" || endswith file ".jpg"
                                || endswith file ".jpeg")
                   files)))%result.

Definition failed (e : exn) (image_path : string) : analysis_results :=
  {| error := Some (str e);
     image_path_ := Some image_path;
     status := Some "failed";
     color_analysis := None;
     texture_analysis := None;
     shape_analysis := None;
     model_parameters := None;
     output_directory := None;
     visualization_files := None |}.

(** The body of the [try] block of [analyze_image]. *)
Definition analyze_image_body (image_path : string)
    (generate_visualizations : bool) : result analysis_results :=
  ((if exists_ X image_path then OK tt
    else Raise (FileNotFoundError ("Image file not found: " ++ image_path))) ;;;
   let base_name := basename X image_path in
   let file_name := fst (splitext X base_name) in
   let image_output_dir := join X output_dir file_name in
   makedirs X image_output_dir ;;;
   color_palette <-
     ColorExtractor.get_color_palette (color_extractor X) 5 image_path
       generate_visualizations (Some image_output_dir) ;;
   let texture_analysis :=
     TextureAnalyzer.analyze_texture (texture_analyzer X) image_path in
   let shape_analysis :=
     ShapeDetector.detect_shapes (shape_detector X) image_path in
   let model_params :=
     ModelGenerator.generate_model_parameters (model_generator X) image_path
       shape_analysis color_palette texture_analysis in
   visualization_files <-
     (if generate_visualizations
      then _get_visualization_files image_output_dir else OK []) ;;
   OK {| error := None;
         image_path_ := Some image_path;
         status := None;
         color_analysis := Some color_palette;
         texture_analysis := Some texture_analysis;
         shape_analysis := Some shape_analysis;
         model_parameters := Some model_params;
         output_directory := Some image_output_dir;
         visualization_files := Some visualization_files |})%result.

Definition analyze_image (image_path : string) (generate_visualizations : bool)
  : analysis_results :=
  catch (analyze_image_body image_path generate_visualizations)
        (fun e => failed e image_path).

End Methods.

(** ** Design suggestions *)

(** [str(l)] of a list of strings *)
Definition str_of_list (l : list string) : string :=
  "[" ++ String.concat ", " (map repr l) ++ "]".

(** [needle in haystack] on strings *)
Definition contains (needle haystack : string) : bool :=
  match String.index 0 needle haystack with
  | Some _ => true
  | None => false
  end.

Record color_suggestions : Type := {
  primary_palette : list string;
  complementary_palette : list string;
  recommended_accent : string
}.

Record material_suggestions : Type := {
  recommended_materials : list string;
  eco_friendly_alternatives : list string;
  texture_recommendation : string
}.

Record form_suggestions : Type := {
  form_description : string;
  recommended_proportions : string;
  ergonomic_considerations : list string
}.

(** A value that is a dictionary, or the empty list that the [except] branch
    of [generate_design_suggestions] puts in its place. *)
Inductive or_empty_list (A : Type) : Type :=
| empty_list
| dict (a : A).

Arguments empty_list {A}.
Arguments dict {A} a.

(** The dictionary that [generate_design_suggestions] returns. *)
Record design_suggestions : Type := {
  color_suggestions_ : or_empty_list color_suggestions;
  material_suggestions_ : or_empty_list material_suggestions;
  form_suggestions_ : or_empty_list form_suggestions;
  design_approach : string
}.

(** One pass of the loop of [_generate_color_suggestions]. *)
Definition complementary_color (color : string) : result string :=
  (rgb <- ModelGenerator.parse_rgb (lstrip_hash color) ;;
   let '(r, g, b) := rgb in
   let comp_r := (255 - r)%Z in
   let comp_g := (255 - g)%Z in
   let comp_b := (255 - b)%Z in
   OK (String "#" (ColorExtractor.format_02x comp_r
                   ++ ColorExtractor.format_02x comp_g
                   ++ ColorExtractor.format_02x comp_b)))%result.

Definition _generate_color_suggestions (dominant_colors : list string)
  : result color_suggestions :=
  let top_colors :=
    match dominant_colors with
    | [] => ["#CCCCCC"]
    | _ :: _ => firstn 3 dominant_colors
    end in
  (complementary_colors <- mapM complementary_color top_colors ;;
   OK {| primary_palette := top_colors;
         complementary_palette := complementary_colors;
         recommended_accent :=
           match complementary_colors with
           | first :: _ => first
           | [] => "#FF5722"
           end |})%result.

(** [sustainable_alternatives], in the order the dictionary lists them. *)
Definition sustainable_alternatives : list (string * string) :=
  [("Plastic", "Recycled Plastic");
   ("Glass", "Recycled Glass");
   ("Metal", "Recycled Aluminum");
   ("Wood", "FSC-Certified Wood");
   ("Leather", "Vegan Leather");
   ("Fabric", "Organic Cotton")].

(** The inner loop of [_generate_material_suggestions] with its [else]: the
    value of the first key that occurs in the material, or the material
    prefixed when no key does. *)
Fixpoint eco_alternative (material : string) (table : list (string * string))
  : string :=
  match table with
  | [] => "Sustainable " ++ material
  | (key, value) :: rest =>
      if contains key material then value else eco_alternative material rest
  end.

Definition _generate_material_suggestions (texture_type : string)
    (suggested_materials : list string) : material_suggestions :=
  let eco_friendly :=
    map (fun material => eco_alternative material sustainable_alternatives)
        suggested_materials in
  {| recommended_materials := suggested_materials;
     eco_friendly_alternatives := eco_friendly;
     texture_recommendation := texture_type ++ " finish" |}.

Definition _get_recommended_proportions (model_type : string) : string :=
  if String.eqb model_type "cylindrical"
  then "Golden ratio (1:1.618) for height to diameter"
  else if String.eqb model_type "box"
  then "Rule of thirds for dividing surfaces"
  else if String.eqb model_type "pyramid"
  then "Balanced base-to-height ratio of 2:1"
  else if String.eqb model_type "organic"
  then "Asymmetrical balance with focal point"
  else "Balanced proportions with visual hierarchy".

Definition _get_ergonomic_considerations (model_type : string) : list string :=
  let common_considerations := ["Consider user comfort and accessibility"] in
  if String.eqb model_type "cylindrical" then
    (common_considerations
     ++ ["Ensure comfortable grip diameter"; "Round edges for hand comfort"])%list
  else if String.eqb model_type "box" then
    (common_considerations
     ++ ["Avoid sharp corners"; "Consider weight distribution"])%list
  else if String.eqb model_type "organic" then
    (common_considerations
     ++ ["Follow natural hand/body contours"; "Test with diverse user groups"])%list
  else
    (common_considerations
     ++ ["Balance aesthetics with usability";
         "Consider user interaction points"])%list.

Definition _generate_form_suggestions (dominant_shapes : list string)
    (model_type : string) : form_suggestions :=
  let form_description := "Balanced form with " in
  let form_description :=
    if str_in "Circle" dominant_shapes || str_in "Circular" dominant_shapes
    then form_description ++ "curved elements and organic flow"
    else if str_in "Rectangle" dominant_shapes || str_in "Square" dominant_shapes
    then form_description ++ "clean lines and structured geometry"
    else if str_in "Triangle" dominant_shapes
    then form_description ++ "dynamic angles and directional elements"
    else if str_in "Organic" dominant_shapes
    then form_description ++ "natural, flowing contours"
    else form_description ++ "mixed geometric elements" in
  {| form_description := form_description;
     recommended_proportions := _get_recommended_proportions model_type;
     ergonomic_considerations := _get_ergonomic_considerations model_type |}.

Definition _determine_design_approach (analysis_results : analysis_results)
  : result string :=
  (texture <- item (texture_analysis analysis_results) "'texture_analysis'" ;;
   texture_type <- item (TextureAnalyzer.texture_type texture) "'texture_type'" ;;
   shapes <- item (shape_analysis analysis_results) "'shape_analysis'" ;;
   shape_complexity <-
     item (ShapeDetector.shape_complexity shapes) "'shape_complexity'" ;;
   if str_in texture_type ["Smooth"; "Matte"] && String.eqb shape_complexity "Low"
   then OK "Minimalist"
   else if str_in texture_type ["Textured"; "Rough"]
           && String.eqb shape_complexity "High"
   then OK "Organic/Natural"
   else
     (dominant_shapes <-
        item (ShapeDetector.dominant_shapes shapes) "'dominant_shapes'" ;;
      if contains "Geometric" (str_of_list dominant_shapes)
      then OK "Geometric/Structured"
      else if String.eqb texture_type "Smooth" && String.eqb shape_complexity "High"
      then OK "Modern/Sleek"
      else OK "Balanced"))%result.

(** The body of the [try] block of [generate_design_suggestions]. *)
Definition design_suggestions_body (analysis_results : analysis_results)
  : result design_suggestions :=
  (colors <- item (color_analysis analysis_results) "'color_analysis'" ;;
   dominant_colors <- item (ColorExtractor.hex_colors colors) "'hex_colors'" ;;
   texture <- item (texture_analysis analysis_results) "'texture_analysis'" ;;
   texture_type <- item (TextureAnalyzer.texture_type texture) "'texture_type'" ;;
   shapes <- item (shape_analysis analysis_results) "'shape_analysis'" ;;
   dominant_shapes <-
     item (ShapeDetector.dominant_shapes shapes) "'dominant_shapes'" ;;
   model <- item (model_parameters analysis_results) "'model_parameters'" ;;
   let model_type := ModelGenerator.type model in
   let suggested_materials := ModelGenerator.materials model in
   color_suggestions <- _generate_color_suggestions dominant_colors ;;
   let material_suggestions :=
     _generate_material_suggestions texture_type suggested_materials in
   let form_suggestions := _generate_form_suggestions dominant_shapes model_type in
   approach <- _determine_design_approach analysis_results ;;
   OK {| color_suggestions_ := dict color_suggestions;
         material_suggestions_ := dict material_suggestions;
         form_suggestions_ := dict form_suggestions;
         design_approach := approach |})%result.

Definition generate_design_suggestions (analysis_results : analysis_results)
  : design_suggestions :=
  catch (design_suggestions_body analysis_results)
    (fun _ =>
       {| color_suggestions_ := empty_list;
          material_suggestions_ := empty_list;
          form_suggestions_ := empty_list;
          design_approach := "Balanced" |}).


End ImageAnalyzer.

(* ------------------------------------------------------------------ *)
(** * Specification-side definitions *)

Module Spec.

Local Open Scope string_scope.
Local Open Scope Q_scope.

(** Section 4.2, [dominantShapes]: what the aggregation may list, given the
    types of the retained polygons: a type that occurs more than once, or
    one of the four fallback labels. *)
Definition chain_label (shape_types : list string) (label : string) : Prop :=
  (1 < count_occ string_dec shape_types label)%nat
  \/ label = "Geometric" \/ label = "Circular"
  \/ label = "Complex" \/ label = "Organic".

(** Section 4.4, [formType]: the fixed precedence list.  Each entry gives the
    labels that select a form type; the first entry with a label among the
    dominant shapes wins, and the form is generic when none has. *)
Definition form_precedence : list (list string * string) :=
  [(["Circle"; "Circular"], "cylindrical");
   (["Rectangle"; "Square"], "box");
   (["Triangle"], "pyramid");
   (["Polygon"], "polyhedron");
   (["Organic"], "organic")].

Definition selects (labels dominant_shapes : list string) : Prop :=
  exists l, In l labels /\ In l dominant_shapes.

Inductive first_match (dominant_shapes : list string)
  : list (list string * string) -> string -> Prop :=
| match_none :
    first_match dominant_shapes [] "generic"
| match_here labels form rest :
    selects labels dominant_shapes ->
    first_match dominant_shapes ((labels, form) :: rest) form
| match_later labels form rest t :
    ~ selects labels dominant_shapes ->
    first_match dominant_shapes rest t ->
    first_match dominant_shapes ((labels, form) :: rest) t.

(** Section 4.4, [dimensions]: the record of largest area, the first one when
    several records share the largest area. *)
Definition area_of (s : ShapeDetector.shape) : Q := get (ShapeDetector.area s) 0.

Definition largest_area_record (shapes : list ShapeDetector.shape)
    (s : ShapeDetector.shape) : Prop :=
  exists before after,
    shapes = (before ++ s :: after)%list
    /\ (forall t, In t before -> area_of t < area_of s)
    /\ (forall t, In t after -> area_of t <= area_of s).

Definition unit_cube : ModelGenerator.dimensions :=
  {| ModelGenerator.width := 1.0;
     ModelGenerator.height := 1.0;
     ModelGenerator.depth := 1.0 |}.

(** Section 3, [ColorPalette]: the three lists of a palette read as one
    sequence of entries, entry [i] made of the [i]-th element of each. *)
Definition aligned_entries (p : ColorExtractor.palette)
  : list (string * ColorExtractor.rgb * Q) :=
  combine (combine (get (ColorExtractor.hex_colors p) [])
                   (get (ColorExtractor.rgb_values p) []))
          (get (ColorExtractor.percentages p) []).

(** Entry 0 is the color with the largest area share: its hex string is the
    one of its RGB value, and no entry has a larger percentage. *)
Definition top_color_first (p : ColorExtractor.palette) : Prop :=
  match aligned_entries p with
  | [] => True
  | (h, c, share) :: rest =>
      h = ColorExtractor.hex_of_rgb c
      /\ Forall (fun e => snd e <= share) rest
  end.

(** Section 6, the failure surface: the exceptions that reach the [try] block
    of [analyze_image], each with the step that raises it, the steps before
    it having returned.  [output_directory] is the directory derived from
    the base name of the image. *)
Definition output_directory (X : ImageAnalyzer.Ext) (output_dir image_path : string)
  : string :=
  ImageAnalyzer.join X output_dir
    (fst (ImageAnalyzer.splitext X (ImageAnalyzer.basename X image_path))).

Inductive reaches_try (X : ImageAnalyzer.Ext) (output_dir image_path : string)
    (generate_visualizations : bool) : exn -> Prop :=
| missing_file :
    ImageAnalyzer.exists_ X image_path = false ->
    reaches_try X output_dir image_path generate_visualizations
      (FileNotFoundError ("Image file not found: " ++ image_path))
| makedirs_fails e :
    ImageAnalyzer.exists_ X image_path = true ->
    ImageAnalyzer.makedirs X (output_directory X output_dir image_path) = Raise e ->
    reaches_try X output_dir image_path generate_visualizations e
| palette_stage_escapes e :
    ImageAnalyzer.exists_ X image_path = true ->
    ImageAnalyzer.makedirs X (output_directory X output_dir image_path) = OK tt ->
    ColorExtractor.get_color_palette (ImageAnalyzer.color_extractor X) 5
      image_path generate_visualizations
      (Some (output_directory X output_dir image_path)) = Raise e ->
    reaches_try X output_dir image_path generate_visualizations e
| listdir_fails e palette :
    ImageAnalyzer.exists_ X image_path = true ->
    ImageAnalyzer.makedirs X (output_directory X output_dir image_path) = OK tt ->
    ColorExtractor.get_color_palette (ImageAnalyzer.color_extractor X) 5
      image_path generate_visualizations
      (Some (output_directory X output_dir image_path)) = OK palette ->
    generate_visualizations = true ->
    ImageAnalyzer.listdir X (output_directory X output_dir image_path) = Raise e ->
    reaches_try X output_dir image_path generate_visualizations e.

(** Section 4.1, the order of the output: cluster [i] may come before
    cluster [j] when its share is not smaller. *)
Definition share_not_smaller (shares : list Q) (i j : nat) : Prop :=
  nth j shares 0 <= nth i shares 0.

(** Section 4.1: what k-means returns for [k] clusters of [pixels].  Every
    pixel has a label below [k], that of a nearest center, and every center
    is the mean of the pixels that carry its label.  Which of the [k] labels
    a cluster gets is left to the random initialisation. *)
Definition sqdist (p : ColorExtractor.rgb) (c : Q * Q * Q) : Q :=
  let '(r, g, b) := p in
  let '(cr, cg, cb) := c in
  (inject_Z r - cr) * (inject_Z r - cr)
  + (inject_Z g - cg) * (inject_Z g - cg)
  + (inject_Z b - cb) * (inject_Z b - cb).

Definition nearest (centers : list (Q * Q * Q)) (p : ColorExtractor.rgb)
    (label : nat) : bool :=
  match nth_error centers label with
  | Some own => forallb (fun c => negb (sqdist p c <? sqdist p own)%py) centers
  | None => false
  end.

Definition members (pixels : list ColorExtractor.rgb) (labels : list nat)
    (label : nat) : list ColorExtractor.rgb :=
  map fst (filter (fun pl => (snd pl =? label)%nat) (combine pixels labels)).

Definition mean_of (ps : list ColorExtractor.rgb) : Q * Q * Q :=
  let n := inject_Z (Z.of_nat (List.length ps)) in
  (Qsum (map (fun p => inject_Z (fst (fst p))) ps) / n,
   Qsum (map (fun p => inject_Z (snd (fst p))) ps) / n,
   Qsum (map (fun p => inject_Z (snd p)) ps) / n).

Definition same_center (c d : Q * Q * Q) : bool :=
  Qeq_bool (fst (fst c)) (fst (fst d))
  && Qeq_bool (snd (fst c)) (snd (fst d))
  && Qeq_bool (snd c) (snd d).

Definition is_kmeans (k : nat) (pixels : list ColorExtractor.rgb)
    (fitted : ColorExtractor.kmeans) : bool :=
  let centers := ColorExtractor.cluster_centers_ fitted in
  let labels := ColorExtractor.labels_ fitted in
  (List.length centers =? k)%nat
  && (List.length labels =? List.length pixels)%nat
  && forallb (fun pl => nearest centers (fst pl) (snd pl)) (combine pixels labels)
  && forallb (fun j =>
                negb (is_empty (members pixels labels j))
                && match nth_error centers j with
                   | Some c => same_center c (mean_of (members pixels labels j))
                   | None => false
                   end)
             (seq 0 k).

(** A color whose three components are bytes, as the mean of 8-bit pixels
    is after truncation. *)
Definition byte (n : Z) : Prop := (0 <= n <= 255)%Z.

Definition byte_color (c : ColorExtractor.rgb) : Prop :=
  byte (fst (fst c)) /\ byte (snd (fst c)) /\ byte (snd c).

(** ['%02x' % n] is two characters, the first of which is not [#], and
    [int(_, 16)] reads [n] back from them. *)
Definition prints_and_parses (n : Z) : bool :=
  match ColorExtractor.format_02x n with
  | String c1 (String c2 EmptyString) =>
      negb (Ascii.eqb c1 "#")
      && match py_int16 (String c1 (String c2 EmptyString)) with
         | OK m => (m =? n)%Z
         | Raise _ => false
         end
  | _ => false
  end.

(** The sum of a list of counts, and the share of [n] pixels among [total],
    in percent. *)
Definition nat_sum (l : list nat) : nat := fold_right Nat.add 0%nat l.

Definition share (total : nat) (n : nat) : Q :=
  inject_Z (Z.of_nat n) / inject_Z (Z.of_nat total) * 100.

(** The parenthesis of the palette invariant: the clustering assigns every
    sampled pixel to exactly one cluster, that is, it labels each pixel once,
    and it has pixels to label. *)
Definition assigns_every_pixel (X : ColorExtractor.Ext) : Prop :=
  forall k pixels fitted,
    ColorExtractor.KMeans_fit X k pixels = OK fitted ->
    List.length (ColorExtractor.labels_ fitted) = List.length pixels
    /\ pixels <> [].

(** The palette of a failed extraction: three empty lists. *)
Definition empty_palette : ColorExtractor.palette :=
  {| ColorExtractor.hex_colors := Some [];
     ColorExtractor.rgb_values := Some [];
     ColorExtractor.percentages := Some [] |}.

(** The clustering call of [X] returns k-means results for [k] clusters. *)
Definition returns_kmeans (X : ColorExtractor.Ext) (k : nat) : Prop :=
  forall pixels fitted,
    ColorExtractor.KMeans_fit X k pixels = OK fitted ->
    is_kmeans k pixels fitted = true.

(** The clustering [f] fills [k] clusters: it has [k] centers, every label
    is below [k], and every cluster holds a pixel. *)
Definition filled (k : nat) (f : ColorExtractor.kmeans) : Prop :=
  List.length (ColorExtractor.cluster_centers_ f) = k
  /\ (forall l, In l (ColorExtractor.labels_ f) -> (l < k)%nat)
  /\ (forall j, (j < k)%nat -> In j (ColorExtractor.labels_ f)).

(** The clustering call of [X] fills [k] clusters: it returns [k] centers,
    every label is below [k], and every cluster holds a pixel. *)
Definition fills_clusters (X : ColorExtractor.Ext) (k : nat) : Prop :=
  forall pixels fitted,
    ColorExtractor.KMeans_fit X k pixels = OK fitted -> filled k fitted.





Definition shares (f : ColorExtractor.kmeans) : list Q :=
  map (share (List.length (ColorExtractor.labels_ f)))
      (ColorExtractor.bincount (ColorExtractor.labels_ f)).




(** The squared distance of two colors. *)
Definition color_distance2 (a b : Z * Z * Z) : Z :=
  let '(r, g, b1) := a in
  let '(r2, g2, b2) := b in
  ((r - r2) * (r - r2) + (g - g2) * (g - g2) + (b1 - b2) * (b1 - b2))%Z.

(** The color that RGB inversion gives. *)
Definition inverted (c : ColorExtractor.rgb) : ColorExtractor.rgb :=
  let '(r, g, b) := c in ((255 - r)%Z, (255 - g)%Z, (255 - b)%Z).

(** The eight shape types. *)
Definition shape_types : list string :=
  ["Circle"; "Triangle"; "Square"; "Rectangle"; "Pentagon"; "Hexagon";
   "Polygon"; "Organic"].

(** What every entry of [shape_info['shapes']] satisfies: its area is at
    least 100, its type is one of the eight, and its aspect ratio is not
    negative. *)
Definition retained (s : ShapeDetector.shape) : Prop :=
  exists a t r,
    ShapeDetector.area s = Some a /\ ~ a < 100
    /\ ShapeDetector.type s = Some t /\ In t shape_types
    /\ ShapeDetector.aspect_ratio s = Some r /\ 0 <= r.

(** The area that the retained polygons cover, and the number of pixels of
    an image with at least two axes. *)
Definition covered_area (shapes : list ShapeDetector.shape) : Q :=
  Qsum (map area_of shapes).

Definition pixel_count (image_shape : ndarray) : option nat :=
  match shape image_shape with
  | rows :: cols :: _ => Some (rows * cols)%nat
  | _ => None
  end.

(** A contour that the loop of [_analyze_contours] does not skip and whose
    approximation has no point. *)
Definition degenerate (X : ShapeDetector.Ext) (contour : list ShapeDetector.point)
  : Prop :=
  ~ (List.length contour < 5)%nat
  /\ ~ ShapeDetector.contourArea X (ShapeDetector.approximate_polygon X contour) < 100
  /\ ShapeDetector.approximate_polygon X contour = [].

(** [shape_counts.get(key, 0)] *)
Fixpoint count_in (key : string) (shape_counts : list (string * nat)) : nat :=
  match shape_counts with
  | [] => 0
  | (k, n) :: rest => if String.eqb key k then n else count_in key rest
  end.

(** The labels that [detect_shapes] lists. *)
Definition dominant_labels : list string :=
  (shape_types ++ ["Geometric"; "Circular"; "Unknown"])%list.

(** The lists of at most [n] labels. *)
Fixpoint label_lists (n : nat) (labels : list string) : list (list string) :=
  match n with
  | O => [[]]
  | S n' =>
      [] :: flat_map (fun label => map (cons label) (label_lists n' labels)) labels
  end.

(** ['Geometric' in str(dominant_shapes)] gives what
    ['Geometric' in dominant_shapes] gives. *)
Definition textual_test_agrees (dominant_shapes : list string) : bool :=
  Bool.eqb (ImageAnalyzer.contains "Geometric"
              (ImageAnalyzer.str_of_list dominant_shapes))
           (str_in "Geometric" dominant_shapes).

End Spec.

(* ------------------------------------------------------------------ *)
(** * Concrete images and library outcomes *)

Module Sample.

Local Open Scope string_scope.

(** A 150 x 150 RGB image, 40% red and 60% blue, as the clustering sees it,
    and a clustering of it with two clusters: label 0 is red, label 1 blue. *)
Definition red_blue_image : ndarray :=
  {| shape := [150; 150; 3]%nat;
     data := (List.concat (repeat [255; 0; 0]%Z (90 * 100))
              ++ List.concat (repeat [0; 0; 255]%Z (135 * 100)))%list |}.

Definition red_blue_fit : ColorExtractor.kmeans :=
  {| ColorExtractor.cluster_centers_ := [(255, 0, 0); (0, 0, 255)]%Q;
     ColorExtractor.labels_ :=
       (repeat 0%nat (90 * 100) ++ repeat 1%nat (135 * 100))%list |}.

Definition color_ext (image : result ndarray)
    (fit : nat -> list ColorExtractor.rgb -> result ColorExtractor.kmeans)
  : ColorExtractor.Ext :=
  {| ColorExtractor.Image_open := fun _ => image;
     ColorExtractor.KMeans_fit := fit;
     ColorExtractor.makedirs := fun _ => OK tt;
     ColorExtractor.visualize_colors := fun _ _ _ => true;
     ColorExtractor.palette_path := fun dir _ => dir ++ "/palette.png" |}.

(** A clustering call that returns [outcome] for the samples and the number
    of clusters of which it is a k-means result, and accepts no other. *)
Definition fit_returning (outcome : ColorExtractor.kmeans)
  : nat -> list ColorExtractor.rgb -> result ColorExtractor.kmeans :=
  fun k pixels =>
    if Spec.is_kmeans k pixels outcome then OK outcome
    else Raise (ValueError "unexpected samples").

Definition red_blue : ColorExtractor.Ext :=
  color_ext (OK red_blue_image) (fit_returning red_blue_fit).

(** A 150 x 150 RGB image of five colors with shares 1/15 to 5/15, and two
    clusterings of it with five clusters that number the clusters in opposite
    orders. *)
Definition five_colors : list ColorExtractor.rgb :=
  [(255, 0, 0); (0, 255, 0); (0, 0, 255); (0, 0, 0); (255, 255, 255)]%Z.

Definition five_color_image : ndarray :=
  {| shape := [150; 150; 3]%nat;
     data := (List.concat (repeat [255; 0; 0]%Z 1500)
              ++ List.concat (repeat [0; 255; 0]%Z 3000)
              ++ List.concat (repeat [0; 0; 255]%Z 4500)
              ++ List.concat (repeat [0; 0; 0]%Z (60 * 100))
              ++ List.concat (repeat [255; 255; 255]%Z (75 * 100)))%list |}.

Definition center_of (c : ColorExtractor.rgb) : Q * Q * Q :=
  let '(r, g, b) := c in (inject_Z r, inject_Z g, inject_Z b).

Definition first_run : ColorExtractor.kmeans :=
  {| ColorExtractor.cluster_centers_ := map center_of five_colors;
     ColorExtractor.labels_ :=
       (repeat 0%nat 1500 ++ repeat 1%nat 3000 ++ repeat 2%nat 4500
        ++ repeat 3%nat (60 * 100) ++ repeat 4%nat (75 * 100))%list |}.


(** An image without edges, as OpenCV and scikit-image report it. *)
Definition blank : ndarray := {| shape := [512; 512]%nat; data := [] |}.

Definition texture_ext (loaded : option ndarray) : TextureAnalyzer.Ext :=
  {| TextureAnalyzer.imread := fun _ => loaded;
     TextureAnalyzer.cvtColor := fun a => a;
     TextureAnalyzer.resize := fun _ _ a => a;
     TextureAnalyzer.lbp_histogram := fun _ => [1%Q];
     TextureAnalyzer.hog := fun _ => [];
     TextureAnalyzer.gradient_mean := fun _ => 0%Q;
     TextureAnalyzer.np_std_image := fun _ => 0%Q;
     TextureAnalyzer.np_std := fun _ => 0%Q;
     TextureAnalyzer.entropy := fun _ => 0%Q |}.

Definition shape_ext (loaded : option ndarray) : ShapeDetector.Ext :=
  {| ShapeDetector.imread := fun _ => loaded;
     ShapeDetector.cvtColor := fun a => a;
     ShapeDetector.resize := fun _ _ a => a;
     ShapeDetector.GaussianBlur := fun a => a;
     ShapeDetector.canny := fun a => a;
     ShapeDetector.find_contours := fun _ => [];
     ShapeDetector.approximate_polygon := fun c => c;
     ShapeDetector.contourArea := fun _ => 0%Q;
     ShapeDetector.arcLength := fun _ => 0%Q;
     ShapeDetector.hough_line_peaks := fun _ => [];
     ShapeDetector.HoughCircles := fun _ => None |}.

Definition model_ext : ModelGenerator.Ext :=
  {| ModelGenerator.extract_features := fun _ => [] |}.

Definition analyzer_ext (present : bool) (colors : ColorExtractor.Ext)
    (loaded : option ndarray) : ImageAnalyzer.Ext :=
  {| ImageAnalyzer.color_extractor := colors;
     ImageAnalyzer.texture_analyzer := texture_ext loaded;
     ImageAnalyzer.shape_detector := shape_ext loaded;
     ImageAnalyzer.model_generator := model_ext;
     ImageAnalyzer.exists_ := fun _ => present;
     ImageAnalyzer.makedirs := fun _ => OK tt;
     ImageAnalyzer.listdir := fun _ => OK [];
     ImageAnalyzer.basename := fun path => path;
     ImageAnalyzer.splitext := fun name => (name, "");
     ImageAnalyzer.join := fun dir name => dir ++ "/" ++ name |}.

(** The five-color image, clustered as in the first run. *)
Definition five_color_run : ImageAnalyzer.Ext :=
  analyzer_ext true (color_ext (OK five_color_image) (fit_returning first_run))
               (Some blank).


(** A file that exists and that no library can decode. *)
Definition unreadable : ImageAnalyzer.Ext :=
  analyzer_ext true
    (color_ext (Raise (OSError "cannot identify image file"))
               (fun _ _ => Raise (ValueError "no samples")))
    None.

(** A path at which there is no file. *)
Definition missing : ImageAnalyzer.Ext :=
  analyzer_ext false
    (color_ext (Raise (FileNotFoundError "No such file or directory"))
               (fun _ _ => Raise (ValueError "no samples")))
    None.

(** A shape analysis with one rectangle, a palette whose first entry is not
    a hexadecimal color, and a smooth texture. *)
Definition rectangle : ShapeDetector.shape :=
  {| ShapeDetector.type := Some "Rectangle";
     ShapeDetector.vertices := None;
     ShapeDetector.area := Some 10000%Q;
     ShapeDetector.perimeter := None;
     ShapeDetector.compactness := None;
     ShapeDetector.aspect_ratio := Some 1.5%Q;
     ShapeDetector.position := None |}.

Definition one_rectangle : ShapeDetector.shape_analysis :=
  {| ShapeDetector.dominant_shapes := Some ["Rectangle"; "Circle"];
     ShapeDetector.shape_count := None;
     ShapeDetector.has_straight_lines := None;
     ShapeDetector.has_curves := None;
     ShapeDetector.shape_complexity := Some "Medium";
     ShapeDetector.shape_distribution := None;
     ShapeDetector.shape_details := Some [rectangle] |}.

(** The palette of the five-color image as [ColorExtractor] prints it. *)
Definition printed_palette : ColorExtractor.palette :=
  {| ColorExtractor.hex_colors :=
       Some (map ColorExtractor.hex_of_rgb (rev five_colors));
     ColorExtractor.rgb_values := Some five_colors;
     ColorExtractor.percentages := None |}.

Definition bad_palette : ColorExtractor.palette :=
  {| ColorExtractor.hex_colors := Some ["#GGGGGG"];
     ColorExtractor.rgb_values := None;
     ColorExtractor.percentages := None |}.

Definition smooth : TextureAnalyzer.texture_analysis :=
  {| TextureAnalyzer.texture_type := Some "Smooth";
     TextureAnalyzer.roughness := Some 5.0%Q;
     TextureAnalyzer.uniformity := None;
     TextureAnalyzer.contrast := None;
     TextureAnalyzer.directionality := None;
     TextureAnalyzer.pattern_type := Some "Geometric";
     TextureAnalyzer.features_ := None |}.

(** A grayscale image: the array has no channel axis. *)
Definition gray_image : ndarray :=
  {| shape := [150; 150]%nat; data := repeat 128%Z (150 * 150) |}.

Definition gray : ColorExtractor.Ext :=
  color_ext (OK gray_image) (fit_returning red_blue_fit).

(** Two square outlines of side 100, as the contour tracing closes them, in
    an image with two straight lines and no circle. *)
Definition square_contour : list ShapeDetector.point :=
  [(0, 0); (0, 100); (100, 100); (100, 0); (0, 0)]%Q.

Definition squares (found : option (list (Q * Q * Q))) : ShapeDetector.Ext :=
  {| ShapeDetector.imread := fun _ => Some Sample.blank;
     ShapeDetector.cvtColor := fun a => a;
     ShapeDetector.resize := fun _ _ a => a;
     ShapeDetector.GaussianBlur := fun a => a;
     ShapeDetector.canny := fun a => a;
     ShapeDetector.find_contours := fun _ => [square_contour; square_contour];
     ShapeDetector.approximate_polygon := fun c => firstn 4 c;
     ShapeDetector.contourArea := fun _ => 10000%Q;
     ShapeDetector.arcLength := fun _ => 400%Q;
     ShapeDetector.hough_line_peaks := fun _ => [(0, 50); (0, 150)]%Q;
     ShapeDetector.HoughCircles := fun _ => found |}.

Definition two_squares : ShapeDetector.Ext := squares None.

(** The same image with a circle of radius 50 in the middle. *)
Definition squares_and_circle : ShapeDetector.Ext :=
  squares (Some [(256, 256, 50)]%Q).

End Sample.

(* ================================================================== *)
(** * Properties *)

(** ** The error monad and the comparisons *)

Lemma bind_OK_inv {A B : Type} (m : result A) (k : A -> result B) (b : B) :
  bind m k = OK b -> exists a, m = OK a /\ k a = OK b.
Proof.
  destruct m as [a | e]; simpl; intros H.
  - exists a; split; [reflexivity | exact H].
  - discriminate H.
Qed.

Lemma catch_Raise {A : Type} (body : result A) (handler : exn -> A) (e : exn) :
  body = Raise e -> catch body handler = handler e.
Proof. intros ->; reflexivity. Qed.

Lemma Qltb_lt (x y : Q) : Qltb x y = true <-> (x < y)%Q.
Proof. unfold Qltb, Qlt. apply Z.ltb_lt. Qed.

Lemma Qltb_reflect (x y : Q) : reflect (x < y)%Q (Qltb x y).
Proof. apply iff_reflect. symmetry. apply Qltb_lt. Qed.

Lemma py_min_Qmin (a b : Q) : (py_min a b == Qmin a b)%Q.
Proof.
  unfold py_min. destruct (Qltb_reflect b a) as [H | H].
  - symmetry. apply Q.min_r. apply Qlt_le_weak; exact H.
  - symmetry. apply Q.min_l. apply Qnot_lt_le; exact H.
Qed.

Lemma str_in_In (x : string) (l : list string) : str_in x l = true <-> In x l.
Proof.
  unfold str_in. rewrite existsb_exists. split.
  - intros [y [Hy Heq]]. apply String.eqb_eq in Heq. subst y. exact Hy.
  - intros H. exists x. split; [exact H | apply String.eqb_refl].
Qed.

Lemma str_in_reflect (x : string) (l : list string) : reflect (In x l) (str_in x l).
Proof. apply iff_reflect. symmetry. apply str_in_In. Qed.

(* ------------------------------------------------------------------ *)
(** ** TextureAnalyzer *)

Section TextureTheorems.

Import TextureAnalyzer.
Local Open Scope Q_scope.

Variables roughness uniformity contrast directionality : Q.

Lemma texture_type_rule_sound :
  texture_type_rule roughness uniformity contrast directionality
    (_determine_texture_type roughness uniformity contrast directionality).
Proof.
  unfold _determine_texture_type.
  destruct (Qltb_reflect roughness 10) as [H10 | H10].
  - destruct (Qltb_reflect 0.5 uniformity); now constructor.
  - destruct (Qltb_reflect roughness 30) as [H30 | H30].
    + destruct (Qltb_reflect 0.5 directionality); now constructor.
    + destruct (Qltb_reflect 0.3 contrast); now constructor.
Qed.

Lemma texture_type_rule_functional (t1 t2 : string) :
  texture_type_rule roughness uniformity contrast directionality t1 ->
  texture_type_rule roughness uniformity contrast directionality t2 ->
  t1 = t2.
Proof.
  intros H1 H2; destruct H1; destruct H2; try reflexivity; contradiction.
Qed.

(** C6. For every tuple of texture metrics the texture type that
    [_determine_texture_type] computes is exactly the one of the rules:
    roughness below 10 gives Smooth when uniformity exceeds 0.5 and Matte
    otherwise; otherwise roughness below 30 gives Striated when
    directionality exceeds 0.5 and Textured otherwise; otherwise Rough when
    contrast exceeds 0.3 and Coarse otherwise. *)
Theorem determine_texture_type_exact (t : string) :
  _determine_texture_type roughness uniformity contrast directionality = t
  <-> texture_type_rule roughness uniformity contrast directionality t.
Proof.
  split.
  - intros <-. apply texture_type_rule_sound.
  - intros H. eapply texture_type_rule_functional; [ | exact H].
    apply texture_type_rule_sound.
Qed.

End TextureTheorems.

(* ------------------------------------------------------------------ *)
(** ** ShapeDetector: the classification of a polygon *)

Section ShapeClassification.

Import ShapeDetector.
Local Open Scope Q_scope.

Lemma fold_left_pairwise (f : Q -> Q -> Q) (rest : list point) (p : point) :
  fold_left (fun m q => (f (fst m) (fst q), f (snd m) (snd q))) rest p
  = (fold_left f (map fst rest) (fst p), fold_left f (map snd rest) (snd p)).
Proof.
  revert p. induction rest as [ | q rest IH]; intros p; simpl.
  - destruct p; reflexivity.
  - rewrite IH. reflexivity.
Qed.

Lemma bounding_box_ratio_eq (pts : list point) :
  pts <> [] -> bounding_box_ratio pts = OK (bbox_aspect_ratio pts).
Proof.
  destruct pts as [ | p rest]; [congruence | intros _].
  unfold bounding_box_ratio, bbox_aspect_ratio, np_min_axis0, np_max_axis0.
  simpl bind. rewrite !fold_left_pairwise. reflexivity.
Qed.

Lemma shape_rule_functional (c : Q) (n : nat) (r : Q) (t1 t2 : string) :
  shape_rule c n r t1 -> shape_rule c n r t2 -> t1 = t2.
Proof.
  intros H1 H2; destruct H1; destruct H2;
    try reflexivity; try contradiction; lia.
Qed.

Lemma identify_shape_sound (contour : list point) (c : Q) :
  exists t, _identify_shape contour c = OK t
            /\ shape_rule c (List.length contour) (bbox_aspect_ratio contour) t.
Proof.
  unfold _identify_shape.
  destruct (Qltb_reflect 0.8 c) as [Hc | Hc].
  { eexists; split; [reflexivity | now constructor]. }
  destruct (Nat.eqb_spec (List.length contour) 3) as [H3 | H3].
  { eexists; split; [reflexivity | now constructor]. }
  destruct (Nat.eqb_spec (List.length contour) 4) as [H4 | H4].
  { rewrite bounding_box_ratio_eq by (intros ->; discriminate H4).
    simpl bind.
    destruct (Qltb_reflect 0.9 (bbox_aspect_ratio contour)) as [Hlo | Hlo];
      destruct (Qltb_reflect (bbox_aspect_ratio contour) 1.1) as [Hhi | Hhi];
      simpl; eexists; (split; [reflexivity | ]);
      first [ now apply rule_Square
            | apply rule_Rectangle; [assumption | assumption | tauto] ]. }
  destruct (Nat.eqb_spec (List.length contour) 5) as [H5 | H5].
  { eexists; split; [reflexivity | now constructor]. }
  destruct (Nat.eqb_spec (List.length contour) 6) as [H6 | H6].
  { eexists; split; [reflexivity | now constructor]. }
  destruct (Nat.ltb_spec 6 (List.length contour)) as [Hgt | Hle];
    destruct (Nat.ltb_spec (List.length contour) 15) as [Hlt | Hge]; simpl;
    eexists; (split; [reflexivity | ]);
    first [ apply rule_Polygon; [assumption | lia]
          | apply rule_Organic; [assumption | lia] ].
Qed.

(** C5. For every polygon and compactness, [_identify_shape] returns a type,
    and that type is the only one the precedence rules allow: Circle when the
    compactness exceeds 0.8, whatever the number of vertices; otherwise
    Triangle for 3 vertices, for 4 vertices Square when the aspect ratio of
    the bounding box lies strictly between 0.9 and 1.1 and Rectangle
    otherwise, Pentagon for 5, Hexagon for 6, Polygon for 7 to 14, and Organic
    for any other number of vertices. *)
Theorem identify_shape_precedence (contour : list point) (c : Q) :
  exists t,
    _identify_shape contour c = OK t
    /\ forall t',
         shape_rule c (List.length contour) (bbox_aspect_ratio contour) t'
         <-> t' = t.
Proof.
  destruct (identify_shape_sound contour c) as [t [Hrun Hrule]].
  exists t. split; [exact Hrun | ].
  intros t'. split.
  - intros H'. exact (shape_rule_functional H' Hrule).
  - intros ->. exact Hrule.
Qed.

End ShapeClassification.

Example identify_unit_square :
  ShapeDetector._identify_shape [(0, 0); (0, 10); (10, 10); (10, 0)]%Q 0.785%Q
  = OK "Square"%string.
Proof. reflexivity. Qed.

Example identify_flat_rectangle :
  ShapeDetector._identify_shape [(0, 0); (0, 10); (30, 10); (30, 0)]%Q 0.6%Q
  = OK "Rectangle"%string.
Proof. reflexivity. Qed.

Example identify_compact_square_is_circle :
  ShapeDetector._identify_shape [(0, 0); (0, 10); (10, 10); (10, 0)]%Q 0.81%Q
  = OK "Circle"%string.
Proof. reflexivity. Qed.

(* ------------------------------------------------------------------ *)
(** ** ModelGenerator: form type and dimensions *)

Section ModelTheorems.

Import ModelGenerator.
Import Spec.
Local Open Scope string_scope.
Local Open Scope Q_scope.

Lemma first_match_functional (ds : list string) (rules : list (list string * string))
    (t1 t2 : string) :
  first_match ds rules t1 -> first_match ds rules t2 -> t1 = t2.
Proof.
  intros H1. revert t2.
  induction H1 as [ | labels form rest Hsel | labels form rest t Hnot H1 IH];
    intros t2 H2; inversion H2; subst;
    try reflexivity; try contradiction.
  apply IH; assumption.
Qed.

Lemma selects_two (a b : string) (ds : list string) :
  selects [a; b] ds <-> In a ds \/ In b ds.
Proof.
  unfold selects. split.
  - intros [l [[<- | [<- | []]] Hin]]; [left | right]; exact Hin.
  - intros [H | H]; [exists a | exists b]; simpl; tauto.
Qed.

Lemma selects_one (a : string) (ds : list string) :
  selects [a] ds <-> In a ds.
Proof.
  unfold selects. split.
  - intros [l [[<- | []] Hin]]; exact Hin.
  - intros H; exists a; simpl; tauto.
Qed.

Lemma determine_model_type_sound (sa : ShapeDetector.shape_analysis) :
  first_match (get (ShapeDetector.dominant_shapes sa) ["Unknown"])
    form_precedence (_determine_model_type sa).
Proof.
  unfold _determine_model_type, form_precedence.
  set (ds := get (ShapeDetector.dominant_shapes sa) ["Unknown"]).
  destruct (str_in_reflect "Circle" ds) as [H1 | H1];
    [apply match_here, selects_two; tauto | ].
  destruct (str_in_reflect "Circular" ds) as [H2 | H2];
    [apply match_here, selects_two; tauto | ].
  simpl orb. apply match_later; [rewrite selects_two; tauto | ].
  destruct (str_in_reflect "Rectangle" ds) as [H3 | H3];
    [apply match_here, selects_two; tauto | ].
  destruct (str_in_reflect "Square" ds) as [H4 | H4];
    [apply match_here, selects_two; tauto | ].
  simpl orb. apply match_later; [rewrite selects_two; tauto | ].
  destruct (str_in_reflect "Triangle" ds) as [H5 | H5];
    [apply match_here, selects_one; tauto | ].
  apply match_later; [rewrite selects_one; tauto | ].
  destruct (str_in_reflect "Polygon" ds) as [H6 | H6];
    [apply match_here, selects_one; tauto | ].
  apply match_later; [rewrite selects_one; tauto | ].
  destruct (str_in_reflect "Organic" ds) as [H7 | H7];
    [apply match_here, selects_one; tauto | ].
  apply match_later; [rewrite selects_one; tauto | ].
  apply match_none.
Qed.

(** C7. The form type is derived from the dominant shapes alone, by the
    fixed precedence list: Circle or Circular gives cylindrical; else
    Rectangle or Square gives box; else Triangle gives pyramid; else Polygon
    gives polyhedron; else Organic gives organic; otherwise generic.  In
    particular the dominant shapes [Circle] give cylindrical and [Rectangle]
    give box. *)
Theorem determine_model_type_precedence :
  (forall (sa : ShapeDetector.shape_analysis) (t : string),
      _determine_model_type sa = t
      <-> first_match (get (ShapeDetector.dominant_shapes sa) ["Unknown"])
            form_precedence t)
  /\ (forall sa, ShapeDetector.dominant_shapes sa = Some ["Circle"] ->
                 _determine_model_type sa = "cylindrical")
  /\ (forall sa, ShapeDetector.dominant_shapes sa = Some ["Rectangle"] ->
                 _determine_model_type sa = "box").
Proof.
  split; [ | split].
  - intros sa t. split.
    + intros <-. apply determine_model_type_sound.
    + intros H. eapply first_match_functional; [ | exact H].
      apply determine_model_type_sound.
  - intros sa H. unfold _determine_model_type. rewrite H. reflexivity.
  - intros sa H. unfold _determine_model_type. rewrite H. reflexivity.
Qed.

Lemma max_from_keeps (s : ShapeDetector.shape) (after : list ShapeDetector.shape) :
  (forall t, In t after -> area_of t <= area_of s) ->
  max_from (fun a b => (a >? b)%py) area_of s after = s.
Proof.
  induction after as [ | x after IH]; intros Hafter; simpl.
  - reflexivity.
  - destruct (Qltb_reflect (area_of s) (area_of x)) as [Hlt | _].
    + exfalso. apply (Qlt_not_le _ _ Hlt). apply Hafter. left; reflexivity.
    + apply IH. intros t Ht. apply Hafter. right; exact Ht.
Qed.

Lemma max_from_first_largest (s best : ShapeDetector.shape)
    (before after : list ShapeDetector.shape) :
  area_of best < area_of s ->
  (forall t, In t before -> area_of t < area_of s) ->
  (forall t, In t after -> area_of t <= area_of s) ->
  max_from (fun a b => (a >? b)%py) area_of best (before ++ s :: after) = s.
Proof.
  revert best. induction before as [ | x before IH]; intros best Hbest Hbefore Hafter.
  - simpl. destruct (Qltb_reflect (area_of best) (area_of s)) as [_ | Hn];
      [ | contradiction].
    apply max_from_keeps; exact Hafter.
  - simpl. apply IH.
    + destruct (Qltb (area_of best) (area_of x));
        [apply Hbefore; left; reflexivity | exact Hbest].
    + intros t Ht. apply Hbefore. right; exact Ht.
    + exact Hafter.
Qed.

Lemma largest_area_record_selected (first : ShapeDetector.shape)
    (others : list ShapeDetector.shape) (s : ShapeDetector.shape) :
  largest_area_record (first :: others) s ->
  max_from (fun a b => (a >? b)%py) area_of first others = s.
Proof.
  intros [before [after [Heq [Hbefore Hafter]]]].
  destruct before as [ | b before]; simpl in Heq; injection Heq as -> ->.
  - apply max_from_keeps; exact Hafter.
  - apply max_from_first_largest.
    + apply Hbefore. left; reflexivity.
    + intros t Ht. apply Hbefore. right; exact Ht.
    + exact Hafter.
Qed.

(** C8. With no shape record the dimensions are the unit cube.  With shape
    records, let [r > 0] be the aspect ratio of the record of largest area:
    when [r > 1] the width is [min(2, r)] and the height 1, otherwise the
    width is 1 and the height [min(2, 1/r)]; the depth is the width when that
    record is a Circle or a Square, and half the width otherwise. *)
Theorem generate_dimensions_spec :
  (forall sa, get (ShapeDetector.shape_details sa) [] = [] ->
              _generate_dimensions sa = unit_cube)
  /\ (forall sa s r,
        largest_area_record (get (ShapeDetector.shape_details sa) []) s ->
        get (ShapeDetector.aspect_ratio s) 1.0 = r ->
        0 < r ->
        let d := _generate_dimensions sa in
        (1 < r -> width d == Qmin 2 r /\ height d == 1)
        /\ (~ 1 < r -> width d == 1 /\ height d == Qmin 2 (1 / r))
        /\ (ShapeDetector.type s = Some "Circle"
            \/ ShapeDetector.type s = Some "Square" -> depth d == width d)
        /\ (~ (ShapeDetector.type s = Some "Circle"
               \/ ShapeDetector.type s = Some "Square") ->
            depth d == width d * 0.5)).
Proof.
  split.
  - intros sa H. unfold _generate_dimensions. rewrite H. reflexivity.
  - intros sa s r Hlargest Hr Hpos. unfold _generate_dimensions.
    destruct (get (ShapeDetector.shape_details sa) []) as [ | first others].
    { destruct Hlargest as [before [after [Heq _]]].
      destruct before; discriminate Heq. }
    fold area_of. rewrite (largest_area_record_selected Hlargest).
    rewrite Hr. cbv zeta.
    assert (Htype :
      str_in (get (ShapeDetector.type s) "") ["Circle"; "Square"] = true
      <-> ShapeDetector.type s = Some "Circle"
          \/ ShapeDetector.type s = Some "Square").
    { rewrite str_in_In. destruct (ShapeDetector.type s) as [ty | ]; simpl.
      - split.
        + intros [H | [H | []]]; [left | right]; congruence.
        + intros [H | H]; injection H as ->; tauto.
      - split.
        + intros [H | [H | []]]; discriminate H.
        + intros [H | H]; discriminate H. }
    assert (Hone : 1 < r <-> 1.0 < r).
    { unfold Qlt; simpl; lia. }
    assert (Hmin : forall x, py_min 2.0 x == Qmin 2 x).
    { intros x. rewrite py_min_Qmin. apply Q.min_compat; reflexivity. }
    destruct (Qltb_reflect 0 r) as [_ | Hn]; [ | contradiction].
    destruct (Qltb_reflect 1.0 r) as [Hr1 | Hr1];
      destruct (str_in (get (ShapeDetector.type s) "") ["Circle"; "Square"]) eqn:Hty;
      simpl; (split; [ | split; [ | split]]); intros H.
    all: try (exfalso; tauto).
    all: try (exfalso; apply H; apply Htype; reflexivity).
    all: try (apply Htype in H; discriminate H).
    all: try reflexivity.
    all: split; try reflexivity; try apply Hmin.
    all: rewrite Hmin; apply Q.min_compat; [reflexivity | ].
    all: unfold Qdiv; apply Qmult_comp; reflexivity.
Qed.

End ModelTheorems.

(* ------------------------------------------------------------------ *)
(** ** ColorExtractor: the percentages *)

Section PaletteTheorems.

Import ColorExtractor.
Import Spec.
Local Open Scope Q_scope.

Lemma indicator_sum (x n : nat) :
  (x < n)%nat ->
  nat_sum (map (fun v => if Nat.eq_dec x v then 1%nat else 0%nat) (seq 0 n)) = 1%nat.
Proof.
  intros Hx. induction n as [ | n IH].
  - lia.
  - rewrite seq_S, map_app. unfold nat_sum in *. rewrite fold_right_app. simpl.
    destruct (Nat.eq_dec x n) as [-> | Hne].
    + clear IH Hx.
      assert (H : forall m acc, (m <= n)%nat ->
                fold_right Nat.add acc
                  (map (fun v => if Nat.eq_dec n v then 1%nat else 0%nat) (seq 0 m))
                = acc).
      { induction m as [ | m IHm]; intros acc Hm; [reflexivity | ].
        rewrite seq_S, map_app, fold_right_app. simpl.
        destruct (Nat.eq_dec n m); [lia | ]. apply IHm. lia. }
      rewrite H; lia.
    + apply IH. lia.
Qed.

Lemma nat_sum_add (f g : nat -> nat) (l : list nat) :
  nat_sum (map (fun v => (f v + g v)%nat) l)
  = (nat_sum (map f l) + nat_sum (map g l))%nat.
Proof.
  induction l as [ | v l IH]; simpl; [reflexivity | ].
  unfold nat_sum in *. simpl. rewrite IH. lia.
Qed.

Lemma count_sum (labels : list nat) (n : nat) :
  (forall x, In x labels -> (x < n)%nat) ->
  nat_sum (map (count_occ Nat.eq_dec labels) (seq 0 n)) = List.length labels.
Proof.
  induction labels as [ | x labels IH]; intros Hbound.
  - simpl. induction (seq 0 n) as [ | v l IHl]; [reflexivity | exact IHl].
  - transitivity
      (nat_sum (map (fun v => ((if Nat.eq_dec x v then 1 else 0)
                               + count_occ Nat.eq_dec labels v)%nat) (seq 0 n))).
    + f_equal. apply map_ext. intros v. simpl.
      destruct (Nat.eq_dec x v); reflexivity.
    + rewrite nat_sum_add, indicator_sum by (apply Hbound; left; reflexivity).
      rewrite IH by (intros y Hy; apply Hbound; right; exact Hy).
      reflexivity.
Qed.

Lemma max_bound (labels : list nat) (x : nat) :
  In x labels -> (x < S (fold_right Nat.max 0%nat labels))%nat.
Proof.
  induction labels as [ | y labels IH]; simpl; [tauto | ].
  intros [-> | H]; [lia | ]. specialize (IH H). lia.
Qed.

(** Every label is counted in exactly one bin. *)
Lemma bincount_sum (labels : list nat) :
  nat_sum (bincount labels) = List.length labels.
Proof.
  destruct labels as [ | l labels]; [reflexivity | ].
  unfold bincount. apply count_sum. intros x. apply max_bound.
Qed.

Lemma share_nonneg (total n : nat) : 0 <= share total n.
Proof.
  unfold share. apply Qmult_le_0_compat; [ | discriminate].
  unfold Qdiv. apply Qmult_le_0_compat.
  - change 0 with (inject_Z 0). rewrite <- Zle_Qle. lia.
  - apply Qinv_le_0_compat. change 0 with (inject_Z 0). rewrite <- Zle_Qle. lia.
Qed.

Lemma share_sum (total : nat) (counts : list nat) :
  Qsum (map (share total) counts) == share total (nat_sum counts).
Proof.
  induction counts as [ | n counts IH]; simpl.
  - unfold share. simpl. unfold Qdiv. ring.
  - rewrite IH. unfold share, nat_sum. simpl fold_right.
    rewrite Nat2Z.inj_add, inject_Z_plus. unfold Qdiv. ring.
Qed.

Lemma share_all (total : nat) : total <> 0%nat -> share total total == 100.
Proof.
  intros H. unfold share. field.
  change 0 with (inject_Z 0). rewrite inject_Z_injective. lia.
Qed.

(** What a successful extraction returns: the colors are the truncated
    cluster centers, the percentages the shares of the bins of the labels,
    and the hex colors returned first are those of the colors taken in the
    reversed [argsort] of the percentages. *)
Lemma extract_colors_success (X : Ext) (n_colors : nat) (image_path : string)
    (hexs : list string) (info : color_info) (ps : list Q) :
  extract_colors X n_colors image_path = (hexs, info) ->
  percentages_ info = Some ps ->
  exists img pixels fitted colors,
    Image_open X image_path = OK img
    /\ sampled_pixels img = OK pixels
    /\ KMeans_fit X n_colors pixels = OK fitted
    /\ ps = map (share (List.length (labels_ fitted))) (bincount (labels_ fitted))
    /\ info = {| hex := Some (map hex_of_rgb colors);
                 rgb_ := Some colors;
                 percentages_ := Some ps |}
    /\ mapM (index (map hex_of_rgb colors)) (rev (argsort ps)) = OK hexs.
Proof.
  unfold extract_colors. intros Hrun Hps.
  destruct (Image_open X image_path) as [img | e] eqn:Himg; simpl in Hrun;
    [ | injection Hrun as _ <-; discriminate Hps].
  destruct (sampled_pixels img) as [pixels | e] eqn:Hpx; simpl in Hrun;
    [ | injection Hrun as _ <-; discriminate Hps].
  destruct (KMeans_fit X n_colors pixels) as [fitted | e] eqn:Hfit; simpl in Hrun;
    [ | injection Hrun as _ <-; discriminate Hps].
  match type of Hrun with
  | catch (bind ?m _) _ = _ => destruct m as [sorted | e] eqn:Hsorted
  end; simpl in Hrun; injection Hrun as <- <-; [ | discriminate Hps].
  simpl in Hps. injection Hps as <-.
  exists img, pixels, fitted. eexists.
  repeat split; try assumption; reflexivity.
Qed.

(** C9. On every image on which color extraction succeeds, the clustering
    having assigned every sampled pixel to exactly one cluster, each
    percentage is non-negative and the percentages sum to 100: every label is
    counted in exactly one bin. *)
Theorem percentages_nonneg_sum_100 (X : Ext) (n_colors : nat) (image_path : string)
    (hexs : list string) (info : color_info) (ps : list Q) :
  assigns_every_pixel X ->
  extract_colors X n_colors image_path = (hexs, info) ->
  percentages_ info = Some ps ->
  Forall (fun p => 0 <= p) ps /\ Qsum ps == 100.
Proof.
  intros Hassign Hrun Hps.
  destruct (extract_colors_success _ _ _ Hrun Hps)
    as [img [pixels [fitted [colors [_ [_ [Hfit [-> _]]]]]]]].
  destruct (Hassign _ _ _ Hfit) as [Hlen Hne].
  split.
  - apply Forall_forall. intros p Hp. apply in_map_iff in Hp.
    destruct Hp as [n [<- _]]. apply share_nonneg.
  - rewrite share_sum, bincount_sum. apply share_all.
    rewrite Hlen. destruct pixels; [congruence | discriminate].
Qed.

End PaletteTheorems.

(* ------------------------------------------------------------------ *)
(** ** ShapeDetector: the dominant shapes *)

Section DominantShapes.

Import ShapeDetector.
Import Spec.
Local Open Scope string_scope.

Lemma firstn_subset {A : Type} (n : nat) (l : list A) (x : A) :
  In x (firstn n l) -> In x l.
Proof.
  revert l. induction n as [ | n IH]; intros [ | y l]; simpl; try tauto.
  intros [H | H]; [left; exact H | right; apply IH; exact H].
Qed.

Lemma In_insert_desc (x y : string * nat) (l : list (string * nat)) :
  In x (insert_desc y l) -> x = y \/ In x l.
Proof.
  induction l as [ | z l IH]; simpl.
  - intros [<- | []]; left; reflexivity.
  - destruct (snd y <? snd z)%nat; simpl.
    + intros [<- | H]; [right; left; reflexivity | ].
      destruct (IH H) as [-> | H']; [left; reflexivity | right; right; exact H'].
    + intros [<- | [<- | H]]; [left | right; left | right; right]; trivial.
Qed.

Lemma In_sorted_desc (x : string * nat) (l : list (string * nat)) :
  In x (sorted_desc l) -> In x l.
Proof.
  induction l as [ | y l IH]; simpl; [tauto | ].
  intros H. apply In_insert_desc in H. destruct H as [-> | H]; [left | right]; auto.
Qed.

Lemma count_type_bound (seen : list string) (t : string)
    (counts : list (string * nat)) :
  (forall k n, In (k, n) counts -> (n <= count_occ string_dec seen k)%nat) ->
  forall k n, In (k, n) (count_type t counts) ->
              (n <= count_occ string_dec (seen ++ [t]) k)%nat.
Proof.
  induction counts as [ | [k0 n0] counts IH]; intros Hinv k n; simpl.
  - intros [H | []]. injection H as <- <-.
    rewrite count_occ_app. simpl. destruct (string_dec t t); [lia | congruence].
  - destruct (String.eqb_spec t k0) as [-> | Hne]; simpl.
    + intros [H | H].
      * injection H as <- <-. rewrite count_occ_app. simpl.
        destruct (string_dec k0 k0); [ | congruence].
        specialize (Hinv k0 n0 (or_introl eq_refl)). lia.
      * specialize (Hinv k n (or_intror H)). rewrite count_occ_app. lia.
    + intros [H | H].
      * injection H as <- <-.
        specialize (Hinv k0 n0 (or_introl eq_refl)). rewrite count_occ_app. lia.
      * apply IH; [ | exact H]. intros k' n' H'. apply Hinv. right; exact H'.
Qed.

Lemma shape_counts_bound (types seen : list string) (counts : list (string * nat)) :
  (forall k n, In (k, n) counts -> (n <= count_occ string_dec seen k)%nat) ->
  forall k n,
    In (k, n) (fold_left (fun counts t => count_type t counts) types counts) ->
    (n <= count_occ string_dec (seen ++ types) k)%nat.
Proof.
  revert seen counts. induction types as [ | t types IH]; intros seen counts Hinv k n.
  - simpl. rewrite app_nil_r. apply Hinv.
  - simpl. intros H.
    replace (seen ++ t :: types)%list with ((seen ++ [t]) ++ types)%list
      by (rewrite <- app_assoc; reflexivity).
    eapply IH; [ | exact H]. apply count_type_bound. exact Hinv.
Qed.

(** The types listed first are those counted more than once. *)
Lemma repeated_types (types : list string) (label : string) :
  In label (map fst (filter (fun p => (1 <? snd p)%nat)
                       (firstn 3 (sorted_desc
                          (fold_left (fun counts t => count_type t counts) types []))))) ->
  (1 < count_occ string_dec types label)%nat.
Proof.
  intros H. apply in_map_iff in H. destruct H as [[k n] [Hk H]]. simpl in Hk. subst k.
  apply filter_In in H. destruct H as [H Hn]. simpl in Hn. apply Nat.ltb_lt in Hn.
  apply firstn_subset, In_sorted_desc in H.
  pose proof (@shape_counts_bound types [] [] (fun _ _ F => match F with end) _ _ H) as Hb.
  simpl in Hb. lia.
Qed.

(** The fallback chain of [_determine_dominant_shapes]: when it returns, the
    list is not empty and holds only repeated types and fallback labels. *)
Lemma determine_dominant_shapes_chain (info : shape_info) (li : line_info)
    (ci : circle_info) (ds : list string) :
  _determine_dominant_shapes info li ci = OK ds ->
  ds <> []
  /\ exists types,
       mapM (fun s => item (type s) "'type'") (shapes info) = OK types
       /\ Forall (chain_label types) ds.
Proof.
  unfold _determine_dominant_shapes. intros H.
  apply bind_OK_inv in H. destruct H as [types [Htypes H]].
  cbv zeta in H.
  set (counts := fold_left (fun counts t => count_type t counts) types []) in H.
  set (d0 := match counts with
             | [] => []
             | _ :: _ => map fst (filter (fun p => (1 <? snd p)%nat)
                                    (firstn 3 (sorted_desc counts)))
             end) in H.
  assert (H0 : Forall (chain_label types) d0).
  { apply Forall_forall. intros l Hl. left. apply repeated_types.
    subst d0. fold counts. destruct counts; [destruct Hl | exact Hl]. }
  set (d1 := if has_straight_lines_ li && is_empty d0
             then (d0 ++ ["Geometric"])%list else d0) in H.
  assert (H1 : Forall (chain_label types) d1).
  { subst d1. destruct (has_straight_lines_ li && is_empty d0); [ | exact H0].
    apply Forall_app. split; [exact H0 | ].
    constructor; [right; left; reflexivity | constructor]. }
  set (d2 := if has_circles ci && negb (str_in "Circle" d1)
             then (d1 ++ ["Circular"])%list else d1) in H.
  assert (H2 : Forall (chain_label types) d2).
  { subst d2. destruct (has_circles ci && negb (str_in "Circle" d1)); [ | exact H1].
    apply Forall_app. split; [exact H1 | ].
    constructor; [right; right; left; reflexivity | constructor]. }
  clearbody d2. clear d1 H1 d0 H0 counts.
  destruct d2 as [ | l d2].
  - destruct (String.eqb (complexity info) "High"); injection H as <-;
      (split; [discriminate | ]); exists types; (split; [exact Htypes | ]);
      (constructor; [ | constructor]); unfold chain_label; tauto.
  - injection H as <-. split; [discriminate | ].
    exists types. split; [exact Htypes | exact H2].
Qed.

(** The two paths of [detect_shapes]. *)
Lemma detect_shapes_failure (X : Ext) (image_path : string) (e : exn) :
  detect_shapes_body X image_path = Raise e ->
  dominant_shapes (detect_shapes X image_path) = Some ["Unknown"].
Proof. unfold detect_shapes. intros ->. reflexivity. Qed.

Lemma detect_shapes_success (X : Ext) (image_path : string) (sa : shape_analysis) :
  detect_shapes_body X image_path = OK sa ->
  detect_shapes X image_path = sa
  /\ exists info li ci ds,
       _determine_dominant_shapes info li ci = OK ds
       /\ dominant_shapes sa = Some ds.
Proof.
  intros H. split; [unfold detect_shapes; rewrite H; reflexivity | ].
  unfold detect_shapes_body in H.
  apply bind_OK_inv in H. destruct H as [img [_ H]].
  apply bind_OK_inv in H. destruct H as [info [_ H]].
  apply bind_OK_inv in H. destruct H as [ds [Hds H]].
  injection H as <-. eexists _, _, _, ds. split; [exact Hds | reflexivity].
Qed.

End DominantShapes.

(* ------------------------------------------------------------------ *)
(** ** ColorExtractor: the order of the three lists *)

Section PaletteOrder.

Import ColorExtractor.
Import Spec.
Local Open Scope string_scope.
Local Open Scope Q_scope.

Lemma insert_asc_perm (a : list Q) (i : nat) (l : list nat) :
  Permutation (insert_asc a i l) (i :: l).
Proof.
  induction l as [ | j l IH]; simpl.
  - apply Permutation_refl.
  - destruct (Qltb (nth j a 0) (nth i a 0)).
    + apply perm_trans with (j :: i :: l); [apply perm_skip, IH | apply perm_swap].
    + apply Permutation_refl.
Qed.

Lemma argsort_perm (a : list Q) :
  Permutation (argsort a) (seq 0 (List.length a)).
Proof.
  unfold argsort. induction (seq 0 (List.length a)) as [ | i l IH]; simpl.
  - apply perm_nil.
  - apply perm_trans with (i :: fold_right (insert_asc a) [] l);
      [apply insert_asc_perm | apply perm_skip, IH].
Qed.

Lemma insert_asc_sorted (a : list Q) (i : nat) (l : list nat) :
  StronglySorted (fun x y => nth x a 0 <= nth y a 0) l ->
  StronglySorted (fun x y => nth x a 0 <= nth y a 0) (insert_asc a i l).
Proof.
  induction l as [ | j l IH]; intros Hs; simpl.
  - constructor; constructor.
  - inversion Hs as [ | j' l' Hl Hj]; subst.
    destruct (Qltb_reflect (nth j a 0) (nth i a 0)) as [Hlt | Hge].
    + constructor; [apply IH; exact Hl | ].
      apply Forall_forall. intros x Hx.
      apply (Permutation_in _ (insert_asc_perm a i l)) in Hx.
      destruct Hx as [<- | Hx]; [apply Qlt_le_weak; exact Hlt | ].
      rewrite Forall_forall in Hj. apply Hj; exact Hx.
    + apply Qnot_lt_le in Hge. constructor; [exact Hs | ].
      constructor; [exact Hge | ].
      apply Forall_forall. intros x Hx. rewrite Forall_forall in Hj.
      apply Qle_trans with (nth j a 0); [exact Hge | apply Hj; exact Hx].
Qed.

Lemma argsort_sorted (a : list Q) :
  StronglySorted (fun x y => nth x a 0 <= nth y a 0) (argsort a).
Proof.
  unfold argsort. induction (seq 0 (List.length a)) as [ | i l IH]; simpl.
  - constructor.
  - apply insert_asc_sorted, IH.
Qed.

Lemma StronglySorted_snoc {A : Type} (R : A -> A -> Prop) (l : list A) (x : A) :
  StronglySorted R l -> Forall (fun y => R y x) l -> StronglySorted R (l ++ [x]).
Proof.
  induction l as [ | y l IH]; intros Hs Hall; simpl.
  - constructor; constructor.
  - inversion Hs as [ | y' l' Hl Hy]; subst.
    inversion Hall as [ | y' l' Hyx Hrest]; subst.
    constructor; [apply IH; assumption | ].
    apply Forall_app. split; [exact Hy | constructor; [exact Hyx | constructor]].
Qed.

Lemma StronglySorted_rev {A : Type} (R : A -> A -> Prop) (l : list A) :
  StronglySorted R l -> StronglySorted (fun x y => R y x) (rev l).
Proof.
  induction 1 as [ | x l Hl IH Hx]; simpl.
  - constructor.
  - apply StronglySorted_snoc; [exact IH | ].
    apply Forall_forall. intros y Hy. apply in_rev in Hy.
    rewrite Forall_forall in Hx. apply Hx; exact Hy.
Qed.

(** The hex colors returned first, on their own, are in the order the
    specification asks for: they are the colors of the bins of
    [np.bincount], one for every label from 0 to the largest label in use,
    each bin once, by descending share.  A label below the largest one that
    no pixel carries has a bin too, with the share 0. *)
Theorem hex_colors_by_descending_share (X : Ext) (n_colors : nat)
    (image_path : string) (hexs all_hex : list string) (info : color_info)
    (ps : list Q) :
  extract_colors X n_colors image_path = (hexs, info) ->
  hex info = Some all_hex ->
  percentages_ info = Some ps ->
  exists order,
    Permutation order (seq 0 (List.length ps))
    /\ StronglySorted (share_not_smaller ps) order
    /\ mapM (index all_hex) order = OK hexs.
Proof.
  intros Hrun Hhex Hps.
  destruct (extract_colors_success _ _ _ Hrun Hps)
    as [img [pixels [fitted [colors [_ [_ [_ [_ [Hinfo Hsorted]]]]]]]]].
  rewrite Hinfo in Hhex. simpl in Hhex. injection Hhex as <-.
  exists (rev (argsort ps)). split; [ | split].
  - apply perm_trans with (argsort ps);
      [apply Permutation_sym, Permutation_rev | apply argsort_perm].
  - apply (StronglySorted_rev (argsort_sorted ps)).
  - exact Hsorted.
Qed.

Lemma hex_colors_by_descending_share_witness :
  exists order,
    Permutation order (seq 0 2)
    /\ StronglySorted (share_not_smaller [900000 # 22500; 1350000 # 22500]) order
    /\ mapM (index ["#ff0000"; "#0000ff"]) order
       = OK (fst (extract_colors Sample.red_blue 2 "red_blue.png")).
Proof.
  apply (@hex_colors_by_descending_share Sample.red_blue 2 "red_blue.png"
           (fst (extract_colors Sample.red_blue 2 "red_blue.png"))
           ["#ff0000"; "#0000ff"]
           (snd (extract_colors Sample.red_blue 2 "red_blue.png"))
           [900000 # 22500; 1350000 # 22500]).
  - destruct (extract_colors Sample.red_blue 2 "red_blue.png"); reflexivity.
  - vm_compute. reflexivity.
  - vm_compute. reflexivity.
Defined.

(** C1. On the image that is 40% red and 60% blue, clustered with red as
    cluster 0, [get_color_palette] returns the hex colors by descending
    share, blue first, and the RGB values and the percentages by cluster
    number, red first: entry 0 of the three lists is not one color, and the
    percentage at index 0 is not the largest. *)
Theorem palette_lists_misaligned :
  exists p,
    get_color_palette Sample.red_blue 2 "red_blue.png" false None = OK p
    /\ hex_colors p = Some ["#0000ff"; "#ff0000"]
    /\ rgb_values p = Some [(255, 0, 0); (0, 0, 255)]%Z
    /\ Forall2 Qeq (get (percentages p) []) [40; 60]
    /\ ~ top_color_first p.
Proof.
  eexists. split; [vm_compute; reflexivity | ].
  split; [reflexivity | ]. split; [reflexivity | ]. split.
  - repeat constructor.
  - unfold top_color_first, aligned_entries. simpl.
    intros [H _]. vm_compute in H. discriminate H.
Qed.

End PaletteOrder.

(* ------------------------------------------------------------------ *)
(** ** ModelGenerator: the fallback *)

Section ModelFallback.

Import ModelGenerator.
Local Open Scope string_scope.
Local Open Scope Q_scope.

(** The only step of the [try] block that can raise is the naming of the
    colors. *)
Lemma model_params_body_raises (X : Ext) (image_path : string)
    (sa : ShapeDetector.shape_analysis) (ca : ColorExtractor.palette)
    (ta : TextureAnalyzer.texture_analysis) (e : exn) :
  model_params_body X image_path sa ca ta = Raise e
  <-> _process_colors ca = Raise e.
Proof.
  unfold model_params_body.
  destruct (_process_colors ca) as [named | e']; simpl; split; intros H;
    first [discriminate H | congruence].
Qed.

(** Section 4.4 of the specification does not hold as written: the
    fallback that follows an internal error is of type [basic_cube], not of
    form type [generic]. *)
Lemma fallback_type_not_generic :
  model_params_body Sample.model_ext "reference.png"
    Sample.one_rectangle Sample.bad_palette Sample.smooth
  = Raise (ValueError "invalid literal for int() with base 16: 'GG'")
  /\ type (generate_model_parameters Sample.model_ext "reference.png"
             Sample.one_rectangle Sample.bad_palette Sample.smooth)
     = "basic_cube"
  /\ type (generate_model_parameters Sample.model_ext "reference.png"
             Sample.one_rectangle Sample.bad_palette Sample.smooth)
     <> "generic".
Proof.
  split; [reflexivity | ]. split; [reflexivity | ]. vm_compute. discriminate.
Qed.

(** C3 (amended). On every input on which the body of
    [generate_model_parameters] raises, the function returns the default
    parameters: type [basic_cube], the unit cube, the single gray color
    [#CCCCCC], the material Plastic and no detail. *)
Theorem generate_model_parameters_fallback (X : Ext) (image_path : string)
    (sa : ShapeDetector.shape_analysis) (ca : ColorExtractor.palette)
    (ta : TextureAnalyzer.texture_analysis) (e : exn) :
  model_params_body X image_path sa ca ta = Raise e ->
  generate_model_parameters X image_path sa ca ta
  = {| type := "basic_cube";
       dimensions_ := Spec.unit_cube;
       colors := [{| hex := "#CCCCCC"; name := "Gray" |}];
       materials := ["Plastic"];
       details := [] |}.
Proof.
  intros H. unfold generate_model_parameters.
  rewrite (catch_Raise _ H). reflexivity.
Qed.

Lemma generate_model_parameters_fallback_witness :
  generate_model_parameters Sample.model_ext "reference.png"
    Sample.one_rectangle Sample.bad_palette Sample.smooth
  = {| type := "basic_cube";
       dimensions_ := Spec.unit_cube;
       colors := [{| hex := "#CCCCCC"; name := "Gray" |}];
       materials := ["Plastic"];
       details := [] |}.
Proof.
  apply (@generate_model_parameters_fallback Sample.model_ext "reference.png"
           Sample.one_rectangle Sample.bad_palette Sample.smooth
           (ValueError "invalid literal for int() with base 16: 'GG'")).
  reflexivity.
Defined.

Lemma determine_model_type_precedence_witness :
  _determine_model_type Sample.one_rectangle = "cylindrical".
Proof.
  apply (proj1 determine_model_type_precedence Sample.one_rectangle "cylindrical").
  unfold Spec.form_precedence. apply Spec.match_here.
  exists "Circle". split; simpl; tauto.
Defined.

Lemma generate_dimensions_spec_witness :
  Spec.largest_area_record
    (get (ShapeDetector.shape_details Sample.one_rectangle) []) Sample.rectangle
  /\ 0 < 1.5
  /\ width (_generate_dimensions Sample.one_rectangle) == Qmin 2 1.5
  /\ height (_generate_dimensions Sample.one_rectangle) == 1
  /\ depth (_generate_dimensions Sample.one_rectangle)
     == width (_generate_dimensions Sample.one_rectangle) * 0.5.
Proof.
  assert (Hlargest : Spec.largest_area_record
            (get (ShapeDetector.shape_details Sample.one_rectangle) [])
            Sample.rectangle).
  { exists [], []. split; [reflexivity | ]. split; intros t []. }
  assert (Hpos : 0 < 1.5) by reflexivity.
  destruct (proj2 generate_dimensions_spec Sample.one_rectangle Sample.rectangle
              1.5 Hlargest eq_refl Hpos) as [Hwide [_ [_ Hflat]]].
  split; [exact Hlargest | ]. split; [exact Hpos | ].
  split; [apply Hwide; reflexivity | ].
  split; [apply Hwide; reflexivity | ].
  apply Hflat. intros [H | H]; discriminate H.
Defined.

End ModelFallback.

(* ------------------------------------------------------------------ *)
(** ** ImageAnalyzer: failures *)

Section AnalyzerFailures.

Import ImageAnalyzer.
Import Spec.
Local Open Scope string_scope.

(** The body of the [try] block raises exactly the exceptions that reach
    it. *)
Lemma analyze_image_body_raises (X : Ext) (output_dir image_path : string)
    (generate_visualizations : bool) (e : exn) :
  analyze_image_body X output_dir image_path generate_visualizations = Raise e
  <-> reaches_try X output_dir image_path generate_visualizations e.
Proof.
  unfold analyze_image_body. split.
  - intros H.
    destruct (exists_ X image_path) eqn:Hexists; simpl in H;
      [ | injection H as <-; apply missing_file; exact Hexists].
    fold (output_directory X output_dir image_path) in H.
    destruct (makedirs X (output_directory X output_dir image_path))
      as [[] | e1] eqn:Hdirs; simpl in H;
      [ | injection H as <-; apply makedirs_fails; assumption].
    destruct (ColorExtractor.get_color_palette (color_extractor X) 5 image_path
                generate_visualizations
                (Some (output_directory X output_dir image_path)))
      as [pal | e2] eqn:Hpal; simpl in H;
      [ | injection H as <-; apply palette_stage_escapes; assumption].
    destruct generate_visualizations eqn:Hgv; simpl in H; [ | discriminate H].
    unfold _get_visualization_files in H.
    destruct (listdir X (output_directory X output_dir image_path))
      as [files | e3] eqn:Hlist; simpl in H; [discriminate H | ].
    injection H as <-. eapply listdir_fails; eauto.
  - intros H. fold (output_directory X output_dir image_path).
    destruct H as [Hexists | e' Hexists Hdirs | e' Hexists Hdirs Hpal
                  | e' pal Hexists Hdirs Hpal Hgv Hlist].
    + rewrite Hexists. reflexivity.
    + rewrite Hexists. simpl. rewrite Hdirs. reflexivity.
    + rewrite Hexists. simpl. rewrite Hdirs. simpl. rewrite Hpal. reflexivity.
    + rewrite Hexists. simpl. rewrite Hdirs. simpl. rewrite Hpal. simpl.
      subst generate_visualizations. unfold _get_visualization_files.
      rewrite Hlist. reflexivity.
Qed.

(** Section 6 of the specification does not hold as written for an image
    that exists and cannot be decoded: each stage raises and catches its own
    exception, and the record holds the sentinels of the stages and no
    [error]. *)
Lemma unreadable_image_is_not_failed :
  ColorExtractor.Image_open (color_extractor Sample.unreadable) "photo.png"
  = Raise (OSError "cannot identify image file")
  /\ ShapeDetector.detect_shapes_body (shape_detector Sample.unreadable) "photo.png"
     = Raise (ValueError "Could not load image from photo.png")
  /\ error (analyze_image Sample.unreadable "./output" "photo.png" true) = None
  /\ status (analyze_image Sample.unreadable "./output" "photo.png" true) = None.
Proof. repeat split; reflexivity. Qed.

(** C2 (amended). For every image path and every exception that reaches the
    [try] block of [analyze_image] (the missing file, a failing
    [os.makedirs] or [os.listdir], a failure that escapes the palette
    stage), the function does not raise: it returns the record with [error]
    the message of the exception, [image_path] the path, and [status] equal
    to failed. *)
Theorem analyze_image_failed_record (X : Ext) (output_dir image_path : string)
    (generate_visualizations : bool) (e : exn) :
  reaches_try X output_dir image_path generate_visualizations e ->
  analyze_image X output_dir image_path generate_visualizations
  = failed e image_path
  /\ error (analyze_image X output_dir image_path generate_visualizations)
     = Some (str e)
  /\ image_path_ (analyze_image X output_dir image_path generate_visualizations)
     = Some image_path
  /\ status (analyze_image X output_dir image_path generate_visualizations)
     = Some "failed".
Proof.
  intros H. apply analyze_image_body_raises in H.
  unfold analyze_image. rewrite (catch_Raise _ H).
  repeat split; reflexivity.
Qed.

Lemma analyze_image_failed_record_witness :
  error (analyze_image Sample.missing "./output" "nowhere.png" true)
  = Some "Image file not found: nowhere.png"
  /\ status (analyze_image Sample.missing "./output" "nowhere.png" true)
     = Some "failed".
Proof.
  destruct (@analyze_image_failed_record Sample.missing "./output" "nowhere.png"
              true (FileNotFoundError "Image file not found: nowhere.png")
              (missing_file Sample.missing "./output" "nowhere.png" true eq_refl))
    as [_ [Herror [_ Hstatus]]].
  split; [exact Herror | exact Hstatus].
Defined.

(** When no exception reaches the [try] block the record is the assembled
    one, without [error]. *)
Lemma analyze_image_assembled (X : Ext) (output_dir image_path : string)
    (generate_visualizations : bool) :
  (forall e, ~ reaches_try X output_dir image_path generate_visualizations e) ->
  error (analyze_image X output_dir image_path generate_visualizations) = None
  /\ status (analyze_image X output_dir image_path generate_visualizations) = None.
Proof.
  intros Hnone. unfold analyze_image.
  destruct (analyze_image_body X output_dir image_path generate_visualizations)
    as [r | e] eqn:Hbody.
  - simpl. unfold analyze_image_body in Hbody.
    repeat (apply bind_OK_inv in Hbody; destruct Hbody as [? [_ Hbody]]).
    injection Hbody as <-. split; reflexivity.
  - exfalso. apply (Hnone e). apply analyze_image_body_raises. exact Hbody.
Qed.

End AnalyzerFailures.

(* ------------------------------------------------------------------ *)
(** ** The pipeline and the clustering outcome *)

Section Determinism.

Import ImageAnalyzer.
Import Spec.
Local Open Scope string_scope.

Lemma is_kmeans_length (k : nat) (pixels : list ColorExtractor.rgb)
    (fitted : ColorExtractor.kmeans) :
  is_kmeans k pixels fitted = true ->
  List.length (ColorExtractor.labels_ fitted) = List.length pixels.
Proof.
  unfold is_kmeans. intros H.
  apply andb_prop in H. destruct H as [H _].
  apply andb_prop in H. destruct H as [H _].
  apply andb_prop in H. destruct H as [_ H].
  apply Nat.eqb_eq. exact H.
Qed.


(** The clustering of the red and blue image labels each pixel once. *)
Lemma red_blue_assigns_every_pixel : assigns_every_pixel Sample.red_blue.
Proof.
  intros k pixels fitted.
  change (ColorExtractor.KMeans_fit Sample.red_blue k pixels)
    with (Sample.fit_returning Sample.red_blue_fit k pixels).
  unfold Sample.fit_returning.
  destruct (is_kmeans k pixels Sample.red_blue_fit) eqn:Hk; [ | discriminate].
  intros H. injection H as <-.
  pose proof (is_kmeans_length _ _ _ Hk) as Hlen.
  split; [exact Hlen | ].
  intros ->.
  assert (Hn : Nat.eqb (List.length (ColorExtractor.labels_ Sample.red_blue_fit)) 0
               = false) by (vm_compute; reflexivity).
  rewrite Hlen in Hn. discriminate Hn.
Qed.

Lemma percentages_nonneg_sum_100_witness :
  Forall (fun p => (0 <= p)%Q) [900000 # 22500; 1350000 # 22500]%Q
  /\ (Qsum [900000 # 22500; 1350000 # 22500] == 100)%Q.
Proof.
  apply (@percentages_nonneg_sum_100 Sample.red_blue 2 "red_blue.png"
           (fst (ColorExtractor.extract_colors Sample.red_blue 2 "red_blue.png"))
           (snd (ColorExtractor.extract_colors Sample.red_blue 2 "red_blue.png"))).
  - exact red_blue_assigns_every_pixel.
  - destruct (ColorExtractor.extract_colors Sample.red_blue 2 "red_blue.png");
      reflexivity.
  - vm_compute. reflexivity.
Defined.

End Determinism.

(* ------------------------------------------------------------------ *)
(** ** From the palette to the named colors *)

Section HexRoundTrip.

Import ModelGenerator.
Import Spec.
Local Open Scope string_scope.

Lemma bytes_print_and_parse :
  forallb prints_and_parses (map Z.of_nat (seq 0 256)) = true.
Proof. vm_compute. reflexivity. Qed.

Lemma byte_prints_and_parses (n : Z) :
  byte n ->
  exists c1 c2,
    ColorExtractor.format_02x n = String c1 (String c2 "")
    /\ c1 <> "#"%char
    /\ py_int16 (String c1 (String c2 "")) = OK n.
Proof.
  intros [Hlo Hhi].
  assert (Hin : In n (map Z.of_nat (seq 0 256))).
  { apply in_map_iff. exists (Z.to_nat n). split; [lia | ].
    apply in_seq. lia. }
  pose proof (proj1 (forallb_forall _ _) bytes_print_and_parse n Hin) as H.
  unfold prints_and_parses in H.
  destruct (ColorExtractor.format_02x n) as [ | c1 [ | c2 [ | c3 rest]]];
    try discriminate H.
  apply andb_prop in H. destruct H as [Hc1 H].
  exists c1, c2. split; [reflexivity | ]. split.
  - intros ->. discriminate Hc1.
  - destruct (py_int16 (String c1 (String c2 ""))) as [m | e]; [ | discriminate H].
    apply Z.eqb_eq in H. subst m. reflexivity.
Qed.

(** What [ColorExtractor] prints for a color of bytes, [ModelGenerator]
    reads back as the same color. *)
Lemma parse_rgb_hex_of_rgb (c : ColorExtractor.rgb) :
  byte_color c ->
  parse_rgb (lstrip_hash (ColorExtractor.hex_of_rgb c)) = OK c.
Proof.
  destruct c as [[r g] b]. intros [Hr [Hg Hb]]. simpl in Hr, Hg, Hb.
  destruct (byte_prints_and_parses Hr) as [r1 [r2 [Er [Hr1 Pr]]]].
  destruct (byte_prints_and_parses Hg) as [g1 [g2 [Eg [_ Pg]]]].
  destruct (byte_prints_and_parses Hb) as [b1 [b2 [Eb [_ Pb]]]].
  unfold ColorExtractor.hex_of_rgb. rewrite Er, Eg, Eb.
  change (lstrip_hash (String "#" (String r1 (String r2 "")
                                   ++ String g1 (String g2 "")
                                   ++ String b1 (String b2 ""))))
    with (lstrip_hash (String r1 (String r2 (String g1 (String g2
                         (String b1 (String b2 ""))))))).
  assert (Hstrip : forall rest, lstrip_hash (String r1 rest) = String r1 rest).
  { intros rest. simpl.
    destruct r1 as [[] [] [] [] [] [] [] []]; try reflexivity.
    exfalso. apply Hr1. reflexivity. }
  rewrite Hstrip. unfold parse_rgb, slice2.
  change (substring 0 2 (String r1 (String r2 (String g1 (String g2
                           (String b1 (String b2 "")))))))
    with (String r1 (String r2 "")).
  change (substring 2 2 (String r1 (String r2 (String g1 (String g2
                           (String b1 (String b2 "")))))))
    with (String g1 (String g2 "")).
  change (substring 4 2 (String r1 (String r2 (String g1 (String g2
                           (String b1 (String b2 "")))))))
    with (String b1 (String b2 "")).
  rewrite Pr, Pg, Pb. reflexivity.
Qed.

Lemma closest_loop_returns (rgb : Z * Z * Z) (items : list (string * string)) :
  Forall (fun kv => exists v, parse_rgb (lstrip_hash (fst kv)) = OK v) items ->
  forall min_distance closest_name,
    exists name, closest_loop rgb items min_distance closest_name = OK name.
Proof.
  induction 1 as [ | [hex_code name] items [v Hv] _ IH];
    intros min_distance closest_name.
  - exists closest_name. reflexivity.
  - simpl in Hv. simpl closest_loop. rewrite Hv. simpl bind.
    destruct rgb as [[r g] b]. destruct v as [[r2 g2] b2].
    destruct min_distance as [m | ]; [ | apply IH].
    match goal with |- context [if ?c then _ else _] => destruct c end; apply IH.
Qed.

Lemma color_names_parse :
  Forall (fun kv => exists v, parse_rgb (lstrip_hash (fst kv)) = OK v) color_names.
Proof.
  unfold color_names. repeat constructor; eexists; vm_compute; reflexivity.
Qed.

(** On a palette whose hex colors [ColorExtractor] printed from colors of
    bytes, the body of [generate_model_parameters] does not raise: every one
    of the first three colors gets a name, and the form type, dimensions,
    materials and details are those of the rules. *)
Theorem pipeline_palette_never_falls_back (X : Ext) (image_path : string)
    (sa : ShapeDetector.shape_analysis) (ca : ColorExtractor.palette)
    (ta : TextureAnalyzer.texture_analysis) (printed : list ColorExtractor.rgb) :
  Forall byte_color printed ->
  ColorExtractor.hex_colors ca = Some (map ColorExtractor.hex_of_rgb printed) ->
  exists named,
    _process_colors ca = OK named
    /\ map hex named = firstn 3 (map ColorExtractor.hex_of_rgb printed)
    /\ generate_model_parameters X image_path sa ca ta
       = {| type := _determine_model_type sa;
            dimensions_ := _generate_dimensions sa;
            colors := named;
            materials := _suggest_materials ta;
            details := _generate_details sa ta |}.
Proof.
  intros Hbytes Hhex.
  assert (Hnamed : exists named,
             _process_colors ca = OK named
             /\ map hex named = firstn 3 (map ColorExtractor.hex_of_rgb printed)).
  { unfold _process_colors. rewrite Hhex. simpl get.
    rewrite firstn_map.
    assert (Hfirst : Forall byte_color (firstn 3 printed)).
    { apply Forall_forall. intros c Hc. rewrite Forall_forall in Hbytes.
      apply Hbytes. revert Hc.
      apply firstn_subset. }
    induction Hfirst as [ | c l Hc _ IH].
    - exists []. split; reflexivity.
    - destruct IH as [named [Hrun Hmap]].
      assert (Hname : exists name,
                 _find_closest_color_name (ColorExtractor.hex_of_rgb c) color_names
                 = OK name).
      { unfold _find_closest_color_name.
        destruct (lookup (ColorExtractor.hex_of_rgb c) color_names) as [name | ];
          [exists name; reflexivity | ].
        rewrite (parse_rgb_hex_of_rgb Hc). cbv beta iota delta [bind].
        apply closest_loop_returns, color_names_parse. }
      destruct Hname as [name Hname].
      exists ({| hex := ColorExtractor.hex_of_rgb c; name := name |} :: named).
      split.
      + simpl mapM. rewrite Hname. simpl bind. rewrite Hrun. reflexivity.
      + simpl. rewrite Hmap. reflexivity. }
  destruct Hnamed as [named [Hrun Hmap]].
  exists named. split; [exact Hrun | ]. split; [exact Hmap | ].
  unfold generate_model_parameters, model_params_body. rewrite Hrun. reflexivity.
Qed.

Lemma pipeline_palette_never_falls_back_witness :
  exists named,
    _process_colors Sample.printed_palette = OK named
    /\ map hex named
       = firstn 3 (map ColorExtractor.hex_of_rgb (rev Sample.five_colors))
    /\ generate_model_parameters Sample.model_ext "five.png" Sample.one_rectangle
         Sample.printed_palette Sample.smooth
       = {| type := _determine_model_type Sample.one_rectangle;
            dimensions_ := _generate_dimensions Sample.one_rectangle;
            colors := named;
            materials := _suggest_materials Sample.smooth;
            details := _generate_details Sample.one_rectangle Sample.smooth |}.
Proof.
  apply (@pipeline_palette_never_falls_back Sample.model_ext "five.png"
           Sample.one_rectangle Sample.printed_palette Sample.smooth
           (rev Sample.five_colors)).
  - repeat constructor; simpl; lia.
  - reflexivity.
Defined.

End HexRoundTrip.

(* ------------------------------------------------------------------ *)
(** ** ColorExtractor: failures and sizes *)

Section PaletteEdges.

Import ColorExtractor.
Import Spec.
Local Open Scope string_scope.

Lemma extract_colors_outcome (X : Ext) (n_colors : nat) (image_path : string) :
  extract_colors X n_colors image_path = ([], empty_info)
  \/ exists ps, percentages_ (snd (extract_colors X n_colors image_path)) = Some ps.
Proof.
  unfold extract_colors.
  destruct (Image_open X image_path) as [img | e]; simpl; [ | left; reflexivity].
  destruct (sampled_pixels img) as [pixels | e]; simpl; [ | left; reflexivity].
  destruct (KMeans_fit X n_colors pixels) as [fitted | e]; simpl;
    [ | left; reflexivity].
  match goal with
  | |- catch (bind ?m _) _ = _ \/ _ => destruct m as [sorted | e]
  end; simpl; [right; eexists; reflexivity | left; reflexivity].
Qed.

Lemma flat_image_not_sampled (img : ndarray) :
  (List.length (shape img) < 3)%nat -> exists e, sampled_pixels img = Raise e.
Proof.
  intros Hdims. unfold sampled_pixels.
  destruct (reshape3 (data img)) as [rows | e]; simpl; [ | exists e; reflexivity].
  unfold shape_at.
  destruct (nth_error (shape img) 2) as [n | ] eqn:Hnth.
  - assert (H : nth_error (shape img) 2 <> None) by (rewrite Hnth; discriminate).
    apply nth_error_Some in H. lia.
  - simpl. eexists. reflexivity.
Qed.

(** An image that cannot be opened, and an image whose array has no channel
    axis (a grayscale or palette image), give the empty palette: the three
    lists are empty and nothing is raised, whatever the visualisation
    arguments. *)
Theorem unreadable_or_flat_image_gives_empty_palette (X : Ext) (n_colors : nat)
    (image_path : string) (save_visualization : bool) (output_dir : option string) :
  (exists e, Image_open X image_path = Raise e)
  \/ (exists img, Image_open X image_path = OK img
                  /\ (List.length (shape img) < 3)%nat) ->
  get_color_palette X n_colors image_path save_visualization output_dir
  = OK empty_palette.
Proof.
  intros H.
  assert (Hfail : extract_colors X n_colors image_path = ([], empty_info)).
  { unfold extract_colors. destruct H as [[e He] | [img [Himg Hdims]]].
    - rewrite He. reflexivity.
    - rewrite Himg. simpl bind.
      destruct (flat_image_not_sampled _ Hdims) as [e He]. rewrite He. reflexivity. }
  unfold get_color_palette. rewrite Hfail.
  destruct save_visualization; reflexivity.
Qed.

Lemma unreadable_or_flat_image_gives_empty_palette_witness :
  get_color_palette Sample.gray 5 "gray.png" true (Some "./output")
  = OK empty_palette.
Proof.
  apply (@unreadable_or_flat_image_gives_empty_palette Sample.gray 5 "gray.png"
           true (Some "./output")).
  right. exists Sample.gray_image. split; [reflexivity | simpl; lia].
Defined.

(** [get_color_palette] raises in one case only: the extraction returned
    colors, a visualisation into a named directory was asked for, and
    creating that directory raised. *)
Theorem get_color_palette_raises_only_makedirs (X : Ext) (n_colors : nat)
    (image_path : string) (save_visualization : bool)
    (output_dir : option string) (e : exn) :
  get_color_palette X n_colors image_path save_visualization output_dir = Raise e
  <-> exists dir,
        wants_visualization save_visualization
          (fst (extract_colors X n_colors image_path)) output_dir = Some dir
        /\ makedirs X dir = Raise e.
Proof.
  unfold get_color_palette.
  pose proof (extract_colors_outcome X n_colors image_path) as Hout.
  destruct (extract_colors X n_colors image_path) as [hexs info]. simpl fst.
  simpl snd in Hout.
  destruct (wants_visualization save_visualization hexs output_dir) as [dir | ]
    eqn:Hwants.
  - assert (Hps : exists ps, percentages_ info = Some ps).
    { destruct Hout as [Hempty | Hps]; [ | exact Hps].
      injection Hempty as -> _. destruct save_visualization; discriminate Hwants. }
    destruct Hps as [ps Hps]. rewrite Hps.
    destruct (makedirs X dir) as [[] | e'] eqn:Hdirs; simpl; split.
    + intros H. discriminate H.
    + intros [dir' [Hd Hr]]. injection Hd as <-. congruence.
    + intros H. injection H as <-. exists dir. split; [reflexivity | exact Hdirs].
    + intros [dir' [Hd Hr]]. injection Hd as <-. congruence.
  - simpl. split; [intros H; discriminate H | ].
    intros [dir [Hd _]]. discriminate Hd.
Qed.

Lemma mapM_length {A B : Type} (f : A -> result B) (l : list A) (r : list B) :
  mapM f l = OK r -> List.length r = List.length l.
Proof.
  revert r. induction l as [ | a l IH]; intros r H; simpl in H.
  - injection H as <-. reflexivity.
  - apply bind_OK_inv in H. destruct H as [b [_ H]].
    apply bind_OK_inv in H. destruct H as [bs [Hbs H]].
    injection H as <-. simpl. rewrite (IH _ Hbs). reflexivity.
Qed.

Lemma In_combine_snd {A B : Type} (l : list A) (l' : list B) (y : B) :
  List.length l' = List.length l -> In y l' -> exists x, In (x, y) (combine l l').
Proof.
  revert l'. induction l as [ | a l IH]; intros [ | b l'] Hlen Hin; simpl in *;
    try discriminate; try contradiction.
  destruct Hin as [<- | Hin].
  - exists a. left; reflexivity.
  - destruct (IH l' ltac:(lia) Hin) as [x Hx]. exists x. right; exact Hx.
Qed.

Lemma max_label (labels : list nat) (k : nat) :
  (forall l, In l labels -> (l < S k)%nat) -> In k labels ->
  fold_right Nat.max 0%nat labels = k.
Proof.
  induction labels as [ | l labels IH]; intros Hbound Hin; [destruct Hin | ].
  simpl.
  assert (Hrest : (fold_right Nat.max 0%nat labels <= k)%nat).
  { clear IH Hin. induction labels as [ | m labels IHm]; simpl; [lia | ].
    assert (m < S k)%nat by (apply Hbound; right; left; reflexivity).
    assert (fold_right Nat.max 0%nat labels <= k)%nat.
    { apply IHm. intros x [Hx | Hx]; apply Hbound; [left | right; right]; trivial. }
    lia. }
  assert (l < S k)%nat by (apply Hbound; left; reflexivity).
  destruct Hin as [-> | Hin]; [lia | ].
  rewrite IH; [lia | | exact Hin].
  intros x Hx. apply Hbound. right; exact Hx.
Qed.

(** A k-means result for [k] clusters has one bin per cluster. *)
Lemma is_kmeans_bins (k : nat) (pixels : list rgb) (fitted : kmeans) :
  is_kmeans k pixels fitted = true ->
  List.length (cluster_centers_ fitted) = k
  /\ List.length (bincount (labels_ fitted)) = k.
Proof.
  unfold is_kmeans. intros H.
  apply andb_prop in H. destruct H as [H Hclusters].
  apply andb_prop in H. destruct H as [H Hnearest].
  apply andb_prop in H. destruct H as [Hcenters Hlabels].
  apply Nat.eqb_eq in Hcenters. apply Nat.eqb_eq in Hlabels.
  split; [exact Hcenters | ].
  assert (Hbound : forall l, In l (labels_ fitted) -> (l < k)%nat).
  { intros l Hl.
    destruct (In_combine_snd pixels (labels_ fitted) l Hlabels Hl) as [p Hp].
    rewrite forallb_forall in Hnearest. specialize (Hnearest _ Hp).
    unfold nearest in Hnearest. simpl in Hnearest.
    destruct (nth_error (cluster_centers_ fitted) l) eqn:Hnth; [ | discriminate].
    rewrite <- Hcenters. apply nth_error_Some. rewrite Hnth. discriminate. }
  destruct k as [ | k].
  - destruct (labels_ fitted) as [ | l rest]; [reflexivity | ].
    exfalso. specialize (Hbound l (or_introl eq_refl)). lia.
  - assert (Hlast : In k (labels_ fitted)).
    { rewrite forallb_forall in Hclusters.
      assert (Hk : In k (seq 0 (S k))) by (apply in_seq; lia).
      specialize (Hclusters _ Hk). apply andb_prop in Hclusters.
      destruct Hclusters as [Hmembers _]. unfold members in Hmembers.
      destruct (filter (fun pl => (snd pl =? k)%nat) (combine pixels (labels_ fitted)))
        as [ | [p l] rest] eqn:Hfilter; [discriminate Hmembers | ].
      assert (Hin : In (p, l) (filter (fun pl => (snd pl =? k)%nat)
                                 (combine pixels (labels_ fitted))))
        by (rewrite Hfilter; left; reflexivity).
      apply filter_In in Hin. destruct Hin as [Hin Heq]. simpl in Heq.
      apply Nat.eqb_eq in Heq. subst l. apply in_combine_r in Hin. exact Hin. }
    unfold bincount.
    destruct (labels_ fitted) as [ | l rest] eqn:Hl; [destruct Hlast | ].
    rewrite length_map, length_seq. f_equal.
    apply max_label; [exact Hbound | exact Hlast].
Qed.

Lemma extract_colors_fitted (X : Ext) (n_colors : nat) (image_path : string)
    (hexs : list string) (info : color_info) (colors : list rgb) :
  extract_colors X n_colors image_path = (hexs, info) ->
  rgb_ info = Some colors ->
  exists pixels fitted,
    KMeans_fit X n_colors pixels = OK fitted
    /\ List.length colors = List.length (cluster_centers_ fitted)
    /\ hex info = Some (map hex_of_rgb colors)
    /\ percentages_ info
       = Some (map (share (List.length (labels_ fitted))) (bincount (labels_ fitted)))
    /\ List.length hexs = List.length (bincount (labels_ fitted)).
Proof.
  unfold extract_colors. intros Hrun Hrgb.
  destruct (Image_open X image_path) as [img | e]; simpl in Hrun;
    [ | injection Hrun as _ <-; discriminate Hrgb].
  destruct (sampled_pixels img) as [pixels | e]; simpl in Hrun;
    [ | injection Hrun as _ <-; discriminate Hrgb].
  destruct (KMeans_fit X n_colors pixels) as [fitted | e] eqn:Hfit; simpl in Hrun;
    [ | injection Hrun as _ <-; discriminate Hrgb].
  match type of Hrun with
  | catch (bind ?m _) _ = _ => destruct m as [sorted | e] eqn:Hsorted
  end; simpl in Hrun; injection Hrun as <- <-; [ | discriminate Hrgb].
  simpl in Hrgb. injection Hrgb as <-.
  exists pixels, fitted. split; [exact Hfit | ].
  split; [apply length_map | ]. split; [reflexivity | ]. split; [reflexivity | ].
  apply mapM_length in Hsorted. rewrite Hsorted, length_rev.
  rewrite (Permutation_length (argsort_perm _)), length_seq, length_map.
  reflexivity.
Qed.

(** A clustering that fills [k] clusters has one bin per cluster. *)
Lemma filled_bins (labels : list nat) (k : nat) :
  (forall l, In l labels -> (l < k)%nat) ->
  (forall j, (j < k)%nat -> In j labels) ->
  List.length (bincount labels) = k.
Proof.
  intros Hbound Hfull. destruct k as [ | k].
  - destruct labels as [ | l rest]; [reflexivity | ].
    exfalso. specialize (Hbound l (or_introl eq_refl)). lia.
  - assert (Hlast : In k labels) by (apply Hfull; lia).
    unfold bincount. destruct labels as [ | l rest] eqn:Hl; [destruct Hlast | ].
    rewrite length_map, length_seq. f_equal.
    apply max_label; [exact Hbound | exact Hlast].
Qed.

(** A k-means result fills its clusters. *)
Lemma is_kmeans_fills (k : nat) (pixels : list rgb) (fitted : kmeans) :
  is_kmeans k pixels fitted = true ->
  List.length (cluster_centers_ fitted) = k
  /\ (forall l, In l (labels_ fitted) -> (l < k)%nat)
  /\ (forall j, (j < k)%nat -> In j (labels_ fitted)).
Proof.
  unfold is_kmeans. intros H.
  apply andb_prop in H. destruct H as [H Hclusters].
  apply andb_prop in H. destruct H as [H Hnearest].
  apply andb_prop in H. destruct H as [Hcenters Hlabels].
  apply Nat.eqb_eq in Hcenters. apply Nat.eqb_eq in Hlabels.
  split; [exact Hcenters | ]. split.
  - intros l Hl.
    destruct (In_combine_snd pixels (labels_ fitted) l Hlabels Hl) as [p Hp].
    rewrite forallb_forall in Hnearest. specialize (Hnearest _ Hp).
    unfold nearest in Hnearest. simpl in Hnearest.
    destruct (nth_error (cluster_centers_ fitted) l) eqn:Hnth; [ | discriminate].
    rewrite <- Hcenters. apply nth_error_Some. rewrite Hnth. discriminate.
  - intros j Hj. rewrite forallb_forall in Hclusters.
    assert (Hin : In j (seq 0 k)) by (apply in_seq; lia).
    specialize (Hclusters _ Hin). apply andb_prop in Hclusters.
    destruct Hclusters as [Hmembers _]. unfold members in Hmembers.
    destruct (filter (fun pl => (snd pl =? j)%nat) (combine pixels (labels_ fitted)))
      as [ | [p l] rest] eqn:Hfilter; [discriminate Hmembers | ].
    assert (Hpl : In (p, l) (filter (fun pl => (snd pl =? j)%nat)
                               (combine pixels (labels_ fitted))))
      by (rewrite Hfilter; left; reflexivity).
    apply filter_In in Hpl. destruct Hpl as [Hpl Heq]. simpl in Heq.
    apply Nat.eqb_eq in Heq. subst l. apply in_combine_r in Hpl. exact Hpl.
Qed.

(** When the clustering fills the configured number of clusters (it returns
    that many centers, every label is below that number and every cluster
    holds a pixel), a successful extraction returns that many hex colors,
    and as many RGB values and percentages.  The centers need not be the
    means of their clusters for this. *)
Theorem palette_has_n_colors (X : Ext) (n_colors : nat) (image_path : string)
    (hexs all_hex : list string) (colors : list rgb) (ps : list Q) :
  fills_clusters X n_colors ->
  extract_colors X n_colors image_path
  = (hexs, {| hex := Some all_hex; rgb_ := Some colors; percentages_ := Some ps |}) ->
  List.length hexs = n_colors
  /\ List.length all_hex = n_colors
  /\ List.length colors = n_colors
  /\ List.length ps = n_colors.
Proof.
  intros Hk Hrun.
  destruct (extract_colors_fitted _ _ _ Hrun eq_refl)
    as [pixels [fitted [Hfit [Hcolors [Hhex [Hps Hhexs]]]]]].
  simpl in Hhex, Hps. injection Hhex as ->. injection Hps as ->.
  destruct (Hk _ _ Hfit) as [Hcenters [Hbound Hfull]].
  pose proof (filled_bins _ Hbound Hfull) as Hbins.
  rewrite !length_map. repeat split; congruence.
Qed.

Lemma red_blue_returns_kmeans : returns_kmeans Sample.red_blue 2.
Proof.
  intros pixels fitted.
  change (KMeans_fit Sample.red_blue 2 pixels)
    with (Sample.fit_returning Sample.red_blue_fit 2 pixels).
  unfold Sample.fit_returning.
  destruct (is_kmeans 2 pixels Sample.red_blue_fit) eqn:Hk; [ | discriminate].
  intros H. injection H as <-. exact Hk.
Qed.

Lemma red_blue_fills_clusters : fills_clusters Sample.red_blue 2.
Proof.
  intros pixels fitted Hfit.
  apply (is_kmeans_fills _ _ _ (@red_blue_returns_kmeans pixels fitted Hfit)).
Qed.

Lemma palette_has_n_colors_witness :
  List.length (fst (extract_colors Sample.red_blue 2 "red_blue.png")) = 2%nat
  /\ List.length ["#ff0000"; "#0000ff"] = 2%nat
  /\ List.length [(255, 0, 0); (0, 0, 255)]%Z = 2%nat
  /\ List.length [900000 # 22500; 1350000 # 22500]%Q = 2%nat.
Proof.
  apply (@palette_has_n_colors Sample.red_blue 2 "red_blue.png").
  - exact red_blue_fills_clusters.
  - vm_compute. reflexivity.
Defined.

End PaletteEdges.

(* ------------------------------------------------------------------ *)
(** ** The pipeline and the numbering of the clusters *)

(** *** Counting the pixels of renumbered clusters *)

Section Renumbering.

Import ColorExtractor.
Import Spec.
Local Open Scope string_scope.
Local Open Scope Q_scope.











End Renumbering.

(** *** Lists sorted by a strict order *)

Section SortedOnce.

Import ColorExtractor.
Import Spec.
Local Open Scope string_scope.
Local Open Scope Q_scope.






End SortedOnce.

(** *** The extraction on two numberings of the same clusters *)

Section ClusterNumbering.

Import ColorExtractor.
Import Spec.
Local Open Scope string_scope.
Local Open Scope Q_scope.












End ClusterNumbering.

(** *** Two runs of the pipeline *)

Section SeededRuns.

Import ImageAnalyzer.
Import Spec.
Local Open Scope string_scope.





Section Seeds.

Variable Seed : Type.
Variable X : Ext.
Variable fit : Seed -> nat -> list ColorExtractor.rgb -> result ColorExtractor.kmeans.
Variables output_dir image_path : string.
Variable generate_visualizations : bool.




End Seeds.






End SeededRuns.

(* ------------------------------------------------------------------ *)
(** ** ModelGenerator: bounds and names *)

Section ModelBounds.

Import ModelGenerator.
Import Spec.
Local Open Scope string_scope.
Local Open Scope Q_scope.

Lemma py_min_2_bounds (x : Q) : 1 <= x -> 1 <= py_min 2.0 x /\ py_min 2.0 x <= 2.
Proof.
  intros Hx. unfold py_min.
  destruct (Qltb_reflect x 2.0) as [Hlt | Hge].
  - split; [exact Hx | ]. apply Qlt_le_weak.
    apply Qlt_le_trans with 2.0; [exact Hlt | discriminate].
  - split; discriminate.
Qed.

Lemma one_le_inverse (r : Q) : 0 < r -> ~ 1.0 < r -> 1 <= 1.0 / r.
Proof.
  intros Hpos Hle. apply Qnot_lt_le in Hle.
  apply Qle_shift_div_l; [exact Hpos | ].
  rewrite Qmult_1_l. exact Hle.
Qed.

(** Whatever the shape analysis holds (no record, a record without aspect
    ratio, an aspect ratio that is zero or negative), the dimensions stay in
    fixed bounds: width and height between 1 and 2, one of them equal to 1,
    and the depth between 0.5 and 2. *)
Theorem generate_dimensions_bounds (sa : ShapeDetector.shape_analysis) :
  (1 <= width (_generate_dimensions sa) /\ width (_generate_dimensions sa) <= 2)
  /\ (1 <= height (_generate_dimensions sa) /\ height (_generate_dimensions sa) <= 2)
  /\ (0.5 <= depth (_generate_dimensions sa) /\ depth (_generate_dimensions sa) <= 2)
  /\ (width (_generate_dimensions sa) == 1 \/ height (_generate_dimensions sa) == 1).
Proof.
  unfold _generate_dimensions.
  destruct (get (ShapeDetector.shape_details sa) []) as [ | first others].
  { simpl. repeat split; try discriminate. left; reflexivity. }
  set (largest := max_from _ _ first others).
  set (r := get (ShapeDetector.aspect_ratio largest) 1.0).
  assert (Hwh :
    let w := if (r >? 1.0)%py then py_min 2.0 r else 1.0 in
    let h := if (r >? 1.0)%py
             then 1.0
             else py_min 2.0 (if (r >? 0)%py then 1.0 / r else 1.0) in
    (1 <= w /\ w <= 2) /\ (1 <= h /\ h <= 2) /\ (w == 1 \/ h == 1)).
  { destruct (Qltb_reflect 1.0 r) as [Hr1 | Hr1]; cbv zeta.
    - split; [ | split; [split; discriminate | right; reflexivity]].
      apply py_min_2_bounds. apply Qlt_le_weak.
      apply Qle_lt_trans with 1.0; [discriminate | exact Hr1].
    - split; [split; discriminate | ]. split; [ | left; reflexivity].
      apply py_min_2_bounds.
      destruct (Qltb_reflect 0 r) as [Hpos | _]; [ | discriminate].
      apply one_le_inverse; assumption. }
  cbv zeta in Hwh. destruct Hwh as [[Hw1 Hw2] [[Hh1 Hh2] Hone]].
  destruct (str_in (get (ShapeDetector.type largest) "") ["Circle"; "Square"]);
    destruct (Qltb 1.0 r); simpl in *;
    (split; [split; assumption | ]); (split; [split; assumption | ]);
    (split; [ | exact Hone]); split; try assumption;
    try (apply Qle_trans with 1; [discriminate | assumption]).
  all: try (apply Qle_trans with (1 * 0.5); [discriminate | ];
            apply Qmult_le_compat_r; [assumption | discriminate]).
  all: apply Qle_trans with (2 * 0.5); [ | discriminate];
       apply Qmult_le_compat_r; [assumption | discriminate].
Qed.

(** The loop of [_find_closest_color_name] keeps a nearest entry: after any
    number of entries, the name held is that of an entry seen whose distance
    is the least of the entries seen. *)
Lemma closest_loop_nearest (rgb : Z * Z * Z) (items seen : list (string * string))
    (min_distance : option Z) (closest_name name : string) :
  closest_loop rgb items min_distance closest_name = OK name ->
  match min_distance with
  | None => seen = []
  | Some m =>
      exists hex_code rgb0,
        In (hex_code, closest_name) seen
        /\ parse_rgb (lstrip_hash hex_code) = OK rgb0
        /\ color_distance2 rgb rgb0 = m
        /\ forall h n r', In (h, n) seen -> parse_rgb (lstrip_hash h) = OK r' ->
                          (m <= color_distance2 rgb r')%Z
  end ->
  items <> [] \/ seen <> [] ->
  exists hex_code rgb0,
    In (hex_code, name) (seen ++ items)
    /\ parse_rgb (lstrip_hash hex_code) = OK rgb0
    /\ forall h n r', In (h, n) (seen ++ items) ->
                      parse_rgb (lstrip_hash h) = OK r' ->
                      (color_distance2 rgb rgb0 <= color_distance2 rgb r')%Z.
Proof.
  revert seen min_distance closest_name.
  induction items as [ | [hex_code entry_name] items IH];
    intros seen min_distance closest_name Hrun Hinv Hne.
  - simpl in Hrun. injection Hrun as <-. rewrite app_nil_r.
    destruct min_distance as [m | ].
    + destruct Hinv as [h0 [rgb0 [Hin [Hparse [Hd Hmin]]]]].
      exists h0, rgb0. split; [exact Hin | ]. split; [exact Hparse | ].
      rewrite Hd. exact Hmin.
    + subst seen. destruct Hne as [Hne | Hne]; congruence.
  - simpl in Hrun. apply bind_OK_inv in Hrun.
    destruct Hrun as [rgb2 [Hparse2 Hrun]].
    destruct rgb as [[r g] b] eqn:Hrgb. destruct rgb2 as [[r2 g2] b2] eqn:Hrgb2.
    set (d := ((r - r2) * (r - r2) + (g - g2) * (g - g2) + (b - b2) * (b - b2))%Z)
      in Hrun.
    assert (Hd : color_distance2 (r, g, b) (r2, g2, b2) = d) by reflexivity.
    replace (seen ++ (hex_code, entry_name) :: items)%list
      with ((seen ++ [(hex_code, entry_name)]) ++ items)%list
      by (rewrite <- app_assoc; reflexivity).
    assert (Hnew : exists hex_code0 rgb0,
               In (hex_code0, entry_name) (seen ++ [(hex_code, entry_name)])
               /\ parse_rgb (lstrip_hash hex_code0) = OK rgb0
               /\ color_distance2 (r, g, b) rgb0 = d).
    { exists hex_code, (r2, g2, b2). split; [ | split; assumption].
      apply in_or_app. right. left. reflexivity. }
    assert (Hne' : items <> [] \/ (seen ++ [(hex_code, entry_name)])%list <> [])
      by (right; destruct seen; discriminate).
    destruct min_distance as [m | ].
    + destruct Hinv as [h0 [rgb0 [Hin [Hparse [Hm Hmin]]]]].
      destruct (Z.ltb_spec d m) as [Hlt | Hge].
      * apply (IH _ _ _ Hrun); [ | exact Hne'].
        destruct Hnew as [h1 [rgb1 [Hin1 [Hparse1 Hd1]]]].
        exists h1, rgb1. split; [exact Hin1 | ]. split; [exact Hparse1 | ].
        split; [exact Hd1 | ].
        intros h n r' Hin' Hp'. apply in_app_or in Hin'.
        destruct Hin' as [Hin' | [Heq | []]].
        -- specialize (Hmin _ _ _ Hin' Hp'). lia.
        -- injection Heq as <- <-. rewrite Hparse2 in Hp'. injection Hp' as <-.
           rewrite Hd. lia.
      * apply (IH _ _ _ Hrun); [ | exact Hne'].
        exists h0, rgb0. split; [apply in_or_app; left; exact Hin | ].
        split; [exact Hparse | ]. split; [exact Hm | ].
        intros h n r' Hin' Hp'. apply in_app_or in Hin'.
        destruct Hin' as [Hin' | [Heq | []]].
        -- exact (Hmin _ _ _ Hin' Hp').
        -- injection Heq as <- <-. rewrite Hparse2 in Hp'. injection Hp' as <-.
           rewrite Hd. lia.
    + subst seen. apply (IH _ _ _ Hrun); [ | exact Hne'].
      destruct Hnew as [h1 [rgb1 [Hin1 [Hparse1 Hd1]]]].
      exists h1, rgb1. split; [exact Hin1 | ]. split; [exact Hparse1 | ].
      split; [exact Hd1 | ].
      intros h n r' [Heq | []] Hp'.
      injection Heq as <- <-. rewrite Hparse2 in Hp'. injection Hp' as <-.
      rewrite Hd. lia.
Qed.

Lemma lookup_In (key : string) (map : list (string * string)) (v : string) :
  lookup key map = Some v -> In (key, v) map.
Proof.
  induction map as [ | [k w] map IH]; simpl; [discriminate | ].
  destruct (String.eqb_spec key k) as [-> | _].
  - intros H. injection H as <-. left; reflexivity.
  - intros H. right. apply IH; exact H.
Qed.

(** The name given to a color is always one of the nine of the table, never
    [Custom]; when the color is not a key of the table, it is the name of an
    entry at the least distance from the color. *)
Theorem closest_color_name_is_nearest (hex_color name : string) :
  _find_closest_color_name hex_color color_names = OK name ->
  In name (map snd color_names)
  /\ (lookup hex_color color_names = None ->
      exists rgb hex_code rgb0,
        parse_rgb (lstrip_hash hex_color) = OK rgb
        /\ In (hex_code, name) color_names
        /\ parse_rgb (lstrip_hash hex_code) = OK rgb0
        /\ forall h n r', In (h, n) color_names ->
                          parse_rgb (lstrip_hash h) = OK r' ->
                          (color_distance2 rgb rgb0 <= color_distance2 rgb r')%Z).
Proof.
  unfold _find_closest_color_name. intros Hrun.
  destruct (lookup hex_color color_names) as [found | ] eqn:Hlookup.
  - injection Hrun as <-. split; [ | discriminate].
    apply lookup_In in Hlookup. apply in_map_iff. exists (hex_color, found).
    split; [reflexivity | exact Hlookup].
  - apply bind_OK_inv in Hrun. destruct Hrun as [rgb [Hparse Hrun]].
    cbv beta in Hrun.
    assert (Hne : color_names <> [] \/ @nil (string * string) <> [])
      by (left; unfold color_names; discriminate).
    destruct (@closest_loop_nearest rgb color_names [] None "Custom" name
                Hrun eq_refl Hne)
      as [hex_code [rgb0 [Hin [Hparse0 Hmin]]]].
    change ([] ++ color_names)%list with color_names in Hin, Hmin. split.
    + apply in_map_iff. exists (hex_code, name). split; [reflexivity | exact Hin].
    + intros _. exists rgb, hex_code, rgb0. repeat split; assumption.
Qed.

Lemma closest_color_name_is_nearest_witness :
  In "Gray" (map snd color_names)
  /\ (lookup "#3f51b5" color_names = None ->
      exists rgb hex_code rgb0,
        parse_rgb (lstrip_hash "#3f51b5") = OK rgb
        /\ In (hex_code, "Gray") color_names
        /\ parse_rgb (lstrip_hash hex_code) = OK rgb0
        /\ forall h n r', In (h, n) color_names ->
                          parse_rgb (lstrip_hash h) = OK r' ->
                          (color_distance2 rgb rgb0 <= color_distance2 rgb r')%Z).
Proof.
  apply (@closest_color_name_is_nearest "#3f51b5" "Gray"). reflexivity.
Defined.

(** There are between one and three suggested materials, and for the four
    texture types that have materials of their own the pattern type changes
    nothing: the bonus material of a Geometric or Organic pattern is cut by
    the limit of three. *)
Theorem suggest_materials_bounds (ta : TextureAnalyzer.texture_analysis) :
  (1 <= List.length (_suggest_materials ta) <= 3)%nat
  /\ (str_in (get (TextureAnalyzer.texture_type ta) "Unknown")
        ["Smooth"; "Matte"; "Rough"; "Textured"] = true ->
      ~ In "3D Printed Polymer" (_suggest_materials ta)
      /\ ~ In "Natural Wood" (_suggest_materials ta)).
Proof.
  unfold _suggest_materials, str_in.
  set (t := get (TextureAnalyzer.texture_type ta) "Unknown").
  set (p := get (TextureAnalyzer.pattern_type ta) "Unknown").
  simpl existsb.
  destruct (String.eqb t "Smooth"); [ | destruct (String.eqb t "Matte");
    [ | destruct (String.eqb t "Rough"); [ | destruct (String.eqb t "Textured")]]];
    destruct (String.eqb p "Geometric"); try destruct (String.eqb p "Organic");
    simpl; (split; [lia | ]); intros H; try discriminate H;
    split; intros Hin; repeat (destruct Hin as [Hin | Hin]; try discriminate Hin);
    exact Hin.
Qed.

(** There are at most three details, of three different types, and every
    intensity lies between 0.5 and 0.8. *)
Theorem generate_details_bounds (sa : ShapeDetector.shape_analysis)
    (ta : TextureAnalyzer.texture_analysis) :
  (List.length (_generate_details sa ta) <= 3)%nat
  /\ NoDup (map detail_type (_generate_details sa ta))
  /\ Forall (fun d => 0.5 <= intensity d /\ intensity d <= 0.8)
       (_generate_details sa ta).
Proof.
  unfold _generate_details.
  destruct (String.eqb (get (ShapeDetector.shape_complexity sa) "Low") "High");
    [ | destruct (String.eqb (get (ShapeDetector.shape_complexity sa) "Low") "Medium")];
    (destruct (String.eqb (get (TextureAnalyzer.texture_type ta) "Unknown") "Rough");
     [ | destruct (String.eqb (get (TextureAnalyzer.texture_type ta) "Unknown")
                     "Textured")]);
    (destruct (String.eqb (get (TextureAnalyzer.pattern_type ta) "Unknown")
                 "Geometric");
     [ | destruct (String.eqb (get (TextureAnalyzer.pattern_type ta) "Unknown")
                     "Organic")]);
    simpl; (split; [lia | ]);
    (split;
     [ repeat constructor; simpl; intros H;
       repeat (destruct H as [H | H]; try discriminate H); exact H
     | repeat constructor; discriminate ]).
Qed.

End ModelBounds.

(* ------------------------------------------------------------------ *)
(** ** TextureAnalyzer: the metrics of a loaded image *)

Section TextureMetrics.

Import TextureAnalyzer.
Local Open Scope string_scope.
Local Open Scope Q_scope.

Lemma uniformity_contrast (s : Q) :
  0 <= s ->
  (1.0 / (1.0 + s)) * (1 + 255 * (s / 255.0)) == 1
  /\ 0 < 1.0 / (1.0 + s) /\ 1.0 / (1.0 + s) <= 1 /\ 0 <= s / 255.0.
Proof.
  intros Hs. assert (Hp : 0 < 1.0 + s) by lra. repeat split.
  - field. lra.
  - apply Qlt_shift_div_l; [exact Hp | lra].
  - apply Qle_shift_div_r; [exact Hp | lra].
  - apply Qle_shift_div_l; [reflexivity | lra].
Qed.

Lemma uniform_means_flat (s : Q) :
  0 <= s -> 0.5 < 1.0 / (1.0 + s) -> s / 255.0 < 1 # 255.
Proof.
  intros Hs H.
  assert (Hp : 0 < 1.0 + s) by lra.
  apply (Qmult_lt_compat_r _ _ (1.0 + s)) in H; [ | exact Hp].
  assert (E : 1.0 / (1.0 + s) * (1.0 + s) == 1) by (field; lra).
  rewrite E in H.
  apply Qlt_shift_div_r; [reflexivity | ]. lra.
Qed.

(** For an image that loads, with a standard deviation of the intensities
    that is not negative, uniformity and contrast are two readings of that
    one number: uniformity * (1 + 255 * contrast) = 1, uniformity lies in
    (0, 1] and contrast is not negative.  The texture type is Smooth only
    when the contrast is below 1/255, a standard deviation of less than one
    grey level. *)
Theorem texture_metrics_related (X : Ext) (image_path : string) (img : ndarray) :
  imread X image_path = Some img ->
  0 <= np_std_image X (resize X 256 256 (cvtColor X img)) ->
  exists u c,
    uniformity (analyze_texture X image_path) = Some u
    /\ contrast (analyze_texture X image_path) = Some c
    /\ u * (1 + 255 * c) == 1
    /\ 0 < u /\ u <= 1 /\ 0 <= c
    /\ (texture_type (analyze_texture X image_path) = Some "Smooth" -> c < 1 # 255).
Proof.
  intros Himg Hstd. unfold analyze_texture. rewrite Himg. simpl.
  set (s := np_std_image X (resize X 256 256 (cvtColor X img))) in *.
  destruct (uniformity_contrast Hstd) as [Hrel [Hpos [Hone Hc]]].
  eexists. eexists. split; [reflexivity | ]. split; [reflexivity | ].
  split; [exact Hrel | ]. split; [exact Hpos | ]. split; [exact Hone | ].
  split; [exact Hc | ].
  unfold _determine_texture_type.
  destruct (Qltb _ 10);
    [ destruct (Qltb_reflect 0.5 (1.0 / (1.0 + s))) as [Hu | Hu]
    | destruct (Qltb _ 30); [destruct (Qltb 0.5 _) | destruct (Qltb 0.3 _)] ];
    intros H; try discriminate H.
  apply uniform_means_flat; assumption.
Qed.

Lemma texture_metrics_related_witness :
  exists u c,
    uniformity (analyze_texture (Sample.texture_ext (Some Sample.blank)) "flat.png")
    = Some u
    /\ contrast (analyze_texture (Sample.texture_ext (Some Sample.blank)) "flat.png")
       = Some c
    /\ u * (1 + 255 * c) == 1
    /\ 0 < u /\ u <= 1 /\ 0 <= c
    /\ (texture_type (analyze_texture (Sample.texture_ext (Some Sample.blank))
                        "flat.png") = Some "Smooth" -> c < 1 # 255).
Proof.
  apply (@texture_metrics_related (Sample.texture_ext (Some Sample.blank))
           "flat.png" Sample.blank).
  - reflexivity.
  - discriminate.
Defined.

End TextureMetrics.

(* ------------------------------------------------------------------ *)
(** ** ShapeDetector: the shapes that the contour loop keeps *)

Section ShapeInvariants.

Import ShapeDetector.
Import Spec.
Local Open Scope string_scope.
Local Open Scope Q_scope.

Lemma fold_min_le_max (rest : list Q) (a b : Q) :
  a <= b -> fold_left Qmin rest a <= fold_left Qmax rest b.
Proof.
  revert a b. induction rest as [ | q rest IH]; intros a b Hab; simpl.
  - exact Hab.
  - apply IH. apply Qle_trans with q; [apply Q.le_min_r | apply Q.le_max_r].
Qed.

Lemma bounding_box (pts : list point) (lo hi : point) :
  np_min_axis0 pts = OK lo -> np_max_axis0 pts = OK hi ->
  fst lo <= fst hi /\ snd lo <= snd hi.
Proof.
  destruct pts as [ | p rest]; [discriminate | ].
  unfold np_min_axis0, np_max_axis0. rewrite !fold_left_pairwise.
  intros Hlo Hhi. injection Hlo as <-. injection Hhi as <-. simpl.
  split; apply fold_min_le_max; apply Qle_refl.
Qed.

Lemma bounding_box_raises (pts : list point) :
  (exists e, np_min_axis0 pts = Raise e) <-> pts = [].
Proof.
  destruct pts as [ | p rest]; simpl; split.
  - reflexivity.
  - intros _. eexists. reflexivity.
  - intros [e H]. discriminate H.
  - discriminate.
Qed.

Lemma ratio_nonneg (width height : Q) :
  0 <= width -> 0 <= (if (height >? 0)%py then width / height else 0).
Proof.
  intros Hw. destruct (Qltb_reflect 0 height) as [H | H]; [ | apply Qle_refl].
  apply Qle_shift_div_l; [exact H | lra].
Qed.

Lemma shape_rule_types (c : Q) (n : nat) (r : Q) (t : string) :
  shape_rule c n r t -> In t shape_types.
Proof. intros H; destruct H; simpl; tauto. Qed.

(** The loop of [_analyze_contours]: the entries it appends are retained
    shapes, at most one per contour, and the covered area grows by their
    areas. *)
Lemma analyze_loop_appends (X : Ext) (contours : list (list point)) :
  forall (shapes0 : list shape) (covered0 : Q) (acc : list shape * Q),
    analyze_loop X contours shapes0 covered0 = OK acc ->
    exists added,
      fst acc = (shapes0 ++ added)%list
      /\ Forall retained added
      /\ (List.length added <= List.length contours)%nat
      /\ snd acc == covered0 + covered_area added.
Proof.
  induction contours as [ | contour rest IH]; intros shapes0 covered0 acc H.
  - simpl in H. injection H as <-. exists []. simpl.
    rewrite app_nil_r. repeat split; [constructor | lia | unfold covered_area; simpl; lra].
  - simpl in H.
    destruct (List.length contour <? 5)%nat.
    { destruct (IH _ _ _ H) as [added [H1 [H2 [H3 H4]]]].
      exists added. repeat split; try assumption. simpl; lia. }
    destruct (Qltb_reflect (contourArea X (approximate_polygon X contour)) 100)
      as [Hsmall | Hbig].
    { destruct (IH _ _ _ H) as [added [H1 [H2 [H3 H4]]]].
      exists added. repeat split; try assumption. simpl; lia. }
    apply bind_OK_inv in H. destruct H as [t [Ht H]].
    apply bind_OK_inv in H. destruct H as [lo [Hlo H]].
    apply bind_OK_inv in H. destruct H as [hi [Hhi H]].
    cbv zeta in H.
    destruct (IH _ _ _ H) as [added [H1 [H2 [H3 H4]]]].
    eexists (_ :: added). split; [ | split; [ | split]].
    + rewrite H1. rewrite <- app_assoc. reflexivity.
    + constructor; [ | exact H2].
      destruct (identify_shape_sound (approximate_polygon X contour)
                  (if (arcLength X (approximate_polygon X contour) >? 0)%py
                   then 4 * np_pi * contourArea X (approximate_polygon X contour)
                        / (arcLength X (approximate_polygon X contour)
                           * arcLength X (approximate_polygon X contour))
                   else 0)) as [t' [Ht' Hrule]].
      rewrite Ht in Ht'. injection Ht' as <-.
      unfold retained. eexists _, t, _. simpl.
      split; [reflexivity | ]. split; [exact Hbig | ].
      split; [reflexivity | ]. split; [exact (shape_rule_types Hrule) | ].
      split; [reflexivity | ].
      apply ratio_nonneg. destruct (bounding_box _ Hlo Hhi) as [Hx _]. lra.
    + simpl; lia.
    + rewrite H4. unfold covered_area. simpl. unfold area_of at 2. simpl. lra.
Qed.

Lemma analyze_loop_raises (X : Ext) (contours : list (list point)) :
  forall (shapes0 : list shape) (covered0 : Q),
    (exists e, analyze_loop X contours shapes0 covered0 = Raise e)
    <-> Exists (degenerate X) contours.
Proof.
  induction contours as [ | contour rest IH]; intros shapes0 covered0.
  - simpl. split; [intros [e H]; discriminate H | intros H; inversion H].
  - simpl. rewrite Exists_cons. unfold degenerate at 1.
    destruct (Nat.ltb_spec (List.length contour) 5) as [Hshort | Hlong].
    { rewrite IH. split; [tauto | intros [[H _] | H]; [lia | exact H]]. }
    destruct (Qltb_reflect (contourArea X (approximate_polygon X contour)) 100)
      as [Hsmall | Hbig].
    { rewrite IH. split; [tauto | intros [[_ [H _]] | H]; [contradiction | exact H]]. }
    destruct (identify_shape_sound (approximate_polygon X contour)
                (if (arcLength X (approximate_polygon X contour) >? 0)%py
                 then 4 * np_pi * contourArea X (approximate_polygon X contour)
                      / (arcLength X (approximate_polygon X contour)
                         * arcLength X (approximate_polygon X contour))
                 else 0)) as [t [Ht _]].
    rewrite Ht. cbv beta iota delta [bind].
    destruct (approximate_polygon X contour) as [ | p pts] eqn:Happrox.
    + simpl. split; [intros _; left; repeat split; [lia | exact Hbig] | ].
      intros _. eexists. reflexivity.
    + unfold np_min_axis0, np_max_axis0. cbv beta iota zeta.
      rewrite IH. split; [tauto | intros [[_ [_ H]] | H]; [discriminate H | exact H]].
Qed.


Lemma Qltb_compat (x x' y : Q) : x == x' -> Qltb x y = Qltb x' y.
Proof.
  intros E. destruct (Qltb_reflect x y) as [H | H];
    destruct (Qltb_reflect x' y) as [H' | H']; try reflexivity; exfalso.
  - apply H'. rewrite <- E. exact H.
  - apply H. rewrite E. exact H'.
Qed.

Lemma pixel_count_shape (image_shape : ndarray) (n : nat) :
  pixel_count image_shape = Some n
  <-> exists rows cols,
        shape_at image_shape 0 = OK rows /\ shape_at image_shape 1 = OK cols
        /\ n = (rows * cols)%nat.
Proof.
  unfold pixel_count, shape_at.
  destruct image_shape as [[ | rows [ | cols rest]] elements]; simpl; split;
    try discriminate.
  - intros [r [c [H _]]]. discriminate H.
  - intros [r [c [_ [H _]]]]. discriminate H.
  - intros H. injection H as <-. exists rows, cols. repeat split.
  - intros [r [c [Hr [Hc ->]]]]. injection Hr as <-. injection Hc as <-. reflexivity.
Qed.

(** When [_analyze_contours] returns, every shape it lists is a retained
    one: its area is at least 100, its type is one of the eight and its
    aspect ratio is not negative.  There is at most one shape per contour,
    the image has pixels, and the distribution is decided by the share of
    the pixels that the areas of the listed shapes add up to: Sparse below
    0.2, Dense from 0.5 on. *)
Theorem analyze_contours_retained (X : Ext) (contours : list (list point))
    (image_shape : ndarray) (info : shape_info) :
  _analyze_contours X contours image_shape = OK info ->
  Forall retained (shapes info)
  /\ (List.length (shapes info) <= List.length contours)%nat
  /\ exists pixels,
       pixel_count image_shape = Some pixels /\ (0 < pixels)%nat
       /\ (distribution info = "Sparse"
           <-> covered_area (shapes info) / inject_Z (Z.of_nat pixels) < 0.2)
       /\ (distribution info = "Dense"
           <-> ~ covered_area (shapes info) / inject_Z (Z.of_nat pixels) < 0.5).
Proof.
  unfold _analyze_contours. intros H.
  apply bind_OK_inv in H. destruct H as [rows [Hrows H]].
  apply bind_OK_inv in H. destruct H as [cols [Hcols H]].
  apply bind_OK_inv in H. destruct H as [acc [Hloop H]].
  cbv zeta in H.
  apply bind_OK_inv in H. destruct H as [ratio [Hratio H]].
  destruct (Nat.eqb_spec (rows * cols) 0) as [Hzero | Hpos]; [discriminate Hratio | ].
  injection Hratio as <-. injection H as <-. simpl.
  destruct (analyze_loop_appends _ _ _ _ Hloop) as [added [Hacc [Hret [Hlen Hcov]]]].
  simpl in Hacc. rewrite Hacc.
  split; [exact Hret | ]. split; [exact Hlen | ].
  exists (rows * cols)%nat.
  split; [apply pixel_count_shape; exists rows, cols; repeat split; assumption | ].
  split; [lia | ].
  assert (E : snd acc / inject_Z (Z.of_nat (rows * cols))
              == covered_area added / inject_Z (Z.of_nat (rows * cols))).
  { rewrite Hcov. apply Qdiv_comp; [lra | reflexivity]. }
  rewrite (Qltb_compat 0.2 E), (Qltb_compat 0.5 E).
  set (r := covered_area added / inject_Z (Z.of_nat (rows * cols))).
  destruct (Qltb_reflect r 0.2) as [H2 | H2];
    destruct (Qltb_reflect r 0.5) as [H5 | H5]; split; split;
    intros H; try discriminate H; try reflexivity; try assumption;
    try contradiction; exfalso; first [apply H5; lra | lra].
Qed.

Lemma analyze_contours_retained_witness :
  exists info,
    _analyze_contours Sample.two_squares
      [Sample.square_contour; Sample.square_contour] Sample.blank = OK info
    /\ Forall retained (shapes info)
    /\ (List.length (shapes info) <= 2)%nat
    /\ exists pixels,
         pixel_count Sample.blank = Some pixels /\ (0 < pixels)%nat
         /\ (distribution info = "Sparse"
             <-> covered_area (shapes info) / inject_Z (Z.of_nat pixels) < 0.2)
         /\ (distribution info = "Dense"
             <-> ~ covered_area (shapes info) / inject_Z (Z.of_nat pixels) < 0.5).
Proof.
  eexists. split; [reflexivity | ].
  apply (@analyze_contours_retained Sample.two_squares
           [Sample.square_contour; Sample.square_contour] Sample.blank).
  reflexivity.
Defined.

(** [_analyze_contours] raises in three cases only: the image shape has
    fewer than two axes, the image has no pixel, or a contour that the loop
    does not skip has an approximation without points. *)
Lemma analyze_contours_raises (X : Ext) (contours : list (list point))
    (image_shape : ndarray) :
  (exists e, _analyze_contours X contours image_shape = Raise e)
  <-> pixel_count image_shape = None
      \/ pixel_count image_shape = Some 0%nat
      \/ Exists (degenerate X) contours.
Proof.
  unfold _analyze_contours, pixel_count, shape_at.
  destruct image_shape as [[ | rows [ | cols rest]] elements]; simpl.
  - split; [tauto | intros _; eexists; reflexivity].
  - split; [tauto | intros _; eexists; reflexivity].
  - rewrite <- (analyze_loop_raises X contours [] 0).
    destruct (analyze_loop X contours [] 0) as [acc | e]; simpl.
    + destruct (Nat.eqb_spec (rows * cols) 0) as [Hzero | Hpos]; simpl.
      * split; [intros _; right; left; rewrite Hzero; reflexivity | ].
        intros _. eexists. reflexivity.
      * split; [intros [e H]; discriminate H | ].
        intros [H | [H | [e H]]]; [discriminate H | | discriminate H].
        injection H as H. contradiction.
    + split; [intros _; right; right; eexists; reflexivity | ].
      intros _. eexists. reflexivity.
Qed.

End ShapeInvariants.

(* ------------------------------------------------------------------ *)
(** ** ShapeDetector: counting and ranking the shape types *)

Section DominantCounts.

Import ShapeDetector.
Import Spec.
Local Open Scope string_scope.

Lemma count_in_count_type (k t : string) (counts : list (string * nat)) :
  count_in k (count_type t counts)
  = (count_in k counts + if String.eqb k t then 1 else 0)%nat.
Proof.
  induction counts as [ | [k0 n0] counts IH]; simpl.
  - destruct (String.eqb k t); reflexivity.
  - destruct (String.eqb_spec t k0) as [-> | Hne]; simpl.
    + destruct (String.eqb k k0); lia.
    + destruct (String.eqb_spec k k0) as [-> | Hk].
      * destruct (String.eqb_spec k0 t) as [-> | _]; [congruence | lia].
      * exact IH.
Qed.

Lemma keys_count_type (k t : string) (counts : list (string * nat)) :
  In k (map fst (count_type t counts)) <-> k = t \/ In k (map fst counts).
Proof.
  induction counts as [ | [k0 n0] counts IH]; simpl.
  - intuition congruence.
  - destruct (String.eqb_spec t k0) as [-> | Hne]; simpl.
    + intuition congruence.
    + rewrite IH. intuition congruence.
Qed.

Lemma NoDup_count_type (t : string) (counts : list (string * nat)) :
  NoDup (map fst counts) -> NoDup (map fst (count_type t counts)).
Proof.
  induction counts as [ | [k0 n0] counts IH]; simpl; intros H.
  - constructor; [intros [] | constructor].
  - inversion H as [ | ? ? Hnot Hrest]; subst.
    destruct (String.eqb_spec t k0) as [-> | Hne]; simpl.
    + constructor; assumption.
    + constructor; [ | apply IH; exact Hrest].
      rewrite keys_count_type. intros [Heq | Hin]; [congruence | contradiction].
Qed.

Lemma shape_counts_exact (types : list string) :
  forall counts : list (string * nat),
    NoDup (map fst counts) ->
    NoDup (map fst (fold_left (fun counts t => count_type t counts) types counts))
    /\ forall k,
         count_in k (fold_left (fun counts t => count_type t counts) types counts)
         = (count_in k counts + count_occ string_dec types k)%nat.
Proof.
  induction types as [ | t types IH]; intros counts Hnd; simpl.
  - split; [exact Hnd | intros k; lia].
  - destruct (IH (count_type t counts) (NoDup_count_type t counts Hnd)) as [H1 H2].
    split; [exact H1 | ]. intros k. rewrite H2, count_in_count_type.
    destruct (string_dec t k) as [-> | Hne].
    + rewrite String.eqb_refl. lia.
    + destruct (String.eqb_spec k t) as [-> | _]; [congruence | lia].
Qed.

Lemma count_in_In (k : string) (n : nat) (counts : list (string * nat)) :
  NoDup (map fst counts) -> In (k, n) counts -> count_in k counts = n.
Proof.
  induction counts as [ | [k0 n0] counts IH]; simpl; intros Hnd H; [destruct H | ].
  inversion Hnd as [ | ? ? Hnot Hrest]; subst.
  destruct H as [H | H].
  - injection H as -> ->. rewrite String.eqb_refl. reflexivity.
  - destruct (String.eqb_spec k k0) as [-> | _]; [ | apply IH; assumption].
    exfalso. apply Hnot. apply in_map_iff. exists (k0, n). split; [reflexivity | exact H].
Qed.

Lemma In_count_in (k : string) (counts : list (string * nat)) :
  (0 < count_in k counts)%nat -> In (k, count_in k counts) counts.
Proof.
  induction counts as [ | [k0 n0] counts IH]; simpl; [lia | ].
  destruct (String.eqb_spec k k0) as [-> | _]; intros H.
  - left; reflexivity.
  - right; apply IH; exact H.
Qed.

Lemma insert_desc_perm (x : string * nat) (l : list (string * nat)) :
  Permutation (insert_desc x l) (x :: l).
Proof.
  induction l as [ | y l IH]; simpl; [reflexivity | ].
  destruct (snd x <? snd y)%nat; [ | reflexivity].
  rewrite IH. apply perm_swap.
Qed.

Lemma sorted_desc_perm (l : list (string * nat)) : Permutation (sorted_desc l) l.
Proof.
  induction l as [ | x l IH]; simpl; [reflexivity | ].
  rewrite insert_desc_perm. constructor. exact IH.
Qed.

Lemma insert_desc_sorted (x : string * nat) (l : list (string * nat)) :
  StronglySorted (fun a b => (snd b <= snd a)%nat) l ->
  StronglySorted (fun a b => (snd b <= snd a)%nat) (insert_desc x l).
Proof.
  induction l as [ | y l IH]; simpl; intros H.
  - constructor; [constructor | constructor].
  - inversion H as [ | ? ? Hl Hy]; subst.
    destruct (Nat.ltb_spec (snd x) (snd y)) as [Hlt | Hge].
    + constructor; [apply IH; exact Hl | ].
      apply Forall_forall. intros z Hz.
      apply (Permutation_in _ (insert_desc_perm x l)) in Hz.
      destruct Hz as [<- | Hz]; [lia | ].
      rewrite Forall_forall in Hy. apply Hy. exact Hz.
    + constructor; [exact H | ].
      constructor; [exact Hge | ].
      rewrite Forall_forall in Hy |- *. intros z Hz. specialize (Hy z Hz). lia.
Qed.

Lemma sorted_desc_sorted (l : list (string * nat)) :
  StronglySorted (fun a b => (snd b <= snd a)%nat) (sorted_desc l).
Proof.
  induction l as [ | x l IH]; simpl; [constructor | ].
  apply insert_desc_sorted. exact IH.
Qed.

Lemma sorted_app {A : Type} (R : A -> A -> Prop) (l1 l2 : list A) :
  StronglySorted R (l1 ++ l2) ->
  forall a b, In a l1 -> In b l2 -> R a b.
Proof.
  induction l1 as [ | x l1 IH]; simpl; intros H a b Ha Hb; [destruct Ha | ].
  inversion H as [ | ? ? Hl Hx]; subst.
  destruct Ha as [<- | Ha].
  - rewrite Forall_forall in Hx. apply Hx. apply in_or_app. right. exact Hb.
  - apply (IH Hl a b Ha Hb).
Qed.

Lemma NoDup_keys_firstn (n : nat) (l : list (string * nat)) :
  NoDup (map fst l) -> NoDup (map fst (firstn n l)).
Proof.
  intros H. rewrite <- (firstn_skipn n l), map_app in H.
  apply NoDup_app_remove_r in H. exact H.
Qed.

Lemma NoDup_keys_filter (f : string * nat -> bool) (l : list (string * nat)) :
  NoDup (map fst l) -> NoDup (map fst (filter f l)).
Proof.
  induction l as [ | x l IH]; simpl; intros H; [constructor | ].
  inversion H as [ | ? ? Hnot Hrest]; subst.
  destruct (f x); simpl; [ | apply IH; exact Hrest].
  constructor; [ | apply IH; exact Hrest].
  intros Hin. apply Hnot. apply in_map_iff in Hin. destruct Hin as [y [Hy Hin]].
  apply filter_In in Hin. apply in_map_iff. exists y. tauto.
Qed.

(** The types that [_determine_dominant_shapes] lists first: among the three
    most frequent types, those that occur more than once. *)
Lemma top_types_NoDup (types : list string) :
  NoDup (map fst (filter (fun p => (1 <? snd p)%nat)
                    (firstn 3 (sorted_desc
                       (fold_left (fun counts t => count_type t counts) types []))))).
Proof.
  apply NoDup_keys_filter, NoDup_keys_firstn.
  apply (Permutation_NoDup
           (Permutation_map fst (Permutation_sym (sorted_desc_perm _)))).
  apply (shape_counts_exact types [] (NoDup_nil _)).
Qed.

Lemma top_types_length (types : list string) :
  (List.length (map fst (filter (fun p => (1 <? snd p)%nat)
                    (firstn 3 (sorted_desc
                       (fold_left (fun counts t => count_type t counts) types [])))))
   <= 3)%nat.
Proof.
  rewrite length_map.
  eapply Nat.le_trans; [apply filter_length_le | ].
  apply firstn_le_length.
Qed.

Lemma top_types_complete (types : list string) (k : string) :
  (1 < count_occ string_dec types k)%nat ->
  let top :=
    map fst (filter (fun p => (1 <? snd p)%nat)
               (firstn 3 (sorted_desc
                  (fold_left (fun counts t => count_type t counts) types [])))) in
  In k top
  \/ (List.length top = 3%nat
      /\ Forall (fun t => (count_occ string_dec types k
                           <= count_occ string_dec types t)%nat) top).
Proof.
  intros Hk.
  set (counts := fold_left (fun counts t => count_type t counts) types []).
  destruct (shape_counts_exact types [] (NoDup_nil _)) as [Hnd Hcount].
  fold counts in Hnd, Hcount. simpl in Hcount.
  assert (Hin : In (k, count_occ string_dec types k) (sorted_desc counts)).
  { apply (Permutation_in _ (Permutation_sym (sorted_desc_perm counts))).
    rewrite <- Hcount. apply In_count_in. rewrite Hcount. lia. }
  pose proof (sorted_desc_sorted counts) as Hsorted.
  assert (Hexact : forall t n, In (t, n) (sorted_desc counts) ->
                               n = count_occ string_dec types t).
  { intros t n Ht. apply (Permutation_in _ (sorted_desc_perm counts)) in Ht.
    rewrite <- Hcount. symmetry. apply count_in_In; assumption. }
  rewrite <- (firstn_skipn 3 (sorted_desc counts)) in Hin, Hsorted.
  apply in_app_or in Hin. cbv zeta. destruct Hin as [Hin | Hin].
  - left. apply in_map_iff. exists (k, count_occ string_dec types k).
    split; [reflexivity | ]. apply filter_In. split; [exact Hin | ].
    simpl. apply Nat.ltb_lt. exact Hk.
  - right.
    assert (Hall : forall a, In a (firstn 3 (sorted_desc counts)) ->
                             (count_occ string_dec types k <= snd a)%nat).
    { intros a Ha. apply (@sorted_app _ _ _ _ Hsorted a _ Ha Hin). }
    assert (Hkeep : filter (fun p => (1 <? snd p)%nat) (firstn 3 (sorted_desc counts))
                    = firstn 3 (sorted_desc counts)).
    { apply forallb_filter_id. apply forallb_forall. intros a Ha.
      apply Nat.ltb_lt. specialize (Hall a Ha). lia. }
    rewrite Hkeep. split.
    + rewrite length_map. apply firstn_length_le.
      destruct (le_lt_dec 3 (List.length (sorted_desc counts))) as [H3 | H3];
        [exact H3 | ].
      rewrite skipn_all2 in Hin by lia. destruct Hin.
    + apply Forall_forall. intros t Ht. apply in_map_iff in Ht.
      destruct Ht as [[t' n] [Heq Ht]]. simpl in Heq. subst t'.
      specialize (Hall _ Ht). simpl in Hall.
      rewrite <- (Hexact t n (@firstn_subset _ _ _ _ Ht)). exact Hall.
Qed.

End DominantCounts.

(* ------------------------------------------------------------------ *)
(** ** ShapeDetector: the chain of fallbacks, step by step *)

Section DominantChain.

Import ShapeDetector.
Import Spec.
Local Open Scope string_scope.

(** [_determine_dominant_shapes] step by step, on the types of the shapes. *)
Lemma determine_dominant_shapes_steps (info : shape_info) (li : line_info)
    (ci : circle_info) (ds : list string) :
  _determine_dominant_shapes info li ci = OK ds ->
  exists types,
    mapM (fun s => item (type s) "'type'") (shapes info) = OK types
    /\ let top :=
         map fst (filter (fun p => (1 <? snd p)%nat)
                    (firstn 3 (sorted_desc
                       (fold_left (fun counts t => count_type t counts) types []))))
       in
       let d1 := if has_straight_lines_ li && is_empty top
                 then (top ++ ["Geometric"])%list else top in
       let d2 := if has_circles ci && negb (str_in "Circle" d1)
                 then (d1 ++ ["Circular"])%list else d1 in
       ds = match d2 with
            | [] => if String.eqb (complexity info) "High"
                    then ["Complex"] else ["Organic"]
            | _ :: _ => d2
            end.
Proof.
  unfold _determine_dominant_shapes. intros H.
  apply bind_OK_inv in H. destruct H as [types [Htypes H]].
  exists types. split; [exact Htypes | ].
  cbv zeta in H |- *.
  destruct (fold_left (fun counts t => count_type t counts) types []) as [ | c counts];
    injection H as <-; reflexivity.
Qed.

Lemma determine_dominant_shapes_returns (info : shape_info) (li : line_info)
    (ci : circle_info) (types : list string) :
  mapM (fun s => item (type s) "'type'") (shapes info) = OK types ->
  exists ds, _determine_dominant_shapes info li ci = OK ds.
Proof.
  unfold _determine_dominant_shapes. intros ->. eexists. reflexivity.
Qed.

Lemma dominant_shapes_shape (info : shape_info) (li : line_info)
    (ci : circle_info) (ds : list string) :
  _determine_dominant_shapes info li ci = OK ds ->
  exists types,
    mapM (fun s => item (type s) "'type'") (shapes info) = OK types
    /\ (1 <= List.length ds <= 4)%nat
    /\ (has_circles ci = true -> In "Circle" ds \/ In "Circular" ds)
    /\ (has_straight_lines_ li = true ->
        (forall k, count_occ string_dec types k <= 1)%nat ->
        exists rest, ds = "Geometric" :: rest)
    /\ (~ In "Circular" types -> NoDup ds).
Proof.
  intros H. destruct (determine_dominant_shapes_steps _ _ _ H) as [types [Htypes Hds]].
  exists types. split; [exact Htypes | ].
  pose proof (top_types_NoDup types) as Hnd.
  pose proof (top_types_length types) as Hlen.
  pose proof (repeated_types types) as Hrep.
  cbv zeta in Hds.
  set (top := map fst (filter (fun p => (1 <? snd p)%nat)
                         (firstn 3 (sorted_desc
                            (fold_left (fun counts t => count_type t counts) types []))))) in *.
  clearbody top. subst ds. clear H.
  assert (Hcirc : ~ In "Circular" types -> ~ In "Circular" top).
  { intros Hno Hin. apply Hno. apply Hrep in Hin.
    apply (count_occ_In string_dec). lia. }
  assert (Hfew : (forall k, count_occ string_dec types k <= 1)%nat -> top = []).
  { intros Hall. destruct top as [ | t top]; [reflexivity | ].
    specialize (Hrep t (or_introl eq_refl)). specialize (Hall t). lia. }
  assert (Hsnoc : ~ In "Circular" top -> NoDup (top ++ ["Circular"])).
  { intros Hno. apply NoDup_app; [exact Hnd | repeat constructor; intros [] | ].
    intros a Ha [<- | []]. contradiction. }
  destruct (has_straight_lines_ li); destruct top as [ | t top]; simpl is_empty;
    cbv beta iota delta [andb app];
    destruct (has_circles ci);
    cbv beta iota delta [andb negb].
  all: repeat match goal with
       | |- context [str_in "Circle" ?l] =>
           destruct (str_in_reflect "Circle" l); cbv beta iota delta [negb]
       end.
  all: try destruct (String.eqb (complexity info) "High").
  all: simpl List.length in *; fold (@app string) in *.
  all: repeat split; try lia; try discriminate;
       try (intros; eexists; reflexivity);
       try (intros Hall1 Hall2; specialize (Hfew Hall2); discriminate Hfew).
  all: try (intros _; left; assumption).
  all: try (intros _; right; apply in_or_app; right; left; reflexivity).
  all: try (intros _; right; left; reflexivity).
  all: try (intros _; right; right; apply in_or_app; right; left; reflexivity).
  all: try (intros Hno; repeat constructor; simpl; intuition discriminate).
  all: try (intros Hno; exact Hnd).
  all: try (intros Hno; apply (Hsnoc (Hcirc Hno))).
  all: try (rewrite length_app; simpl; lia).
Qed.

End DominantChain.

(* ------------------------------------------------------------------ *)
(** ** ShapeDetector: what [detect_shapes] lists, and when it fails *)

Section DetectShapes.

Import ShapeDetector.
Import Spec.
Local Open Scope string_scope.
Local Open Scope Q_scope.

Lemma analyze_contours_shapes (X : Ext) (contours : list (list point))
    (image_shape : ndarray) (info : shape_info) :
  _analyze_contours X contours image_shape = OK info ->
  Forall retained (shapes info).
Proof.
  unfold _analyze_contours. intros H.
  apply bind_OK_inv in H. destruct H as [rows [_ H]].
  apply bind_OK_inv in H. destruct H as [cols [_ H]].
  apply bind_OK_inv in H. destruct H as [acc [Hloop H]].
  cbv zeta in H.
  apply bind_OK_inv in H. destruct H as [ratio [_ H]].
  injection H as <-. simpl.
  destruct (analyze_loop_appends _ _ _ _ Hloop) as [added [Hacc [Hret _]]].
  rewrite Hacc. exact Hret.
Qed.

Lemma retained_types (shapes : list shape) :
  Forall retained shapes ->
  exists types,
    mapM (fun s => item (type s) "'type'") shapes = OK types
    /\ Forall (fun t => In t shape_types) types.
Proof.
  induction 1 as [ | s shapes Hs _ [types [Htypes Hall]]].
  - exists []. split; [reflexivity | constructor].
  - destruct Hs as [a [t [r [_ [_ [Ht [Hin _]]]]]]].
    exists (t :: types). split; [ | constructor; assumption].
    simpl. rewrite Ht. simpl. rewrite Htypes. reflexivity.
Qed.

(** The two outcomes of the body of [detect_shapes]. *)
Lemma detect_shapes_body_outcome (X : Ext) (image_path : string) :
  (exists e, detect_shapes_body X image_path = Raise e
             /\ (imread X image_path = None
                 \/ exists img e',
                      imread X image_path = Some img
                      /\ _analyze_contours X
                           (find_contours X
                              (canny X (GaussianBlur X
                                          (resize X 512 512 (cvtColor X img)))))
                           (resize X 512 512 (cvtColor X img)) = Raise e'))
  \/ (exists img info ds,
        imread X image_path = Some img
        /\ _analyze_contours X
             (find_contours X
                (canny X (GaussianBlur X (resize X 512 512 (cvtColor X img)))))
             (resize X 512 512 (cvtColor X img)) = OK info
        /\ _determine_dominant_shapes info
             (_detect_lines X
                (canny X (GaussianBlur X (resize X 512 512 (cvtColor X img)))))
             (_detect_circles X
                (GaussianBlur X (resize X 512 512 (cvtColor X img)))) = OK ds
        /\ detect_shapes_body X image_path
           = OK {| dominant_shapes := Some ds;
                   shape_count := Some (List.length (shapes info));
                   has_straight_lines :=
                     Some (has_straight_lines_
                             (_detect_lines X
                                (canny X (GaussianBlur X
                                            (resize X 512 512 (cvtColor X img))))));
                   has_curves :=
                     Some (has_circles
                             (_detect_circles X
                                (GaussianBlur X
                                   (resize X 512 512 (cvtColor X img)))));
                   shape_complexity := Some (complexity info);
                   shape_distribution := Some (distribution info);
                   shape_details := Some (firstn 5 (shapes info)) |}).
Proof.
  unfold detect_shapes_body.
  destruct (imread X image_path) as [img | ].
  2: { left. eexists. split; [reflexivity | left; reflexivity]. }
  cbv beta iota delta [bind].
  destruct (_analyze_contours X _ _) as [info | e] eqn:Hinfo.
  2: { left. exists e. split; [reflexivity | ]. right. exists img, e. split; [reflexivity | exact Hinfo]. }
  destruct (retained_types (analyze_contours_shapes _ _ _ Hinfo)) as [types [Htypes _]].
  destruct (determine_dominant_shapes_returns info
              (_detect_lines X
                 (canny X (GaussianBlur X (resize X 512 512 (cvtColor X img)))))
              (_detect_circles X
                 (GaussianBlur X (resize X 512 512 (cvtColor X img))))
              Htypes) as [ds Hds].
  right. exists img, info, ds.
  split; [reflexivity | ]. split; [exact Hinfo | ]. split; [exact Hds | ].
  cbv zeta. rewrite Hds. reflexivity.
Qed.

Lemma analyze_contours_complexity (X : Ext) (contours : list (list point))
    (image_shape : ndarray) (info : shape_info) :
  _analyze_contours X contours image_shape = OK info ->
  (complexity info = "High" <-> (10 <= List.length (shapes info))%nat)
  /\ (complexity info = "Low" <-> (List.length (shapes info) < 3)%nat).
Proof.
  unfold _analyze_contours. intros H.
  apply bind_OK_inv in H. destruct H as [rows [_ H]].
  apply bind_OK_inv in H. destruct H as [cols [_ H]].
  apply bind_OK_inv in H. destruct H as [acc [_ H]].
  cbv zeta in H.
  apply bind_OK_inv in H. destruct H as [ratio [_ H]].
  injection H as <-. simpl.
  destruct (Nat.ltb_spec (List.length (fst acc)) 3);
    [ | destruct (Nat.ltb_spec (List.length (fst acc)) 10)];
    split; split; intros Hc; try discriminate Hc; try reflexivity; lia.
Qed.

(** Ten shapes of eight types repeat a type. *)
Lemma ten_shapes_repeat (types : list string) :
  Forall (fun t => In t shape_types) types ->
  (10 <= List.length types)%nat ->
  ~ (forall k, count_occ string_dec types k <= 1)%nat.
Proof.
  intros Hknown Hlen Hfew.
  assert (Hnd : NoDup types) by (apply (NoDup_count_occ string_dec); exact Hfew).
  assert (Hincl : incl types shape_types).
  { intros t Ht. rewrite Forall_forall in Hknown. apply Hknown. exact Ht. }
  pose proof (NoDup_incl_length Hnd Hincl) as Hle. simpl in Hle. lia.
Qed.

(** The labels of the dominant shapes of an image whose shapes were
    retained by [_analyze_contours]. *)
Lemma dominant_shapes_labels (info : shape_info) (li : line_info)
    (ci : circle_info) (ds types : list string) :
  _determine_dominant_shapes info li ci = OK ds ->
  mapM (fun s => item (type s) "'type'") (shapes info) = OK types ->
  Forall (fun t => In t shape_types) types ->
  (complexity info = "High" -> (10 <= List.length (shapes info))%nat) ->
  Forall (fun label => In label dominant_labels /\ label <> "Unknown") ds
  /\ (In "Geometric" ds ->
      has_straight_lines_ li = true /\ complexity info <> "High").
Proof.
  intros H Htypes Hknown Hhigh.
  destruct (determine_dominant_shapes_steps _ _ _ H) as [types' [Htypes' Hds]].
  rewrite Htypes in Htypes'. injection Htypes' as <-.
  pose proof (repeated_types types) as Hrep.
  pose proof (top_types_complete types) as Hcomplete.
  cbv zeta in Hds, Hcomplete.
  set (top := map fst (filter (fun p => (1 <? snd p)%nat)
                         (firstn 3 (sorted_desc
                            (fold_left (fun counts t => count_type t counts) types []))))) in *.
  clearbody top.
  assert (Htop : Forall (fun label => In label shape_types) top).
  { apply Forall_forall. intros label Hl. rewrite Forall_forall in Hknown.
    apply Hknown. apply (count_occ_In string_dec). specialize (Hrep label Hl). lia. }
  assert (Hempty : top = [] -> complexity info <> "High").
  { intros -> Hc. apply (ten_shapes_repeat Hknown).
    - rewrite (mapM_length _ _ Htypes). apply Hhigh. exact Hc.
    - intros k. destruct (le_lt_dec (count_occ string_dec types k) 1) as [Hle | Hgt];
        [exact Hle | ].
      destruct (Hcomplete k Hgt) as [[] | [Hlen _]]. discriminate Hlen. }
  assert (Hshape : forall label, In label shape_types ->
                                 In label dominant_labels /\ label <> "Unknown"
                                 /\ label <> "Geometric").
  { intros label Hl. split; [apply in_or_app; left; exact Hl | ].
    split; intros ->; simpl in Hl; intuition discriminate. }
  assert (Htop' : Forall (fun label => In label dominant_labels /\ label <> "Unknown"
                                       /\ label <> "Geometric") top).
  { eapply Forall_impl; [ | exact Htop]. exact Hshape. }
  clear Hrep Hcomplete.
  destruct top as [ | t top].
  - specialize (Hempty eq_refl). simpl in Hds.
    destruct (has_straight_lines_ li); destruct (has_circles ci); simpl in Hds;
      try (destruct (String.eqb_spec (complexity info) "High") as [Hc | Hc];
           [contradiction | ]);
      subst ds; split;
      try (apply Forall_forall; intros label Hl; simpl in Hl;
           repeat match goal with
                  | Hl : _ \/ _ |- _ => destruct Hl as [<- | Hl]
                  | Hl : False |- _ => destruct Hl
                  end;
           (split; [unfold dominant_labels, shape_types; simpl; tauto | discriminate]));
      try (intros _; split; [reflexivity | exact Hempty]);
      intros Hin; simpl in Hin; intuition discriminate.
  - rewrite andb_false_r in Hds.
    assert (Hno : ~ In "Geometric" (t :: top)).
    { intros Hin. rewrite Forall_forall in Htop'.
      destruct (Htop' _ Hin) as [_ [_ Hne]]. congruence. }
    assert (Hlabels : Forall (fun label => In label dominant_labels
                                           /\ label <> "Unknown") (t :: top)).
    { eapply Forall_impl; [ | exact Htop'].
      intros label [Hl [Hu _]]. split; assumption. }
    destruct (has_circles ci && negb (str_in "Circle" (t :: top))); subst ds; split.
    + apply (Forall_app _ (t :: top) ["Circular"]). split; [exact Hlabels | ].
      constructor; [ | constructor].
      split; [unfold dominant_labels, shape_types; simpl; tauto | discriminate].
    + intros Hin. exfalso.
      apply (in_app_or (t :: top) ["Circular"]) in Hin.
      destruct Hin as [Hin | [Hin | []]]; [contradiction | discriminate Hin].
    + exact Hlabels.
    + intros Hin. contradiction.
Qed.

(** C10. For every image path, [detect_shapes] returns a list of dominant
    shapes that is never empty.  When the body of the [try] block returns,
    the function returns what the body returns, and the list is the one that
    [_determine_dominant_shapes] makes of the analysed contours, the lines
    and the circles of the image: the fallback chain leaves at least one
    label in it, each label a shape type that occurs more than once or one
    of Geometric, Circular, Complex and Organic, and never Unknown.  When
    the body raises, the list is the sentinel [Unknown] alone. *)
Theorem detect_shapes_dominant_never_empty (X : Ext) (image_path : string) :
  exists ds,
    dominant_shapes (detect_shapes X image_path) = Some ds
    /\ ds <> []
    /\ (forall sa,
          detect_shapes_body X image_path = OK sa ->
          detect_shapes X image_path = sa
          /\ ~ In "Unknown" ds
          /\ exists img info types,
               imread X image_path = Some img
               /\ _analyze_contours X
                    (find_contours X
                       (canny X (GaussianBlur X
                                   (resize X 512 512 (cvtColor X img)))))
                    (resize X 512 512 (cvtColor X img)) = OK info
               /\ mapM (fun s => item (type s) "'type'") (shapes info) = OK types
               /\ _determine_dominant_shapes info
                    (_detect_lines X
                       (canny X (GaussianBlur X
                                   (resize X 512 512 (cvtColor X img)))))
                    (_detect_circles X
                       (GaussianBlur X (resize X 512 512 (cvtColor X img))))
                  = OK ds
               /\ Forall (chain_label types) ds)
    /\ (forall e, detect_shapes_body X image_path = Raise e -> ds = ["Unknown"]).
Proof.
  unfold detect_shapes.
  destruct (detect_shapes_body_outcome X image_path)
    as [[e [Hbody _]] | [img [info [ds [Himg [Hinfo [Hds Hbody]]]]]]];
    rewrite Hbody; cbv beta iota delta [catch].
  - exists ["Unknown"]. split; [reflexivity | ]. split; [discriminate | ].
    split; [intros sa H; discriminate H | intros e' _; reflexivity].
  - exists ds. split; [reflexivity | ].
    destruct (determine_dominant_shapes_chain _ _ _ Hds)
      as [Hnonempty [types [Htypes Hchain]]].
    split; [exact Hnonempty | ].
    split; [ | intros e H; discriminate H].
    intros sa Hsa. injection Hsa as <-.
    split; [reflexivity | ].
    destruct (retained_types (analyze_contours_shapes _ _ _ Hinfo))
      as [types' [Htypes' Hknown]].
    rewrite Htypes in Htypes'. injection Htypes' as <-.
    destruct (@dominant_shapes_labels _ _ _ _ _ Hds Htypes Hknown
                (proj1 (proj1 (analyze_contours_complexity _ _ _ Hinfo))))
      as [Hlabels _].
    split.
    + intros Hin. rewrite Forall_forall in Hlabels.
      destruct (Hlabels _ Hin) as [_ Hne]. congruence.
    + exists img, info, types.
      split; [exact Himg | ]. split; [exact Hinfo | ]. split; [exact Htypes | ].
      split; [exact Hds | exact Hchain].
Qed.

Lemma detect_shapes_dominant_never_empty_witness :
  exists ds,
    dominant_shapes (detect_shapes Sample.two_squares "squares.png") = Some ds
    /\ ds <> []
    /\ ~ In "Unknown" ds.
Proof.
  destruct (detect_shapes_dominant_never_empty Sample.two_squares "squares.png")
    as [ds [Hds [Hne [Hok _]]]].
  exists ds. split; [exact Hds | ]. split; [exact Hne | ].
  destruct (detect_shapes_body Sample.two_squares "squares.png") as [sa | e] eqn:Hbody.
  - destruct (Hok sa eq_refl) as [_ [Hno _]]. exact Hno.
  - exfalso. vm_compute in Hbody. discriminate Hbody.
Defined.

(** [detect_shapes] lists between one and four labels, none of them twice,
    each one of the eight shape types or Geometric, Circular or Unknown.
    The fallback label Complex is never listed: it asks for ten shapes none
    of whose types is repeated, and there are eight types.  Unknown is
    listed exactly when the body of the [try] block raises, and then it is
    the only label; Geometric is listed only where a straight line was found
    and the complexity is not High. *)
Theorem detect_shapes_labels (X : Ext) (image_path : string) :
  exists ds,
    dominant_shapes (detect_shapes X image_path) = Some ds
    /\ NoDup ds
    /\ (1 <= List.length ds <= 4)%nat
    /\ Forall (fun label => In label dominant_labels) ds
    /\ (In "Unknown" ds <-> exists e, detect_shapes_body X image_path = Raise e)
    /\ (In "Unknown" ds -> ds = ["Unknown"])
    /\ (In "Geometric" ds ->
        has_straight_lines (detect_shapes X image_path) = Some true
        /\ shape_complexity (detect_shapes X image_path) <> Some "High").
Proof.
  unfold detect_shapes.
  destruct (detect_shapes_body_outcome X image_path)
    as [[e [Hbody _]] | [img [info [ds [_ [Hinfo [Hds Hbody]]]]]]];
    rewrite Hbody; simpl.
  - exists ["Unknown"]. split; [reflexivity | ].
    split; [repeat constructor; intros [] | ].
    split; [simpl; lia | ].
    split; [repeat constructor; unfold dominant_labels, shape_types; simpl; tauto | ].
    split; [split; [intros _; exists e; reflexivity | intros _; left; reflexivity] | ].
    split; [reflexivity | ].
    intros [Hin | []]. discriminate Hin.
  - exists ds. split; [reflexivity | ].
    destruct (retained_types (analyze_contours_shapes _ _ _ Hinfo))
      as [types [Htypes Hknown]].
    destruct (dominant_shapes_shape _ _ _ Hds) as [types' [Htypes' [Hlen [_ [_ Hnd]]]]].
    rewrite Htypes in Htypes'. injection Htypes' as <-.
    destruct (@dominant_shapes_labels _ _ _ _ _ Hds Htypes Hknown
                (proj1 (proj1 (analyze_contours_complexity _ _ _ Hinfo))))
      as [Hlabels Hgeo].
    assert (Hno : ~ In "Unknown" ds).
    { intros Hin. rewrite Forall_forall in Hlabels.
      destruct (Hlabels _ Hin) as [_ Hne]. congruence. }
    split.
    { apply Hnd. intros Hin. rewrite Forall_forall in Hknown.
      specialize (Hknown _ Hin). simpl in Hknown. intuition discriminate. }
    split; [exact Hlen | ].
    split; [eapply Forall_impl; [ | exact Hlabels]; intros label Hl; apply Hl | ].
    split; [split; [intros Hin; contradiction | intros [e He]; discriminate He] | ].
    split; [intros Hin; contradiction | ].
    intros Hin. destruct (Hgeo Hin) as [Hl Hc]. split; [exact (f_equal Some Hl) | ].
    intros Heq. injection Heq as Heq. contradiction.
Qed.

(** The body of [detect_shapes] raises, and the failure record is returned,
    in four cases only: OpenCV cannot load the image, the resized image has
    fewer than two axes or no pixel, or a contour of five points or more
    whose approximation has an area of 100 or more has an approximation
    without points. *)
Theorem detect_shapes_fails_iff (X : Ext) (image_path : string) :
  (exists e, detect_shapes_body X image_path = Raise e)
  <-> imread X image_path = None
      \/ exists img,
           imread X image_path = Some img
           /\ (pixel_count (resize X 512 512 (cvtColor X img)) = None
               \/ pixel_count (resize X 512 512 (cvtColor X img)) = Some 0%nat
               \/ Exists (degenerate X)
                    (find_contours X
                       (canny X (GaussianBlur X
                                   (resize X 512 512 (cvtColor X img)))))).
Proof.
  destruct (detect_shapes_body_outcome X image_path)
    as [[e [Hbody Hwhy]] | [img [info [ds [Himg [Hinfo [_ Hbody]]]]]]].
  - split; [intros _ | intros _; exists e; exact Hbody].
    destruct Hwhy as [Hnone | [img [e' [Himg Hraise]]]]; [left; exact Hnone | ].
    right. exists img. split; [exact Himg | ].
    apply analyze_contours_raises. exists e'. exact Hraise.
  - rewrite Hbody. split; [intros [e He]; discriminate He | ].
    intros [Hnone | [img' [Himg' Hwhy]]]; [congruence | ].
    rewrite Himg in Himg'. injection Himg' as <-.
    apply analyze_contours_raises in Hwhy. destruct Hwhy as [e He]. congruence.
Qed.

End DetectShapes.

(* ------------------------------------------------------------------ *)
(** ** ShapeDetector: the order of the dominant shapes *)

Section DominantOrder.

Import ShapeDetector.
Import Spec.
Local Open Scope string_scope.

(** The dominant shapes follow the counts of the shape types.  A type that
    occurs more than once is listed, unless three types that occur at least
    as often take the three places.  When no type occurs more than once, the
    list starts with Geometric if a straight line was found, and without
    lines and circles it is the single fallback label, Complex for a high
    complexity and Organic otherwise. *)
Theorem dominant_shapes_most_frequent (info : shape_info) (li : line_info)
    (ci : circle_info) (ds : list string) :
  _determine_dominant_shapes info li ci = OK ds ->
  exists types,
    mapM (fun s => item (type s) "'type'") (shapes info) = OK types
    /\ (forall k,
          (1 < count_occ string_dec types k)%nat ->
          In k ds
          \/ ((3 <= List.length ds)%nat
              /\ Forall (fun t => (count_occ string_dec types k
                                   <= count_occ string_dec types t)%nat)
                        (firstn 3 ds)))
    /\ ((forall k, count_occ string_dec types k <= 1)%nat ->
        (has_straight_lines_ li = true -> exists rest, ds = "Geometric" :: rest)
        /\ (has_straight_lines_ li = false -> has_circles ci = false ->
            ds = [if String.eqb (complexity info) "High"
                  then "Complex" else "Organic"])).
Proof.
  intros H. destruct (determine_dominant_shapes_steps _ _ _ H) as [types [Htypes Hds]].
  exists types. split; [exact Htypes | ].
  cbv zeta in Hds. split.
  - intros k Hk. pose proof (top_types_complete types k Hk) as Htop.
    cbv zeta in Htop.
    set (top := map fst (filter (fun p => (1 <? snd p)%nat)
                           (firstn 3 (sorted_desc
                              (fold_left (fun counts t => count_type t counts)
                                         types []))))) in *.
    clearbody top.
    assert (Hkept : top <> [] -> exists extra, ds = (top ++ extra)%list).
    { intros Hne. destruct top as [ | t top]; [congruence | ].
      rewrite andb_false_r in Hds.
      destruct (has_circles ci && negb (str_in "Circle" (t :: top))).
      - exists ["Circular"]. exact Hds.
      - exists []. rewrite app_nil_r. exact Hds. }
    destruct Htop as [Hin | [Hlen Hall]].
    + left. destruct Hkept as [extra ->]; [intros ->; destruct Hin | ].
      apply in_or_app. left. exact Hin.
    + right. destruct Hkept as [extra ->]; [intros ->; discriminate Hlen | ].
      split; [rewrite length_app; lia | ].
      rewrite firstn_app, Hlen, Nat.sub_diag, firstn_O, app_nil_r.
      rewrite <- Hlen, firstn_all. exact Hall.
  - intros Hfew.
    assert (Hnone : map fst (filter (fun p => (1 <? snd p)%nat)
                               (firstn 3 (sorted_desc
                                  (fold_left (fun counts t => count_type t counts)
                                             types [])))) = []).
    { pose proof (repeated_types types) as Hrep.
      destruct (map fst _) as [ | t top]; [reflexivity | ].
      specialize (Hrep t (or_introl eq_refl)). specialize (Hfew t). lia. }
    rewrite Hnone in Hds. simpl in Hds. split.
    + intros Hl. rewrite Hl in Hds. simpl in Hds.
      destruct (has_circles ci); simpl in Hds; eexists; exact Hds.
    + intros Hl Hc. rewrite Hl, Hc in Hds. simpl in Hds.
      destruct (String.eqb (complexity info) "High"); exact Hds.
Qed.

Lemma dominant_shapes_most_frequent_witness :
  exists types,
    mapM (fun s => item (type s) "'type'") [Sample.rectangle; Sample.rectangle]
    = OK types
    /\ (forall k,
          (1 < count_occ string_dec types k)%nat ->
          In k ["Rectangle"]
          \/ ((3 <= List.length ["Rectangle"])%nat
              /\ Forall (fun t => (count_occ string_dec types k
                                   <= count_occ string_dec types t)%nat)
                        (firstn 3 ["Rectangle"])))
    /\ ((forall k, count_occ string_dec types k <= 1)%nat ->
        (true = true -> exists rest, ["Rectangle"] = "Geometric" :: rest)
        /\ (true = false -> false = false -> ["Rectangle"] = ["Organic"])).
Proof.
  apply (@dominant_shapes_most_frequent
           {| shapes := [Sample.rectangle; Sample.rectangle];
              complexity := "Low"; distribution := "Sparse" |}
           {| lines := []; has_straight_lines_ := true; line_count := 0;
              dominant_orientation := "None" |}
           {| circles := []; has_circles := false; circle_count := 0 |}
           ["Rectangle"]).
  reflexivity.
Defined.

(** Where the Hough transform finds a circle, the list of dominant shapes
    holds Circle or Circular, so that the model type is cylindrical and the
    form description is the one of curved elements. *)
Theorem circles_make_cylindrical (X : Ext) (image_path : string) :
  has_curves (detect_shapes X image_path) = Some true ->
  ModelGenerator._determine_model_type (detect_shapes X image_path) = "cylindrical"
  /\ exists ds,
       dominant_shapes (detect_shapes X image_path) = Some ds
       /\ (In "Circle" ds \/ In "Circular" ds)
       /\ forall model_type,
            ImageAnalyzer.form_description
              (ImageAnalyzer._generate_form_suggestions ds model_type)
            = "Balanced form with curved elements and organic flow".
Proof.
  unfold detect_shapes.
  destruct (detect_shapes_body_outcome X image_path)
    as [[e [Hbody _]] | [img [info [ds [_ [_ [Hds Hbody]]]]]]];
    rewrite Hbody; simpl; intros Hcurves; [discriminate Hcurves | ].
  injection Hcurves as Hcurves.
  destruct (dominant_shapes_shape _ _ _ Hds) as [types [_ [_ [Hcirc _]]]].
  specialize (Hcirc Hcurves).
  assert (Hor : str_in "Circle" ds || str_in "Circular" ds = true).
  { apply orb_true_iff. rewrite !str_in_In. exact Hcirc. }
  unfold ModelGenerator._determine_model_type. simpl. rewrite Hor.
  split; [reflexivity | ]. exists ds. split; [reflexivity | ].
  split; [exact Hcirc | ]. intros model_type.
  unfold ImageAnalyzer._generate_form_suggestions. simpl. rewrite Hor. reflexivity.
Qed.

Lemma circles_make_cylindrical_witness :
  ModelGenerator._determine_model_type
    (detect_shapes Sample.squares_and_circle "squares.png") = "cylindrical"
  /\ exists ds,
       dominant_shapes (detect_shapes Sample.squares_and_circle "squares.png")
       = Some ds
       /\ (In "Circle" ds \/ In "Circular" ds)
       /\ forall model_type,
            ImageAnalyzer.form_description
              (ImageAnalyzer._generate_form_suggestions ds model_type)
            = "Balanced form with curved elements and organic flow".
Proof.
  apply (@circles_make_cylindrical Sample.squares_and_circle "squares.png").
  reflexivity.
Defined.

End DominantOrder.

(* ------------------------------------------------------------------ *)
(** ** ShapeDetector: lines and their orientation *)

Section Lines.

Import ShapeDetector.
Local Open Scope string_scope.

Lemma detect_lines_orientations (X : Ext) (edges : ndarray) :
  Forall (fun l => In (orientation l) ["Horizontal"; "Vertical"; "Diagonal"])
         (lines (_detect_lines X edges)).
Proof.
  unfold _detect_lines. simpl. apply Forall_forall. intros l Hl.
  apply in_map_iff in Hl. destruct Hl as [[a d] [<- _]]. simpl.
  destruct (_ || _); [tauto | ]. destruct (_ || _); tauto.
Qed.

(** [_detect_lines] keeps one line per peak of the Hough transform, each
    Horizontal, Vertical or Diagonal.  The dominant orientation is None
    exactly when there is no peak; otherwise no orientation is borne by more
    lines than the dominant one, and at equal counts Horizontal comes before
    Vertical, and Vertical before Diagonal. *)
Theorem detect_lines_dominant_orientation (X : Ext) (edges : ndarray) :
  line_count (_detect_lines X edges) = List.length (hough_line_peaks X edges)
  /\ (has_straight_lines_ (_detect_lines X edges) = true
      <-> hough_line_peaks X edges <> [])
  /\ (dominant_orientation (_detect_lines X edges) = "None"
      <-> hough_line_peaks X edges = [])
  /\ (hough_line_peaks X edges <> [] ->
      In (dominant_orientation (_detect_lines X edges))
         ["Horizontal"; "Vertical"; "Diagonal"]
      /\ (forall o,
            count_occ string_dec (map orientation (lines (_detect_lines X edges))) o
            <= count_occ string_dec (map orientation (lines (_detect_lines X edges)))
                 (dominant_orientation (_detect_lines X edges)))%nat
      /\ (dominant_orientation (_detect_lines X edges) = "Vertical" ->
          (count_occ string_dec (map orientation (lines (_detect_lines X edges)))
             "Horizontal"
           < count_occ string_dec (map orientation (lines (_detect_lines X edges)))
               "Vertical")%nat)
      /\ (dominant_orientation (_detect_lines X edges) = "Diagonal" ->
          (count_occ string_dec (map orientation (lines (_detect_lines X edges)))
             "Horizontal"
           < count_occ string_dec (map orientation (lines (_detect_lines X edges)))
               "Diagonal")%nat
          /\ (count_occ string_dec (map orientation (lines (_detect_lines X edges)))
                "Vertical"
              < count_occ string_dec (map orientation (lines (_detect_lines X edges)))
                  "Diagonal")%nat)).
Proof.
  pose proof (detect_lines_orientations X edges) as Hall.
  unfold _detect_lines in *. simpl in *.
  set (ls := map _ (hough_line_peaks X edges)) in *.
  assert (Hlen : List.length ls = List.length (hough_line_peaks X edges))
    by (subst ls; apply length_map).
  split; [exact Hlen | ].
  assert (Hnil : ls = [] <-> hough_line_peaks X edges = []).
  { split; intros H.
    - apply length_zero_iff_nil. rewrite <- Hlen, H. reflexivity.
    - apply length_zero_iff_nil. rewrite Hlen, H. reflexivity. }
  split.
  { rewrite <- Hnil. destruct ls as [ | l ls]; split; intros H.
    - discriminate H.
    - contradiction H; reflexivity.
    - discriminate.
    - reflexivity. }
  assert (Hother : forall o, ~ In o ["Horizontal"; "Vertical"; "Diagonal"] ->
                             count_occ string_dec (map orientation ls) o = 0%nat).
  { intros o Ho. apply count_occ_not_In. intros Hin. apply Ho.
    apply in_map_iff in Hin. destruct Hin as [l [<- Hl]].
    rewrite Forall_forall in Hall. apply Hall. exact Hl. }
  clearbody ls. rewrite <- Hnil. clear Hnil Hlen.
  destruct ls as [ | l ls].
  { simpl. split; [tauto | ]. split; [tauto | ]. congruence. }
  unfold _get_dominant_orientation.
  set (os := map orientation (l :: ls)) in *. clearbody os.
  simpl max_from.
  assert (Hmax : forall d,
             In d ["Horizontal"; "Vertical"; "Diagonal"] ->
             (forall o, In o ["Horizontal"; "Vertical"; "Diagonal"] ->
                        (count_occ string_dec os o <= count_occ string_dec os d)%nat) ->
             forall o, (count_occ string_dec os o <= count_occ string_dec os d)%nat).
  { intros d Hd Hle o.
    destruct (in_dec string_dec o ["Horizontal"; "Vertical"; "Diagonal"]) as [Ho | Ho].
    - apply Hle. exact Ho.
    - rewrite (Hother o Ho). lia. }
  destruct (Nat.ltb_spec (count_occ string_dec os "Horizontal")
                         (count_occ string_dec os "Vertical")) as [Hv | Hv]; simpl;
    [ destruct (Nat.ltb_spec (count_occ string_dec os "Vertical")
                             (count_occ string_dec os "Diagonal")) as [Hd | Hd]
    | destruct (Nat.ltb_spec (count_occ string_dec os "Horizontal")
                             (count_occ string_dec os "Diagonal")) as [Hd | Hd] ];
    simpl.
  all: split; [split; [discriminate | discriminate] | ].
  all: intros _; split; [simpl; tauto | ].
  all: split;
       [ apply Hmax; [simpl; tauto | ];
         intros o [<- | [<- | [<- | []]]]; lia
       | split; intros H; try discriminate H; try lia ].
Qed.

End Lines.

(* ------------------------------------------------------------------ *)
(** ** ImageAnalyzer: complementary colours *)

Section ColorSuggestions.

Import ImageAnalyzer.
Import Spec.
Local Open Scope string_scope.

Lemma inverted_byte_color (c : ColorExtractor.rgb) :
  byte_color c -> byte_color (inverted c).
Proof.
  destruct c as [[r g] b].
  cbv beta iota delta [byte_color byte inverted fst snd].
  intros [Hr [Hg Hb]]. repeat split; lia.
Qed.

Lemma inverted_involutive (c : ColorExtractor.rgb) : inverted (inverted c) = c.
Proof.
  destruct c as [[r g] b]. unfold inverted. f_equal; [f_equal | ]; lia.
Qed.

Lemma complementary_color_inverts (c : ColorExtractor.rgb) :
  byte_color c ->
  complementary_color (ColorExtractor.hex_of_rgb c)
  = OK (ColorExtractor.hex_of_rgb (inverted c)).
Proof.
  intros Hc. unfold complementary_color.
  rewrite (parse_rgb_hex_of_rgb Hc). destruct c as [[r g] b]. reflexivity.
Qed.

Lemma mapM_map {A B C : Type} (f : B -> result C) (g : A -> B) (h : A -> C)
    (l : list A) :
  Forall (fun x => f (g x) = OK (h x)) l -> mapM f (map g l) = OK (map h l).
Proof.
  induction 1 as [ | x l Hx _ IH]; simpl; [reflexivity | ].
  rewrite Hx. simpl. rewrite IH. reflexivity.
Qed.

Lemma Forall_firstn {A : Type} (P : A -> Prop) (n : nat) (l : list A) :
  Forall P l -> Forall P (firstn n l).
Proof.
  intros H. apply Forall_forall. intros x Hx. rewrite Forall_forall in H.
  apply H. apply (firstn_subset _ _ _ Hx).
Qed.

Lemma color_suggestions_of_bytes (cs : list ColorExtractor.rgb) :
  Forall byte_color cs -> cs <> [] ->
  _generate_color_suggestions (map ColorExtractor.hex_of_rgb cs)
  = OK {| primary_palette := map ColorExtractor.hex_of_rgb (firstn 3 cs);
          complementary_palette :=
            map (fun c => ColorExtractor.hex_of_rgb (inverted c)) (firstn 3 cs);
          recommended_accent :=
            match cs with
            | c :: _ => ColorExtractor.hex_of_rgb (inverted c)
            | [] => "#FF5722"
            end |}.
Proof.
  intros Hcs Hne. unfold _generate_color_suggestions.
  destruct cs as [ | c cs]; [congruence | ].
  change (map ColorExtractor.hex_of_rgb (c :: cs))
    with (ColorExtractor.hex_of_rgb c :: map ColorExtractor.hex_of_rgb cs).
  cbv iota beta.
  change (ColorExtractor.hex_of_rgb c :: map ColorExtractor.hex_of_rgb cs)
    with (map ColorExtractor.hex_of_rgb (c :: cs)).
  rewrite firstn_map.
  rewrite (@mapM_map _ _ _ complementary_color ColorExtractor.hex_of_rgb
             (fun c => ColorExtractor.hex_of_rgb (inverted c))).
  - reflexivity.
  - apply Forall_firstn. rewrite Forall_forall in Hcs |- *.
    intros x Hx. apply complementary_color_inverts. apply Hcs. exact Hx.
Qed.

(** For a palette of byte colours as [ColorExtractor] prints them, the
    complementary palette is the RGB inversion of the first three colours,
    the accent is the inversion of the first one, and the complementary
    palette of the complementary palette is the primary palette again. *)
Theorem complementary_palette_inverts (cs : list ColorExtractor.rgb) :
  Forall byte_color cs -> cs <> [] ->
  exists suggestions back,
    _generate_color_suggestions (map ColorExtractor.hex_of_rgb cs) = OK suggestions
    /\ primary_palette suggestions = map ColorExtractor.hex_of_rgb (firstn 3 cs)
    /\ complementary_palette suggestions
       = map (fun c => ColorExtractor.hex_of_rgb (inverted c)) (firstn 3 cs)
    /\ Some (recommended_accent suggestions)
       = option_map (fun c => ColorExtractor.hex_of_rgb (inverted c)) (hd_error cs)
    /\ _generate_color_suggestions (complementary_palette suggestions) = OK back
    /\ complementary_palette back = primary_palette suggestions.
Proof.
  intros Hcs Hne.
  assert (Hinv : Forall byte_color (map inverted (firstn 3 cs))).
  { apply Forall_forall. intros x Hx. apply in_map_iff in Hx.
    destruct Hx as [c [<- Hc]]. apply inverted_byte_color.
    rewrite Forall_forall in Hcs. apply Hcs. apply (firstn_subset _ _ _ Hc). }
  assert (Hne' : map inverted (firstn 3 cs) <> []).
  { destruct cs as [ | c cs]; [congruence | discriminate]. }
  eexists. eexists.
  split; [apply (color_suggestions_of_bytes Hcs Hne) | ].
  cbv beta iota delta [primary_palette complementary_palette recommended_accent].
  split; [reflexivity | ]. split; [reflexivity | ].
  split; [destruct cs as [ | c cs]; [congruence | reflexivity] | ].
  rewrite <- (map_map inverted ColorExtractor.hex_of_rgb).
  split; [apply (color_suggestions_of_bytes Hinv Hne') | ].
  cbv beta iota delta [complementary_palette].
  rewrite (@firstn_all2 _ 3 (map inverted (firstn 3 cs)))
    by (rewrite length_map; apply firstn_le_length).
  rewrite !map_map. apply map_ext. intros c. rewrite inverted_involutive. reflexivity.
Qed.

Lemma complementary_palette_inverts_witness :
  exists suggestions back,
    _generate_color_suggestions (map ColorExtractor.hex_of_rgb Sample.five_colors)
    = OK suggestions
    /\ primary_palette suggestions
       = map ColorExtractor.hex_of_rgb (firstn 3 Sample.five_colors)
    /\ complementary_palette suggestions
       = map (fun c => ColorExtractor.hex_of_rgb (inverted c))
             (firstn 3 Sample.five_colors)
    /\ Some (recommended_accent suggestions)
       = option_map (fun c => ColorExtractor.hex_of_rgb (inverted c))
           (hd_error Sample.five_colors)
    /\ _generate_color_suggestions (complementary_palette suggestions) = OK back
    /\ complementary_palette back = primary_palette suggestions.
Proof.
  apply (@complementary_palette_inverts Sample.five_colors).
  - unfold Sample.five_colors, byte_color, byte. repeat constructor; simpl; lia.
  - discriminate.
Defined.

(** Whatever the dominant colours are, when [_generate_color_suggestions]
    returns, the primary palette has one to three colours, the complementary
    palette has as many, and the accent is the first complementary colour:
    the default accent is never used. *)
Theorem color_suggestions_accent (dominant_colors : list string)
    (suggestions : color_suggestions) :
  _generate_color_suggestions dominant_colors = OK suggestions ->
  (1 <= List.length (primary_palette suggestions) <= 3)%nat
  /\ List.length (complementary_palette suggestions)
     = List.length (primary_palette suggestions)
  /\ (dominant_colors = [] -> primary_palette suggestions = ["#CCCCCC"])
  /\ exists rest,
       complementary_palette suggestions = recommended_accent suggestions :: rest.
Proof.
  unfold _generate_color_suggestions. intros H.
  apply bind_OK_inv in H. destruct H as [comps [Hcomps H]].
  injection H as <-. simpl.
  pose proof (mapM_length _ _ Hcomps) as Hlen.
  split.
  { destruct dominant_colors as [ | c rest]; [simpl; lia | ].
    split; [simpl; lia | exact (firstn_le_length 3 (c :: rest))]. }
  split; [exact Hlen | ].
  split; [intros ->; reflexivity | ].
  destruct comps as [ | first rest]; [ | exists rest; reflexivity].
  exfalso. destruct dominant_colors as [ | c rest]; simpl in Hlen; discriminate Hlen.
Qed.

Lemma color_suggestions_accent_witness :
  (1 <= List.length ["#CCCCCC"] <= 3)%nat
  /\ List.length ["#333333"] = List.length ["#CCCCCC"]
  /\ (@nil string = [] -> ["#CCCCCC"] = ["#CCCCCC"])
  /\ exists rest, ["#333333"] = "#333333" :: rest.
Proof.
  apply (@color_suggestions_accent []
           {| primary_palette := ["#CCCCCC"];
              complementary_palette := ["#333333"];
              recommended_accent := "#333333" |}).
  reflexivity.
Defined.

End ColorSuggestions.

(* ------------------------------------------------------------------ *)
(** ** ColorExtractor: the colours of the palette are bytes *)

Section PaletteBytes.

Import ColorExtractor.
Import Spec.
Local Open Scope string_scope.
Local Open Scope Q_scope.

Lemma reshape3_bytes (flat : list Z) :
  forall rows, reshape3 flat = OK rows -> Forall byte flat -> Forall byte_color rows.
Proof.
  induction flat as [flat IH] using (well_founded_induction
                                      (Wf_nat.well_founded_ltof _ (@List.length Z))).
  intros rows H Hb.
  destruct flat as [ | r [ | g [ | b rest]]]; simpl in H; try discriminate H.
  - injection H as <-. constructor.
  - apply bind_OK_inv in H. destruct H as [rows' [Hrows H]]. injection H as <-.
    inversion Hb as [ | ? ? Hr Hb1]; subst.
    inversion Hb1 as [ | ? ? Hg Hb2]; subst.
    inversion Hb2 as [ | ? ? Hbl Hb3]; subst.
    constructor; [split; [exact Hr | split; [exact Hg | exact Hbl]] | ].
    apply (IH rest); [unfold Wf_nat.ltof; simpl; lia | exact Hrows | exact Hb3].
Qed.

Lemma masked_rgb_bytes (flat : list Z) :
  Forall byte flat -> Forall byte_color (masked_rgb flat).
Proof.
  induction flat as [flat IH] using (well_founded_induction
                                      (Wf_nat.well_founded_ltof _ (@List.length Z))).
  intros Hb.
  destruct flat as [ | r [ | g [ | b [ | a rest]]]]; simpl; try constructor.
  inversion Hb as [ | ? ? Hr Hb1]; subst.
  inversion Hb1 as [ | ? ? Hg Hb2]; subst.
  inversion Hb2 as [ | ? ? Hbl Hb3]; subst.
  inversion Hb3 as [ | ? ? Ha Hb4]; subst.
  assert (Hrest : Forall byte_color (masked_rgb rest))
    by (apply (IH rest); [unfold Wf_nat.ltof; simpl; lia | exact Hb4]).
  destruct (a >? 0)%Z;
    [constructor; [split; [exact Hr | split; [exact Hg | exact Hbl]] | ] | ];
    exact Hrest.
Qed.

Lemma sampled_pixels_bytes (img : ndarray) (pixels : list rgb) :
  sampled_pixels img = OK pixels -> Forall byte (data img) -> Forall byte_color pixels.
Proof.
  unfold sampled_pixels. intros H Hb.
  apply bind_OK_inv in H. destruct H as [rows [Hrows H]].
  apply bind_OK_inv in H. destruct H as [channels [_ H]].
  injection H as <-.
  destruct (channels =? 4)%nat;
    [apply masked_rgb_bytes; exact Hb | eapply reshape3_bytes; eassumption].
Qed.

Lemma Qsum_bytes (l : list Q) :
  Forall (fun x => 0 <= x /\ x <= 255) l ->
  0 <= Qsum l /\ Qsum l <= 255 * inject_Z (Z.of_nat (List.length l)).
Proof.
  induction 1 as [ | x l [Hlo Hhi] _ [IHlo IHhi]].
  - simpl. split; [apply Qle_refl | ]. unfold Qle; simpl; lia.
  - change (Qsum (x :: l)) with (x + Qsum l).
    change (List.length (x :: l)) with (S (List.length l)).
    rewrite Nat2Z.inj_succ. unfold Z.succ. rewrite inject_Z_plus.
    change (inject_Z 1) with 1. split; lra.
Qed.

Lemma mean_bytes (l : list Q) :
  l <> [] -> Forall (fun x => 0 <= x /\ x <= 255) l ->
  0 <= Qsum l / inject_Z (Z.of_nat (List.length l))
  /\ Qsum l / inject_Z (Z.of_nat (List.length l)) <= 255.
Proof.
  intros Hne Hl. destruct (Qsum_bytes Hl) as [Hlo Hhi].
  assert (Hn : 0 < inject_Z (Z.of_nat (List.length l))).
  { destruct l as [ | x l]; [congruence | ].
    change 0 with (inject_Z 0). rewrite <- Zlt_Qlt. simpl List.length. lia. }
  split.
  - apply Qle_shift_div_l; [exact Hn | lra].
  - apply Qle_shift_div_r; [exact Hn | lra].
Qed.

Lemma astype_int_byte (x : Q) : 0 <= x -> x <= 255 -> byte (astype_int x).
Proof.
  unfold Qle, astype_int, byte. simpl. intros Hlo Hhi.
  rewrite Z.quot_div_nonneg by lia. split.
  - apply Z.div_pos; lia.
  - apply Z.div_le_upper_bound; lia.
Qed.

Lemma members_subset (pixels : list rgb) (labels : list nat) (j : nat) (p : rgb) :
  In p (members pixels labels j) -> In p pixels.
Proof.
  unfold members. intros H. apply in_map_iff in H.
  destruct H as [[q l] [<- H]]. apply filter_In in H. destruct H as [H _].
  apply in_combine_l in H. exact H.
Qed.

Lemma component_mean_bytes (f : rgb -> Z) (ps : list rgb) :
  ps <> [] -> Forall (fun p => byte (f p)) ps ->
  0 <= Qsum (map (fun p => inject_Z (f p)) ps) / inject_Z (Z.of_nat (List.length ps))
  /\ Qsum (map (fun p => inject_Z (f p)) ps) / inject_Z (Z.of_nat (List.length ps))
     <= 255.
Proof.
  intros Hne Hb.
  rewrite <- (length_map (fun p => inject_Z (f p)) ps).
  apply mean_bytes; [destruct ps; [congruence | discriminate] | ].
  apply Forall_forall. intros x Hx. apply in_map_iff in Hx.
  destruct Hx as [p [<- Hp]]. rewrite Forall_forall in Hb.
  destruct (Hb p Hp) as [Hlo Hhi]. split.
  - change 0 with (inject_Z 0). rewrite <- Zle_Qle. exact Hlo.
  - change 255 with (inject_Z 255). rewrite <- Zle_Qle. exact Hhi.
Qed.

(** The centers of a k-means result on byte pixels are byte colours after
    truncation: each one is the mean of the pixels of its cluster. *)
Lemma kmeans_centers_bytes (k : nat) (pixels : list rgb) (fitted : kmeans) :
  is_kmeans k pixels fitted = true -> Forall byte_color pixels ->
  Forall byte_color
    (map (fun c : Q * Q * Q =>
            let '(r, g, b) := c in (astype_int r, astype_int g, astype_int b))
         (cluster_centers_ fitted)).
Proof.
  unfold is_kmeans. intros H Hpx.
  apply andb_true_iff in H. destruct H as [H Hmeans].
  apply andb_true_iff in H. destruct H as [H _].
  apply andb_true_iff in H. destruct H as [Hk _].
  apply Nat.eqb_eq in Hk. rewrite forallb_forall in Hmeans.
  apply Forall_forall. intros x Hx. apply in_map_iff in Hx.
  destruct Hx as [c [<- Hc]].
  apply In_nth_error in Hc. destruct Hc as [j Hj].
  assert (Hlt : (j < k)%nat).
  { rewrite <- Hk. apply nth_error_Some. rewrite Hj. discriminate. }
  specialize (Hmeans j). rewrite in_seq in Hmeans.
  specialize (Hmeans ltac:(lia)).
  apply andb_true_iff in Hmeans. destruct Hmeans as [Hne Hsame].
  rewrite Hj in Hsame.
  set (ms := members pixels (labels_ fitted) j) in *.
  assert (Hms : Forall byte_color ms).
  { apply Forall_forall. intros p Hp. rewrite Forall_forall in Hpx.
    apply Hpx. apply (members_subset _ _ _ _ Hp). }
  assert (Hnonempty : ms <> []).
  { intros E. rewrite E in Hne. discriminate Hne. }
  clearbody ms.
  unfold same_center in Hsame.
  apply andb_true_iff in Hsame. destruct Hsame as [Hsame Hb].
  apply andb_true_iff in Hsame. destruct Hsame as [Hr Hg].
  apply Qeq_bool_iff in Hr, Hg, Hb.
  destruct c as [[r g] b]. unfold mean_of in Hr, Hg, Hb. simpl in Hr, Hg, Hb.
  destruct (@component_mean_bytes (fun p => fst (fst p)) ms Hnonempty) as [Hr1 Hr2].
  { eapply Forall_impl; [ | exact Hms]. intros p Hp. apply Hp. }
  destruct (@component_mean_bytes (fun p => snd (fst p)) ms Hnonempty) as [Hg1 Hg2].
  { eapply Forall_impl; [ | exact Hms]. intros p Hp. apply Hp. }
  destruct (@component_mean_bytes (fun p => snd p) ms Hnonempty) as [Hb1 Hb2].
  { eapply Forall_impl; [ | exact Hms]. intros p Hp. apply Hp. }
  rewrite <- Hr in Hr1, Hr2. rewrite <- Hg in Hg1, Hg2. rewrite <- Hb in Hb1, Hb2.
  repeat split; apply astype_int_byte; assumption.
Qed.

Lemma mapM_index_In {A : Type} (l : list A) (idxs : list nat) (r : list A) :
  mapM (index l) idxs = OK r -> Forall (fun x => In x l) r.
Proof.
  revert r. induction idxs as [ | i idxs IH]; intros r H; simpl in H.
  - injection H as <-. constructor.
  - apply bind_OK_inv in H. destruct H as [x [Hx H]].
    apply bind_OK_inv in H. destruct H as [xs [Hxs H]]. injection H as <-.
    constructor; [ | apply IH; exact Hxs].
    unfold index in Hx. destruct (nth_error l i) as [v | ] eqn:Hnth; [ | discriminate Hx].
    injection Hx as <-. apply (nth_error_In _ _ Hnth).
Qed.

Lemma printed_of (colors : list rgb) (hexs : list string) :
  Forall byte_color colors ->
  Forall (fun h => In h (map hex_of_rgb colors)) hexs ->
  exists printed, hexs = map hex_of_rgb printed /\ Forall byte_color printed.
Proof.
  intros Hcolors. induction 1 as [ | h hexs Hh _ [printed [-> Hprinted]]].
  - exists []. split; [reflexivity | constructor].
  - apply in_map_iff in Hh. destruct Hh as [c [<- Hc]].
    exists (c :: printed). split; [reflexivity | ].
    constructor; [ | exact Hprinted]. rewrite Forall_forall in Hcolors.
    apply Hcolors. exact Hc.
Qed.

(** With a clustering that returns k-means results, on an image of bytes,
    every colour of the palette is a byte colour, and every hex string of the
    palette is the print of a byte colour. *)
Lemma extract_colors_bytes (X : Ext) (n_colors : nat) (image_path : string) :
  returns_kmeans X n_colors ->
  (forall img, Image_open X image_path = OK img -> Forall byte (data img)) ->
  (exists printed,
     fst (extract_colors X n_colors image_path) = map hex_of_rgb printed
     /\ Forall byte_color printed)
  /\ Forall byte_color (get (rgb_ (snd (extract_colors X n_colors image_path))) []).
Proof.
  intros Hkm Hbytes.
  destruct (extract_colors X n_colors image_path) as [hexs info] eqn:Hrun.
  destruct (extract_colors_outcome X n_colors image_path) as [Hempty | [ps Hps]].
  - rewrite Hrun in Hempty. injection Hempty as -> ->. simpl.
    split; [exists []; split; [reflexivity | constructor] | constructor].
  - rewrite Hrun in Hps. simpl in Hps. simpl fst. simpl snd.
    unfold extract_colors in Hrun.
    destruct (Image_open X image_path) as [img | e] eqn:Himg; simpl in Hrun;
      [ | injection Hrun as _ <-; discriminate Hps].
    destruct (sampled_pixels img) as [pixels | e] eqn:Hpx; simpl in Hrun;
      [ | injection Hrun as _ <-; discriminate Hps].
    destruct (KMeans_fit X n_colors pixels) as [fitted | e] eqn:Hfit; simpl in Hrun;
      [ | injection Hrun as _ <-; discriminate Hps].
    pose proof (kmeans_centers_bytes _ _ (Hkm _ _ Hfit)
                  (sampled_pixels_bytes _ Hpx (Hbytes _ eq_refl))) as Hcolors.
    match type of Hrun with
    | catch (bind ?m _) _ = _ => destruct m as [sorted | e] eqn:Hsorted
    end; simpl in Hrun; injection Hrun as <- <-; [ | discriminate Hps].
    simpl. split; [ | exact Hcolors].
    apply (printed_of Hcolors (mapM_index_In _ _ Hsorted)).
Qed.


Lemma hex_of_byte_color (c : rgb) :
  byte_color c ->
  String.length (hex_of_rgb c) = 7%nat
  /\ ModelGenerator.parse_rgb (lstrip_hash (hex_of_rgb c)) = OK c.
Proof.
  intros Hc. split; [ | apply (parse_rgb_hex_of_rgb Hc)].
  destruct c as [[r g] b]. destruct Hc as [Hr [Hg Hb]]. simpl in Hr, Hg, Hb.
  destruct (byte_prints_and_parses Hr) as [r1 [r2 [Er _]]].
  destruct (byte_prints_and_parses Hg) as [g1 [g2 [Eg _]]].
  destruct (byte_prints_and_parses Hb) as [b1 [b2 [Eb _]]].
  unfold hex_of_rgb. rewrite Er, Eg, Eb. reflexivity.
Qed.

(** With a clustering that returns k-means results, on an image whose array
    holds bytes, the colours of the palette are byte colours: each centre is
    the mean of the bytes of its cluster, truncated.  Every hex string of
    the palette is then the print of a byte colour, has seven characters,
    and is read back as that colour by the parser of [ModelGenerator]. *)
Theorem palette_colors_are_bytes (X : Ext) (n_colors : nat) (image_path : string) :
  returns_kmeans X n_colors ->
  (forall img, Image_open X image_path = OK img -> Forall byte (data img)) ->
  Forall byte_color (get (rgb_ (snd (extract_colors X n_colors image_path))) [])
  /\ Forall (fun h =>
               String.length h = 7%nat
               /\ exists c,
                    byte_color c /\ h = hex_of_rgb c
                    /\ ModelGenerator.parse_rgb (lstrip_hash h) = OK c)
            (fst (extract_colors X n_colors image_path)).
Proof.
  intros Hkm Hbytes.
  destruct (@extract_colors_bytes X n_colors image_path Hkm Hbytes)
    as [[printed [-> Hprinted]] Hcolors].
  split; [exact Hcolors | ].
  apply Forall_forall. intros h Hh. apply in_map_iff in Hh.
  destruct Hh as [c [<- Hc]]. rewrite Forall_forall in Hprinted.
  destruct (hex_of_byte_color (Hprinted c Hc)) as [Hlen Hparse].
  split; [exact Hlen | ]. exists c.
  split; [apply Hprinted; exact Hc | ]. split; [reflexivity | exact Hparse].
Qed.

Lemma Forall_concat_repeat {A : Type} (P : A -> Prop) (l : list A) (n : nat) :
  Forall P l -> Forall P (List.concat (repeat l n)).
Proof.
  intros H. induction n as [ | n IH]; simpl; [constructor | ].
  apply Forall_app. split; assumption.
Qed.

Lemma repeated_pixel_bytes (r g b : Z) (n : nat) :
  byte r -> byte g -> byte b -> Forall byte (List.concat (repeat [r; g; b] n)).
Proof.
  intros Hr Hg Hb. apply Forall_concat_repeat.
  constructor; [exact Hr | constructor; [exact Hg | constructor; [exact Hb | constructor]]].
Qed.

Lemma red_blue_image_bytes :
  forall img,
    Image_open Sample.red_blue "red_blue.png" = OK img -> Forall byte (data img).
Proof.
  intros img H. change (OK Sample.red_blue_image = OK img) in H.
  injection H as <-.
  unfold Sample.red_blue_image. cbv beta iota delta [data].
  apply Forall_app; split; apply repeated_pixel_bytes; unfold byte; lia.
Qed.

Lemma palette_colors_are_bytes_witness :
  Forall byte_color
    (get (rgb_ (snd (extract_colors Sample.red_blue 2 "red_blue.png"))) [])
  /\ Forall (fun h =>
               String.length h = 7%nat
               /\ exists c,
                    byte_color c /\ h = hex_of_rgb c
                    /\ ModelGenerator.parse_rgb (lstrip_hash h) = OK c)
            (fst (extract_colors Sample.red_blue 2 "red_blue.png")).
Proof.
  apply (@palette_colors_are_bytes Sample.red_blue 2 "red_blue.png"
           red_blue_returns_kmeans red_blue_image_bytes).
Defined.

End PaletteBytes.

(* ------------------------------------------------------------------ *)
(** ** ImageAnalyzer: an analysis that completes *)

Section DesignSuggestions.

Import ImageAnalyzer.
Import Spec.
Local Open Scope string_scope.

(** The record that [analyze_image] returns when nothing reaches its [try]
    block. *)
Lemma analyze_image_success (X : Ext) (output_dir image_path : string)
    (generate_visualizations : bool) :
  error (analyze_image X output_dir image_path generate_visualizations) = None ->
  exists palette files,
    ColorExtractor.get_color_palette (color_extractor X) 5 image_path
      generate_visualizations (Some (Spec.output_directory X output_dir image_path))
    = OK palette
    /\ analyze_image X output_dir image_path generate_visualizations
       = {| error := None;
            image_path_ := Some image_path;
            status := None;
            color_analysis := Some palette;
            texture_analysis :=
              Some (TextureAnalyzer.analyze_texture (texture_analyzer X) image_path);
            shape_analysis :=
              Some (ShapeDetector.detect_shapes (shape_detector X) image_path);
            model_parameters :=
              Some (ModelGenerator.generate_model_parameters (model_generator X)
                      image_path
                      (ShapeDetector.detect_shapes (shape_detector X) image_path)
                      palette
                      (TextureAnalyzer.analyze_texture (texture_analyzer X)
                         image_path));
            ImageAnalyzer.output_directory := Some (Spec.output_directory X output_dir image_path);
            visualization_files := Some files |}.
Proof.
  unfold analyze_image.
  destruct (analyze_image_body X output_dir image_path generate_visualizations)
    as [r | e] eqn:Hbody; simpl; [intros _ | discriminate].
  unfold analyze_image_body in Hbody.
  fold (Spec.output_directory X output_dir image_path) in Hbody.
  apply bind_OK_inv in Hbody. destruct Hbody as [? [_ Hbody]].
  apply bind_OK_inv in Hbody. destruct Hbody as [? [_ Hbody]].
  apply bind_OK_inv in Hbody. destruct Hbody as [palette [Hpalette Hbody]].
  apply bind_OK_inv in Hbody. destruct Hbody as [files [_ Hbody]].
  injection Hbody as <-. exists palette, files. split; [exact Hpalette | reflexivity].
Qed.

Lemma get_color_palette_fields (X : ColorExtractor.Ext) (n_colors : nat)
    (image_path : string) (save_visualization : bool) (output_dir : option string)
    (palette : ColorExtractor.palette) :
  ColorExtractor.get_color_palette X n_colors image_path save_visualization output_dir
  = OK palette ->
  ColorExtractor.hex_colors palette
  = Some (fst (ColorExtractor.extract_colors X n_colors image_path)).
Proof.
  unfold ColorExtractor.get_color_palette.
  destruct (ColorExtractor.extract_colors X n_colors image_path) as [hexs info].
  intros H. apply bind_OK_inv in H. destruct H as [? [_ H]].
  injection H as <-. reflexivity.
Qed.

Lemma process_colors_returns (ca : ColorExtractor.palette)
    (printed : list ColorExtractor.rgb) :
  Forall byte_color printed ->
  ColorExtractor.hex_colors ca = Some (map ColorExtractor.hex_of_rgb printed) ->
  exists named, ModelGenerator._process_colors ca = OK named.
Proof.
  intros Hbytes Hhex. unfold ModelGenerator._process_colors.
  rewrite Hhex. simpl get. rewrite firstn_map.
  pose proof (Forall_firstn 3 Hbytes) as Hfirst.
  induction Hfirst as [ | c l Hc _ [named IH]].
  - exists []. reflexivity.
  - assert (Hname : exists name,
               ModelGenerator._find_closest_color_name
                 (ColorExtractor.hex_of_rgb c) ModelGenerator.color_names = OK name).
    { unfold ModelGenerator._find_closest_color_name.
      destruct (ModelGenerator.lookup _ _) as [name | ]; [exists name; reflexivity | ].
      rewrite (parse_rgb_hex_of_rgb Hc). cbv beta iota delta [bind].
      apply closest_loop_returns, color_names_parse. }
    destruct Hname as [name Hname]. eexists.
    simpl mapM. rewrite Hname. simpl bind. rewrite IH. reflexivity.
Qed.

Lemma color_suggestions_returns (printed : list ColorExtractor.rgb) :
  Forall byte_color printed ->
  exists suggestions,
    _generate_color_suggestions (map ColorExtractor.hex_of_rgb printed)
    = OK suggestions.
Proof.
  intros Hbytes. destruct printed as [ | c printed].
  - eexists. reflexivity.
  - eexists. apply (color_suggestions_of_bytes Hbytes). discriminate.
Qed.

Lemma analyze_texture_type (X : TextureAnalyzer.Ext) (image_path : string) :
  exists t,
    TextureAnalyzer.texture_type (TextureAnalyzer.analyze_texture X image_path)
    = Some t.
Proof.
  unfold TextureAnalyzer.analyze_texture.
  destruct (TextureAnalyzer.imread X image_path); eexists; reflexivity.
Qed.

Lemma detect_shapes_keys (X : ShapeDetector.Ext) (image_path : string) :
  exists ds c,
    ShapeDetector.dominant_shapes (ShapeDetector.detect_shapes X image_path) = Some ds
    /\ ShapeDetector.shape_complexity (ShapeDetector.detect_shapes X image_path)
       = Some c.
Proof.
  unfold ShapeDetector.detect_shapes.
  destruct (detect_shapes_body_outcome X image_path)
    as [[e [Hbody _]] | [img [info [ds [_ [_ [_ Hbody]]]]]]];
    rewrite Hbody; eexists; eexists; split; reflexivity.
Qed.

(** With a clustering that returns k-means results, on an image whose array
    holds bytes, an analysis that completes is never followed by a fallback:
    the model parameters are those of the rules, with the form type that
    [_determine_model_type] gives and never the basic cube, and the design
    suggestions are three dictionaries, whose recommended materials are the
    materials of the model. *)
Theorem completed_analysis_never_falls_back (X : Ext)
    (output_dir image_path : string) (generate_visualizations : bool) :
  returns_kmeans (color_extractor X) 5 ->
  (forall img,
      ColorExtractor.Image_open (color_extractor X) image_path = OK img ->
      Forall byte (data img)) ->
  error (analyze_image X output_dir image_path generate_visualizations) = None ->
  exists model colors materials forms approach,
    model_parameters (analyze_image X output_dir image_path generate_visualizations)
    = Some model
    /\ ModelGenerator.type model
       = ModelGenerator._determine_model_type
           (ShapeDetector.detect_shapes (shape_detector X) image_path)
    /\ ModelGenerator.type model <> "basic_cube"
    /\ generate_design_suggestions
         (analyze_image X output_dir image_path generate_visualizations)
       = {| color_suggestions_ := dict colors;
            material_suggestions_ := dict materials;
            form_suggestions_ := dict forms;
            design_approach := approach |}
    /\ recommended_materials materials = ModelGenerator.materials model.
Proof.
  intros Hkm Hbytes Herror.
  destruct (analyze_image_success _ _ _ _ Herror) as [palette [files [Hpal ->]]].
  pose proof (get_color_palette_fields _ _ _ _ _ Hpal) as Hhex.
  destruct (@extract_colors_bytes _ _ image_path Hkm Hbytes) as [[printed [Hprinted Hpb]] _].
  rewrite Hprinted in Hhex.
  destruct (@process_colors_returns palette printed Hpb Hhex) as [named Hnamed].
  destruct (color_suggestions_returns Hpb) as [cs Hcs].
  destruct (analyze_texture_type (texture_analyzer X) image_path) as [t Ht].
  destruct (detect_shapes_keys (shape_detector X) image_path) as [ds [c [Hds Hc]]].
  set (sa := ShapeDetector.detect_shapes (shape_detector X) image_path) in *.
  set (ta := TextureAnalyzer.analyze_texture (texture_analyzer X) image_path) in *.
  assert (Hmodel : ModelGenerator.generate_model_parameters (model_generator X)
                     image_path sa palette ta
                   = {| ModelGenerator.type := ModelGenerator._determine_model_type sa;
                        ModelGenerator.dimensions_ :=
                          ModelGenerator._generate_dimensions sa;
                        ModelGenerator.colors := named;
                        ModelGenerator.materials :=
                          ModelGenerator._suggest_materials ta;
                        ModelGenerator.details :=
                          ModelGenerator._generate_details sa ta |}).
  { unfold ModelGenerator.generate_model_parameters, ModelGenerator.model_params_body.
    rewrite Hnamed. reflexivity. }
  rewrite Hmodel. clear Hmodel.
  assert (Happroach : exists approach,
             _determine_design_approach
               {| error := None;
                  image_path_ := Some image_path;
                  status := None;
                  color_analysis := Some palette;
                  texture_analysis := Some ta;
                  shape_analysis := Some sa;
                  model_parameters :=
                    Some {| ModelGenerator.type := ModelGenerator._determine_model_type sa;
                            ModelGenerator.dimensions_ :=
                              ModelGenerator._generate_dimensions sa;
                            ModelGenerator.colors := named;
                            ModelGenerator.materials :=
                              ModelGenerator._suggest_materials ta;
                            ModelGenerator.details :=
                              ModelGenerator._generate_details sa ta |};
                  ImageAnalyzer.output_directory :=
                    Some (Spec.output_directory X output_dir image_path);
                  visualization_files := Some files |} = OK approach).
  { unfold _determine_design_approach. simpl. rewrite Ht, Hc, Hds. simpl.
    destruct (_ && _); [eexists; reflexivity | ].
    destruct (_ && _); [eexists; reflexivity | ].
    destruct (contains _ _); [eexists; reflexivity | ].
    destruct (_ && _); eexists; reflexivity. }
  destruct Happroach as [approach Happroach].
  eexists. exists cs. eexists. eexists. exists approach.
  split; [reflexivity | ]. split; [reflexivity | ].
  split.
  { simpl. unfold ModelGenerator._determine_model_type.
    repeat match goal with |- context [if ?b then _ else _] => destruct b end;
      discriminate. }
  unfold generate_design_suggestions, design_suggestions_body.
  simpl color_analysis. simpl texture_analysis. simpl shape_analysis.
  simpl model_parameters.
  cbv beta iota delta [item bind].
  rewrite Hhex, Ht, Hds. cbv beta iota. rewrite Hcs, Happroach.
  split; reflexivity.
Qed.


Lemma five_color_returns_kmeans :
  returns_kmeans (color_extractor Sample.five_color_run) 5.
Proof.
  intros pixels fitted H.
  change (Sample.fit_returning Sample.first_run 5 pixels = OK fitted) in H.
  unfold Sample.fit_returning in H.
  destruct (is_kmeans 5 pixels Sample.first_run) eqn:E; [ | discriminate H].
  injection H as <-. exact E.
Qed.

Lemma five_color_image_bytes :
  forall img,
    ColorExtractor.Image_open (color_extractor Sample.five_color_run) "five.png"
    = OK img ->
    Forall byte (data img).
Proof.
  intros img H. change (OK Sample.five_color_image = OK img) in H.
  injection H as <-.
  unfold Sample.five_color_image. cbv beta iota delta [data].
  apply Forall_app; split; [apply repeated_pixel_bytes; unfold byte; lia | ].
  apply Forall_app; split; [apply repeated_pixel_bytes; unfold byte; lia | ].
  apply Forall_app; split; [apply repeated_pixel_bytes; unfold byte; lia | ].
  apply Forall_app; split; apply repeated_pixel_bytes; unfold byte; lia.
Qed.

Lemma completed_analysis_never_falls_back_witness :
  exists model colors materials forms approach,
    model_parameters (analyze_image Sample.five_color_run "./output" "five.png" false)
    = Some model
    /\ ModelGenerator.type model
       = ModelGenerator._determine_model_type
           (ShapeDetector.detect_shapes (shape_detector Sample.five_color_run)
              "five.png")
    /\ ModelGenerator.type model <> "basic_cube"
    /\ generate_design_suggestions
         (analyze_image Sample.five_color_run "./output" "five.png" false)
       = {| color_suggestions_ := dict colors;
            material_suggestions_ := dict materials;
            form_suggestions_ := dict forms;
            design_approach := approach |}
    /\ recommended_materials materials = ModelGenerator.materials model.
Proof.
  apply (@completed_analysis_never_falls_back Sample.five_color_run "./output"
           "five.png" false five_color_returns_kmeans five_color_image_bytes).
  vm_compute. reflexivity.
Defined.

(** [_generate_form_suggestions] and [_determine_model_type] read the same
    list of dominant shapes with the same precedence for the first three
    groups of labels: the description speaks of curved elements exactly for
    a cylindrical model, of clean lines exactly for a box, of dynamic angles
    exactly for a pyramid.  The description has no case for Polygon: it
    speaks of natural contours exactly when Organic is listed and the model
    is a polyhedron or organic, and of mixed elements for a polyhedron
    without Organic and for a generic model. *)
Theorem form_description_follows_model_type (sa : ShapeDetector.shape_analysis)
    (ds : list string) (model_type : string) :
  ShapeDetector.dominant_shapes sa = Some ds ->
  (ModelGenerator._determine_model_type sa = "cylindrical"
   <-> form_description (_generate_form_suggestions ds model_type)
       = "Balanced form with curved elements and organic flow")
  /\ (ModelGenerator._determine_model_type sa = "box"
      <-> form_description (_generate_form_suggestions ds model_type)
          = "Balanced form with clean lines and structured geometry")
  /\ (ModelGenerator._determine_model_type sa = "pyramid"
      <-> form_description (_generate_form_suggestions ds model_type)
          = "Balanced form with dynamic angles and directional elements")
  /\ ((In "Organic" ds
       /\ (ModelGenerator._determine_model_type sa = "polyhedron"
           \/ ModelGenerator._determine_model_type sa = "organic"))
      <-> form_description (_generate_form_suggestions ds model_type)
          = "Balanced form with natural, flowing contours")
  /\ ((ModelGenerator._determine_model_type sa = "generic"
       \/ (ModelGenerator._determine_model_type sa = "polyhedron"
           /\ ~ In "Organic" ds))
      <-> form_description (_generate_form_suggestions ds model_type)
          = "Balanced form with mixed geometric elements").
Proof.
  intros Hds. unfold ModelGenerator._determine_model_type, _generate_form_suggestions.
  rewrite Hds. simpl get. simpl form_description.
  destruct (str_in "Circle" ds || str_in "Circular" ds);
    [ | destruct (str_in "Rectangle" ds || str_in "Square" ds);
        [ | destruct (str_in "Triangle" ds);
            [ | destruct (str_in "Polygon" ds);
                destruct (str_in_reflect "Organic" ds) ] ] ];
    simpl; (split; [ | split; [ | split; [ | split]]]); (split; intros H);
    try discriminate H; try reflexivity;
    try match type of H with
        | _ /\ (_ \/ _) =>
            destruct H as [Hin [H1 | H1]]; first [discriminate H1 | contradiction]
        | _ \/ (_ /\ _) =>
            destruct H as [H1 | [H1 Hn]]; first [discriminate H1 | contradiction]
        end;
    try (split; [assumption | first [left; reflexivity | right; reflexivity]]);
    try (left; reflexivity); try (right; split; [reflexivity | assumption]).
Qed.

Lemma form_description_follows_model_type_witness :
  (ModelGenerator._determine_model_type Sample.one_rectangle = "cylindrical"
   <-> form_description (_generate_form_suggestions ["Rectangle"; "Circle"] "box")
       = "Balanced form with curved elements and organic flow")
  /\ (ModelGenerator._determine_model_type Sample.one_rectangle = "box"
      <-> form_description (_generate_form_suggestions ["Rectangle"; "Circle"] "box")
          = "Balanced form with clean lines and structured geometry")
  /\ (ModelGenerator._determine_model_type Sample.one_rectangle = "pyramid"
      <-> form_description (_generate_form_suggestions ["Rectangle"; "Circle"] "box")
          = "Balanced form with dynamic angles and directional elements")
  /\ ((In "Organic" ["Rectangle"; "Circle"]
       /\ (ModelGenerator._determine_model_type Sample.one_rectangle = "polyhedron"
           \/ ModelGenerator._determine_model_type Sample.one_rectangle = "organic"))
      <-> form_description (_generate_form_suggestions ["Rectangle"; "Circle"] "box")
          = "Balanced form with natural, flowing contours")
  /\ ((ModelGenerator._determine_model_type Sample.one_rectangle = "generic"
       \/ (ModelGenerator._determine_model_type Sample.one_rectangle = "polyhedron"
           /\ ~ In "Organic" ["Rectangle"; "Circle"]))
      <-> form_description (_generate_form_suggestions ["Rectangle"; "Circle"] "box")
          = "Balanced form with mixed geometric elements").
Proof.
  apply (@form_description_follows_model_type Sample.one_rectangle
           ["Rectangle"; "Circle"] "box").
  reflexivity.
Defined.

End DesignSuggestions.

(* ------------------------------------------------------------------ *)
(** ** ImageAnalyzer: an image that cannot be decoded *)

Section Undecodable.

Import ImageAnalyzer.
Import Spec.
Local Open Scope string_scope.

(** A file that exists and that neither PIL nor OpenCV can decode is not
    reported as a failure.  Every stage catches its own exception, and the
    record holds the empty palette, the generic model with the unit cube, no
    colour, Plastic and no detail; the design suggestions made from it are
    the ones of the default grey, of recycled plastic and of mixed geometric
    elements, with the Balanced approach. *)
Theorem undecodable_image_gets_defaults (X : Ext) (output_dir image_path : string)
    (e : exn) :
  exists_ X image_path = true ->
  makedirs X (Spec.output_directory X output_dir image_path) = OK tt ->
  ColorExtractor.Image_open (color_extractor X) image_path = Raise e ->
  TextureAnalyzer.imread (texture_analyzer X) image_path = None ->
  ShapeDetector.imread (shape_detector X) image_path = None ->
  error (analyze_image X output_dir image_path false) = None
  /\ color_analysis (analyze_image X output_dir image_path false)
     = Some empty_palette
  /\ model_parameters (analyze_image X output_dir image_path false)
     = Some {| ModelGenerator.type := "generic";
               ModelGenerator.dimensions_ := unit_cube;
               ModelGenerator.colors := [];
               ModelGenerator.materials := ["Plastic"];
               ModelGenerator.details := [] |}
  /\ generate_design_suggestions (analyze_image X output_dir image_path false)
     = {| color_suggestions_ :=
            dict {| primary_palette := ["#CCCCCC"];
                    complementary_palette := ["#333333"];
                    recommended_accent := "#333333" |};
          material_suggestions_ :=
            dict {| recommended_materials := ["Plastic"];
                    eco_friendly_alternatives := ["Recycled Plastic"];
                    texture_recommendation := "unknown finish" |};
          form_suggestions_ :=
            dict {| form_description :=
                      "Balanced form with mixed geometric elements";
                    recommended_proportions :=
                      "Balanced proportions with visual hierarchy";
                    ergonomic_considerations :=
                      ["Consider user comfort and accessibility";
                       "Balance aesthetics with usability";
                       "Consider user interaction points"] |};
          design_approach := "Balanced" |}.
Proof.
  intros Hexists Hdirs Hopen Htexture Hshape.
  assert (Hpalette : forall dir,
             ColorExtractor.get_color_palette (color_extractor X) 5 image_path
               false dir = OK empty_palette).
  { intros dir. unfold ColorExtractor.get_color_palette, ColorExtractor.extract_colors.
    rewrite Hopen. reflexivity. }
  unfold analyze_image, analyze_image_body.
  fold (Spec.output_directory X output_dir image_path).
  rewrite Hexists. cbv beta iota delta [bind]. rewrite Hdirs. cbv beta iota.
  rewrite Hpalette. cbv beta iota.
  unfold TextureAnalyzer.analyze_texture. rewrite Htexture.
  unfold ShapeDetector.detect_shapes, ShapeDetector.detect_shapes_body.
  rewrite Hshape.
  repeat split; reflexivity.
Qed.

Lemma undecodable_image_gets_defaults_witness :
  error (analyze_image Sample.unreadable "./output" "photo.png" false) = None
  /\ color_analysis (analyze_image Sample.unreadable "./output" "photo.png" false)
     = Some empty_palette
  /\ model_parameters (analyze_image Sample.unreadable "./output" "photo.png" false)
     = Some {| ModelGenerator.type := "generic";
               ModelGenerator.dimensions_ := unit_cube;
               ModelGenerator.colors := [];
               ModelGenerator.materials := ["Plastic"];
               ModelGenerator.details := [] |}
  /\ generate_design_suggestions
       (analyze_image Sample.unreadable "./output" "photo.png" false)
     = {| color_suggestions_ :=
            dict {| primary_palette := ["#CCCCCC"];
                    complementary_palette := ["#333333"];
                    recommended_accent := "#333333" |};
          material_suggestions_ :=
            dict {| recommended_materials := ["Plastic"];
                    eco_friendly_alternatives := ["Recycled Plastic"];
                    texture_recommendation := "unknown finish" |};
          form_suggestions_ :=
            dict {| form_description :=
                      "Balanced form with mixed geometric elements";
                    recommended_proportions :=
                      "Balanced proportions with visual hierarchy";
                    ergonomic_considerations :=
                      ["Consider user comfort and accessibility";
                       "Balance aesthetics with usability";
                       "Consider user interaction points"] |};
          design_approach := "Balanced" |}.
Proof.
  apply (@undecodable_image_gets_defaults Sample.unreadable "./output" "photo.png"
           (OSError "cannot identify image file"));
    reflexivity.
Defined.

End Undecodable.

(* ------------------------------------------------------------------ *)
(** ** ImageAnalyzer: the design approach *)

Section DesignApproach.

Import ImageAnalyzer.
Import Spec.
Local Open Scope string_scope.

Lemma label_lists_complete (labels : list string) (n : nat) :
  forall ds,
    Forall (fun label => In label labels) ds -> (List.length ds <= n)%nat ->
    In ds (label_lists n labels).
Proof.
  induction n as [ | n IH]; intros ds Hall Hlen.
  - destruct ds; [left; reflexivity | simpl in Hlen; lia].
  - destruct ds as [ | d ds]; [left; reflexivity | ].
    right. inversion Hall as [ | ? ? Hd Hds]; subst.
    apply in_flat_map. exists d. split; [exact Hd | ].
    apply in_map. apply IH; [exact Hds | simpl in Hlen; lia].
Qed.

Lemma textual_test_on_labels :
  forallb textual_test_agrees (label_lists 4 dominant_labels) = true.
Proof. vm_compute. reflexivity. Qed.

Lemma textual_test_is_membership (ds : list string) :
  Forall (fun label => In label dominant_labels) ds -> (List.length ds <= 4)%nat ->
  contains "Geometric" (str_of_list ds) = str_in "Geometric" ds.
Proof.
  intros Hall Hlen.
  pose proof textual_test_on_labels as H. rewrite forallb_forall in H.
  specialize (H ds (@label_lists_complete dominant_labels 4 ds Hall Hlen)).
  apply Bool.eqb_prop. exact H.
Qed.


Lemma detect_shapes_listed (X : ShapeDetector.Ext) (image_path : string) :
  exists ds c,
    ShapeDetector.dominant_shapes (ShapeDetector.detect_shapes X image_path) = Some ds
    /\ ShapeDetector.shape_complexity (ShapeDetector.detect_shapes X image_path)
       = Some c
    /\ (List.length ds <= 4)%nat
    /\ Forall (fun label => In label dominant_labels) ds
    /\ (In "Geometric" ds -> c <> "High").
Proof.
  unfold ShapeDetector.detect_shapes.
  destruct (detect_shapes_body_outcome X image_path)
    as [[e [Hbody _]] | [img [info [ds [_ [Hinfo [Hds Hbody]]]]]]];
    rewrite Hbody; simpl.
  - exists ["Unknown"], "Low". split; [reflexivity | ]. split; [reflexivity | ].
    split; [simpl; lia | ].
    split; [repeat constructor; unfold dominant_labels, shape_types; simpl; tauto | ].
    intros _. discriminate.
  - exists ds, (ShapeDetector.complexity info).
    split; [reflexivity | ]. split; [reflexivity | ].
    destruct (retained_types (analyze_contours_shapes _ _ _ Hinfo))
      as [types [Htypes Hknown]].
    destruct (dominant_shapes_shape _ _ _ Hds) as [types' [_ [Hlen _]]].
    destruct (@dominant_shapes_labels _ _ _ _ _ Hds Htypes Hknown
                (proj1 (proj1 (analyze_contours_complexity _ _ _ Hinfo))))
      as [Hlabels Hgeo].
    split; [lia | ].
    split; [eapply Forall_impl; [ | exact Hlabels]; intros label Hl; apply Hl | ].
    intros Hin. apply (Hgeo Hin).
Qed.

(** On what [detect_shapes] returns, the textual test of
    [_determine_design_approach], which looks for Geometric in the printed
    list, finds it exactly when Geometric is one of the dominant shapes.
    The approach is then Geometric/Structured unless a Smooth or Matte
    texture with a Low complexity made it Minimalist; the second rule cannot
    come before it, since Geometric is not listed at a High complexity. *)
Theorem design_approach_of_detected_shapes (X : ShapeDetector.Ext)
    (image_path : string) (results : analysis_results)
    (texture : TextureAnalyzer.texture_analysis) (t : string) :
  shape_analysis results = Some (ShapeDetector.detect_shapes X image_path) ->
  texture_analysis results = Some texture ->
  TextureAnalyzer.texture_type texture = Some t ->
  exists ds c,
    ShapeDetector.dominant_shapes (ShapeDetector.detect_shapes X image_path) = Some ds
    /\ ShapeDetector.shape_complexity (ShapeDetector.detect_shapes X image_path)
       = Some c
    /\ (contains "Geometric" (str_of_list ds) = true <-> In "Geometric" ds)
    /\ (_determine_design_approach results = OK "Geometric/Structured"
        <-> In "Geometric" ds /\ ~ (In t ["Smooth"; "Matte"] /\ c = "Low"))
    /\ exists approach,
         _determine_design_approach results = OK approach
         /\ In approach ["Minimalist"; "Organic/Natural"; "Geometric/Structured";
                         "Modern/Sleek"; "Balanced"].
Proof.
  intros Hshapes Htexture Htype.
  destruct (detect_shapes_listed X image_path)
    as [ds [c [Hds [Hc [Hlen [Hlabels Hgeo]]]]]].
  exists ds, c. split; [exact Hds | ]. split; [exact Hc | ].
  pose proof (textual_test_is_membership Hlabels Hlen) as Htest.
  split; [rewrite Htest; apply str_in_In | ].
  unfold _determine_design_approach.
  rewrite Htexture, Hshapes. cbv beta iota delta [item bind].
  rewrite Htype, Hc, Hds. cbv beta iota. rewrite Htest.
  destruct (str_in_reflect t ["Smooth"; "Matte"]) as [Hsm | Hsm];
    destruct (String.eqb_spec c "Low") as [Hlow | Hlow];
    destruct (str_in t ["Textured"; "Rough"]);
    destruct (String.eqb_spec c "High") as [Hhigh | Hhigh];
    destruct (str_in_reflect "Geometric" ds) as [Hin | Hin];
    destruct (String.eqb t "Smooth");
    cbv beta iota delta [andb];
    try (exfalso; apply (Hgeo Hin); exact Hhigh);
    (split;
     [ split;
       [ intros H; first [discriminate H | split; [assumption | tauto]]
       | intros [H1 H2];
         first [reflexivity | contradiction | exfalso; apply H2; split; assumption] ]
     | eexists; split; [reflexivity | simpl; tauto] ]).
Qed.

Lemma design_approach_of_detected_shapes_witness :
  exists ds c,
    ShapeDetector.dominant_shapes
      (ShapeDetector.detect_shapes Sample.two_squares "squares.png") = Some ds
    /\ ShapeDetector.shape_complexity
         (ShapeDetector.detect_shapes Sample.two_squares "squares.png") = Some c
    /\ (contains "Geometric" (str_of_list ds) = true <-> In "Geometric" ds)
    /\ (_determine_design_approach
          {| error := None;
             image_path_ := Some "squares.png";
             status := None;
             color_analysis := None;
             texture_analysis := Some Sample.smooth;
             shape_analysis :=
               Some (ShapeDetector.detect_shapes Sample.two_squares "squares.png");
             model_parameters := None;
             ImageAnalyzer.output_directory := None;
             visualization_files := None |} = OK "Geometric/Structured"
        <-> In "Geometric" ds /\ ~ (In "Smooth" ["Smooth"; "Matte"] /\ c = "Low"))
    /\ exists approach,
         _determine_design_approach
           {| error := None;
              image_path_ := Some "squares.png";
              status := None;
              color_analysis := None;
              texture_analysis := Some Sample.smooth;
              shape_analysis :=
                Some (ShapeDetector.detect_shapes Sample.two_squares "squares.png");
              model_parameters := None;
              ImageAnalyzer.output_directory := None;
              visualization_files := None |} = OK approach
         /\ In approach ["Minimalist"; "Organic/Natural"; "Geometric/Structured";
                         "Modern/Sleek"; "Balanced"].
Proof.
  apply (@design_approach_of_detected_shapes Sample.two_squares "squares.png"
           {| error := None;
              image_path_ := Some "squares.png";
              status := None;
              color_analysis := None;
              texture_analysis := Some Sample.smooth;
              shape_analysis :=
                Some (ShapeDetector.detect_shapes Sample.two_squares "squares.png");
              model_parameters := None;
              ImageAnalyzer.output_directory := None;
              visualization_files := None |}
           Sample.smooth "Smooth");
    reflexivity.
Defined.

End DesignApproach.

(* ------------------------------------------------------------------ *)
(** ** ShapeDetector: the count, the complexity and the details *)

Section ShapeDetails.

Import ShapeDetector.
Import Spec.
Local Open Scope string_scope.


End ShapeDetails.
